(** * Squid microscope controller firmware: protocol engine and strobe timing

    A shallow embedding of five pieces of the firmware and the properties
    proved about them:

    - [Strobe]: the strobe/trigger timer interrupt of the Teensy 4.1 main
      controller (octopi_firmware_v3, functions.cpp);
    - [LedArray] and [Joystick]: the LED matrix patterns and the handler of
      the joystick panel's packets, of the same file;
    - [ProtocolV2]: the variable-length packet receiver, the command
      dispatcher and the response builder (controller, protocol_v2.cpp);
    - [TtlOnly]: the fixed-length legacy protocol of the TTL-only build
      (controller_ttl_only).

    Machine integers are [Z] with the wrap-around written where the C code
    converts; arrays are lists read with [!!!] and written with [<[_:=_]>];
    global variables are record fields carrying the names of the source. *)

From Stdlib Require Import ZArith List Bool Lia.
From Stdlib Require Import Floats.SpecFloat.
From stdpp Require Import base list.
Import ListNotations.
Local Open Scope Z_scope.

(** ** Fixed-width integers *)

Definition to_u8 (v : Z) : Z := v mod 2 ^ 8.
Definition to_u16 (v : Z) : Z := v mod 2 ^ 16.
Definition to_u32 (v : Z) : Z := v mod 2 ^ 32.

(** A value that fits an unsigned byte. *)
Definition is_u8 (v : Z) : Prop := 0 <= v < 256.

(** Little-endian image of a 16-bit and of a 32-bit field in a packed struct. *)
Definition le16 (v : Z) : list Z :=
  [Z.land v 0xFF; Z.land (Z.shiftr v 8) 0xFF].
Definition le32 (v : Z) : list Z :=
  [Z.land v 0xFF; Z.land (Z.shiftr v 8) 0xFF;
   Z.land (Z.shiftr v 16) 0xFF; Z.land (Z.shiftr v 24) 0xFF].

(* ===================================================================== *)
(** * Strobe / trigger timing engine (octopi_firmware_v3, functions.cpp)  *)
(* ===================================================================== *)

Module Strobe.

Definition LOW : bool := false.
Definition HIGH : bool := true.

(** The six parallel per-channel arrays declared at functions.cpp:191-197. *)
Record Channels := {
  trigger_output_level : list bool;
  control_strobe : list bool;
  strobe_output_level : list bool;
  strobe_on : list bool;
  strobe_delay : list Z;                    (* unsigned long *)
  illumination_on_time : list Z;            (* long *)
  timestamp_trigger_rising_edge : list Z    (* long *)
}.

(** The static initialisers of the arrays. *)
Definition initial_channels : Channels := {|
  trigger_output_level := replicate 6 HIGH;
  control_strobe := replicate 6 false;
  strobe_output_level := replicate 6 LOW;
  strobe_on := replicate 6 false;
  strobe_delay := replicate 6 0;
  illumination_on_time := replicate 6 0;
  timestamp_trigger_rising_edge := replicate 6 0
|}.

(** What the interrupt handler does to the outside world.  Which LED pattern
    or laser line [turn_on_illumination] drives is decided by the selected
    illumination source and is not part of the timing engine; the handler's
    calls are recorded in order. *)
Inductive HwAction :=
| IlluminationOn
| IlluminationOff
| BusyWait (usec : Z).   (* delayMicroseconds(usec), argument as passed *)

(** The state the interrupt handler works on.  [clock] is the free-running
    microsecond counter behind [micros()].  Inside the handler it advances
    by the busy-waits and by the time that passes otherwise: while
    [turn_on_illumination] drives a laser line or the whole LED matrix, and
    between any two statements.  That time is outside the handler's control;
    [elapses] lists, for each coming read of [micros()], the time that has
    passed since the clock last advanced, busy-waits apart.  Once the list
    has run out no more such time passes. *)
Record State := {
  channels : Channels;
  illumination_is_on : bool;
  clock : Z;
  actions : list HwAction;
  elapses : list Z
}.

Definition with_channels (s : State) (c : Channels) : State :=
  {| channels := c; illumination_is_on := illumination_is_on s;
     clock := clock s; actions := actions s; elapses := elapses s |}.

(** [control_strobe[ch] = v] *)
Definition set_control_strobe (ch : nat) (v : bool) (s : State) : State :=
  let c := channels s in
  with_channels s
    {| trigger_output_level := trigger_output_level c;
       control_strobe := <[ch := v]> (control_strobe c);
       strobe_output_level := strobe_output_level c;
       strobe_on := strobe_on c;
       strobe_delay := strobe_delay c;
       illumination_on_time := illumination_on_time c;
       timestamp_trigger_rising_edge := timestamp_trigger_rising_edge c |}.

(** [strobe_output_level[ch] = v] *)
Definition set_strobe_output_level (ch : nat) (v : bool) (s : State) : State :=
  let c := channels s in
  with_channels s
    {| trigger_output_level := trigger_output_level c;
       control_strobe := control_strobe c;
       strobe_output_level := <[ch := v]> (strobe_output_level c);
       strobe_on := strobe_on c;
       strobe_delay := strobe_delay c;
       illumination_on_time := illumination_on_time c;
       timestamp_trigger_rising_edge := timestamp_trigger_rising_edge c |}.

Definition turn_on_illumination (s : State) : State :=
  {| channels := channels s; illumination_is_on := true;
     clock := clock s; actions := actions s ++ [IlluminationOn];
     elapses := elapses s |}.

Definition turn_off_illumination (s : State) : State :=
  {| channels := channels s; illumination_is_on := false;
     clock := clock s; actions := actions s ++ [IlluminationOff];
     elapses := elapses s |}.

(** Time passes until [micros()] is read the next time. *)
Definition pass (s : State) : State :=
  match elapses s with
  | [] => s
  | d :: rest =>
      {| channels := channels s; illumination_is_on := illumination_is_on s;
         clock := clock s + d; actions := actions s; elapses := rest |}
  end.

(** What [micros()] returns, the 32-bit counter, once [pass] has brought the
    clock to the time of the read. *)
Definition micros (s : State) : Z := to_u32 (clock s).

(** [delayMicroseconds(usec)]: the parameter is a [uint32_t]. *)
Definition delayMicroseconds (usec : Z) (s : State) : State :=
  {| channels := channels s; illumination_is_on := illumination_is_on s;
     clock := clock s + to_u32 usec; actions := actions s ++ [BusyWait usec];
     elapses := elapses s |}.

(** [micros() - timestamp_trigger_rising_edge[ch]], an [unsigned long]. *)
Definition since_rising_edge (ch : nat) (s : State) : Z :=
  to_u32 (micros s - timestamp_trigger_rising_edge (channels s) !!! ch).

(** [strobe_delay[ch] + illumination_on_time[ch]], an [unsigned long]. *)
Definition strobe_end (ch : nat) (s : State) : Z :=
  to_u32 (strobe_delay (channels s) !!! ch
          + illumination_on_time (channels s) !!! ch).

(** The body of the loop of [ISR_strobeTimer] for one [camera_channel].
    Each condition reads [micros()] first, whatever the output level is. *)
Definition strobe_channel (camera_channel : nat) (s : State) : State :=
  let ch := camera_channel in
  if (control_strobe (channels s) !!! ch : bool) then
    if illumination_on_time (channels s) !!! ch <=? 30000 then
      let s0 := pass s in                                       (* micros() *)
      if (strobe_delay (channels s0) !!! ch <=? since_rising_edge ch s0)
         && eqb (strobe_output_level (channels s0) !!! ch) LOW
      then
        let s1 := turn_on_illumination s0 in
        let s2 := delayMicroseconds (illumination_on_time (channels s1) !!! ch) s1 in
        let s3 := turn_off_illumination s2 in
        set_control_strobe ch false s3
      else s0
    else
      (* start the strobe *)
      let s0 := pass s in                                       (* micros() *)
      let s1 :=
        if (strobe_delay (channels s0) !!! ch <=? since_rising_edge ch s0)
           && eqb (strobe_output_level (channels s0) !!! ch) LOW
        then set_strobe_output_level ch HIGH (turn_on_illumination s0)
        else s0 in
      (* end the strobe *)
      let s2 := pass s1 in                                      (* micros() *)
      if (strobe_end ch s2 <=? since_rising_edge ch s2)
         && eqb (strobe_output_level (channels s2) !!! ch) HIGH
      then
        set_control_strobe ch false
          (set_strobe_output_level ch LOW (turn_off_illumination s2))
      else s2
  else s.

(** The loop over the channels [0 .. upto-1]. *)
Definition strobe_channels_upto (upto : nat) (s : State) : State :=
  fold_left (fun acc ch => strobe_channel ch acc) (seq 0 upto) s.

Definition ISR_strobeTimer (s : State) : State := strobe_channels_upto 6 s.

(** What no step of the handler changes: the arrays it only reads, the
    sizes of the two it writes, and the actions already taken. *)
Definition steady (s s1 : State) : Prop :=
  trigger_output_level (channels s1) = trigger_output_level (channels s) /\
  strobe_on (channels s1) = strobe_on (channels s) /\
  strobe_delay (channels s1) = strobe_delay (channels s) /\
  illumination_on_time (channels s1) = illumination_on_time (channels s) /\
  timestamp_trigger_rising_edge (channels s1)
    = timestamp_trigger_rising_edge (channels s) /\
  length (control_strobe (channels s1)) = length (control_strobe (channels s)) /\
  length (strobe_output_level (channels s1))
    = length (strobe_output_level (channels s)) /\
  exists more, actions s1 = actions s ++ more.

(** The entries of channel [ch] in the two arrays the handler writes are the
    same in [s] and [s1]. *)
Definition kept (ch : nat) (s s1 : State) : Prop :=
  control_strobe (channels s1) !!! ch = control_strobe (channels s) !!! ch /\
  strobe_output_level (channels s1) !!! ch
    = strobe_output_level (channels s) !!! ch.

(** Channel 0 armed for a 30 ms pulse and channel 1 for a 30.05 ms pulse, both
    without delay, on a trigger edge at time 0; the timer ticks at 100 us and
    no time passes but in the busy-waits. *)
Definition two_pulses_armed : State := {|
  channels := {|
    trigger_output_level := replicate 6 HIGH;
    control_strobe := [true; true; false; false; false; false];
    strobe_output_level := replicate 6 LOW;
    strobe_on := replicate 6 false;
    strobe_delay := replicate 6 0;
    illumination_on_time := [30000; 30050; 0; 0; 0; 0];
    timestamp_trigger_rising_edge := replicate 6 0
  |};
  illumination_is_on := false;
  clock := 100;
  actions := [];
  elapses := []
|}.

(** Channel 2 armed for a 50 ms pulse 1 ms after a trigger edge at 777000 us;
    the timer ticks 1.05 ms after the edge. *)
Definition long_pulse_armed : State := {|
  channels := {|
    trigger_output_level := replicate 6 HIGH;
    control_strobe := [false; false; true; false; false; false];
    strobe_output_level := replicate 6 LOW;
    strobe_on := replicate 6 false;
    strobe_delay := [0; 0; 1000; 0; 0; 0];
    illumination_on_time := [0; 0; 50000; 0; 0; 0];
    timestamp_trigger_rising_edge := [0; 0; 777000; 0; 0; 0]
  |};
  illumination_is_on := false;
  clock := 778050;
  actions := [];
  elapses := []
|}.

(** Channel 3 armed for a 40 ms pulse without delay on a trigger edge at
    time 0.  The tick reads the clock at 39999 us; switching the
    illumination on takes 1 us, so the clock is read at 40000 us next. *)
Definition slow_switch_on : State := {|
  channels := {|
    trigger_output_level := replicate 6 HIGH;
    control_strobe := [false; false; false; true; false; false];
    strobe_output_level := replicate 6 LOW;
    strobe_on := replicate 6 false;
    strobe_delay := replicate 6 0;
    illumination_on_time := [0; 0; 0; 40000; 0; 0];
    timestamp_trigger_rising_edge := replicate 6 0
  |};
  illumination_is_on := false;
  clock := 39999;
  actions := [];
  elapses := [0; 1]
|}.

(** The time the handler spends in [delayMicroseconds]. *)
Definition busy_wait_total (calls : list HwAction) : Z :=
  fold_right
    (fun call total =>
       match call with
       | BusyWait usec => to_u32 usec + total
       | _ => total
       end) 0 calls.

Definition time_passed (passed : list Z) : Z := fold_right Z.add 0 passed.

(** [s1] comes after [s]: the hardware calls [more] were made and the
    times [passed] went by at reads of [micros()], and the clock stands
    where the busy-waits and these times have brought it. *)
Definition reached (s s1 : State) (more : list HwAction) (passed : list Z)
  : Prop :=
  actions s1 = actions s ++ more
  /\ elapses s = passed ++ elapses s1
  /\ clock s1 = clock s + busy_wait_total more + time_passed passed.

(** All per-channel arrays have their six entries. *)
Definition six_channels (c : Channels) : Prop :=
  length (trigger_output_level c) = 6%nat /\
  length (control_strobe c) = 6%nat /\
  length (strobe_output_level c) = 6%nat /\
  length (strobe_on c) = 6%nat /\
  length (strobe_delay c) = 6%nat /\
  length (illumination_on_time c) = 6%nat /\
  length (timestamp_trigger_rising_edge c) = 6%nat.

End Strobe.

(* ===================================================================== *)
(** * LED array (octopi_firmware_v3, functions.cpp)                       *)
(* ===================================================================== *)

Module LedArray.

(** FastLED's [CRGB]: one byte per colour. *)
Record CRGB := { red : Z; green : Z; blue : Z }.

(** [matrix[i].setRGB(r, g, b)].  Outside the array the C program has no
    defined behaviour; the embedding stops with [None] there. *)
Definition setRGB (matrix : list CRGB) (i : Z) (r g b : Z)
  : option (list CRGB) :=
  if (0 <=? i) && (i <? Z.of_nat (length matrix))
  then Some (<[Z.to_nat i := {| red := r; green := g; blue := b |}]> matrix)
  else None.

(** A loop that calls [setRGB] at each of [indices] in turn. *)
Fixpoint set_each (indices : list Z) (matrix : list CRGB) (r g b : Z)
  : option (list CRGB) :=
  match indices with
  | [] => Some matrix
  | i :: rest =>
      match setRGB matrix i r g b with
      | Some matrix1 => set_each rest matrix1 r g b
      | None => None
      end
  end.

(** The values of [i] in [for (int i = from; i < to; i++)]. *)
Definition range (from to : Z) : list Z :=
  map (fun k => from + Z.of_nat k) (seq 0 (Z.to_nat (to - from))).

Section Halves.

(** The number of LEDs, a constant of the build. *)
Variable NUM_LEDS : Z.

Definition set_all (matrix : list CRGB) (r g b : Z) : option (list CRGB) :=
  set_each (range 0 NUM_LEDS) matrix r g b.

Definition set_left (matrix : list CRGB) (r g b : Z) : option (list CRGB) :=
  set_each (range 0 (Z.quot NUM_LEDS 2)) matrix r g b.

Definition set_right (matrix : list CRGB) (r g b : Z) : option (list CRGB) :=
  set_each (range (Z.quot NUM_LEDS 2) NUM_LEDS) matrix r g b.

End Halves.

Definition LED_matrix_top : list Z :=
  [0; 1; 2; 3;
   15; 14; 13; 12;
   16; 17; 18; 19; 20; 21;
   39; 38; 37; 36; 35; 34;
   40; 41; 42; 43; 44; 45;
   63; 62; 61; 60; 59; 58;
   64; 65; 66; 67; 68; 69;
   87; 86; 85; 84; 83; 82;
   88; 89; 90; 91; 92; 93;
   111; 110; 109; 108; 107; 106;
   112; 113; 114; 115;
   127; 126; 125; 124].

Definition LED_matrix_bottom : list Z :=
  [4; 5; 6; 7;
   11; 10; 9; 8;
   22; 23; 24; 25; 26; 27;
   33; 32; 31; 30; 29; 28;
   46; 47; 48; 49; 50; 51;
   57; 56; 55; 54; 53; 52;
   70; 71; 72; 73; 74; 75;
   81; 80; 79; 78; 77; 76;
   94; 95; 96; 97; 98; 99;
   105; 104; 103; 102; 101; 100;
   116; 117; 118; 119;
   123; 122; 121; 120].

Definition set_top (matrix : list CRGB) (r g b : Z) : option (list CRGB) :=
  set_each (map (fun i => LED_matrix_top !!! i) (seq 0 64)) matrix r g b.

Definition set_bottom (matrix : list CRGB) (r g b : Z) : option (list CRGB) :=
  set_each (map (fun i => LED_matrix_bottom !!! i) (seq 0 64)) matrix r g b.

Definition set_low_na (matrix : list CRGB) (r g b : Z) : option (list CRGB) :=
  set_each [45; 46; 56; 57; 58; 59; 68; 69; 70; 71; 81; 82] matrix r g b.

Definition set_left_dot (matrix : list CRGB) (r g b : Z) : option (list CRGB) :=
  set_each [3; 4; 11; 12] matrix r g b.

Definition set_right_dot (matrix : list CRGB) (r g b : Z) : option (list CRGB) :=
  set_each [115; 116; 123; 124] matrix r g b.

(** Whether LED [k] is one of [indices]. *)
Definition lit (indices : list Z) (k : nat) : bool :=
  existsb (Z.eqb (Z.of_nat k)) indices.

End LedArray.

(* ===================================================================== *)
(** * Joystick panel (octopi_firmware_v3, functions.cpp and globals.cpp)  *)
(* ===================================================================== *)

Module Joystick.

(** Conversion to [int16_t] and to [int32_t]. *)
Definition to_i16 (v : Z) : Z := (v + 2 ^ 15) mod 2 ^ 16 - 2 ^ 15.
Definition to_i32 (v : Z) : Z := (v + 2 ^ 31) mod 2 ^ 32 - 2 ^ 31.

(** A value an [int] can hold.  Arithmetic on [int] that leaves this range
    has no defined behaviour; the embedding stops with [None] there. *)
Definition in_int (v : Z) : bool := (- 2 ^ 31 <=? v) && (v <? 2 ^ 31).

Inductive SerialLine := wrong_number_of_bytes_received.

Record State := {
  focusPosition : Z;                        (* int32_t *)
  focuswheel_pos : Z;                       (* int32_t *)
  first_packet_from_joystick_panel : bool;
  joystick_delta_x : Z;                     (* int16_t *)
  joystick_delta_y : Z;                     (* int16_t *)
  btns : Z;                                 (* uint8_t *)
  flag_read_joystick : bool;
  Serial_printed : list SerialLine
}.

(** The static initialisers of globals.cpp. *)
Definition power_on : State := {|
  focusPosition := 0;
  focuswheel_pos := 0;
  first_packet_from_joystick_panel := true;
  joystick_delta_x := 0;
  joystick_delta_y := 0;
  btns := 0;
  flag_read_joystick := false;
  Serial_printed := []
|}.

Definition Serial_println (line : SerialLine) (s : State) : State :=
  {| focusPosition := focusPosition s;
     focuswheel_pos := focuswheel_pos s;
     first_packet_from_joystick_panel := first_packet_from_joystick_panel s;
     joystick_delta_x := joystick_delta_x s;
     joystick_delta_y := joystick_delta_y s;
     btns := btns s;
     flag_read_joystick := flag_read_joystick s;
     Serial_printed := Serial_printed s ++ [line] |}.

(** [int32_t(uint32_t(buffer[0]) << 24 | uint32_t(buffer[1]) << 16
             | uint32_t(buffer[2]) << 8 | uint32_t(buffer[3]))] *)
Definition wheel_position (buffer : list Z) : Z :=
  to_i32
    (Z.lor
       (Z.lor
          (Z.lor (to_u32 (Z.shiftl (buffer !!! 0%nat) 24))
                 (to_u32 (Z.shiftl (buffer !!! 1%nat) 16)))
          (to_u32 (Z.shiftl (buffer !!! 2%nat) 8)))
       (buffer !!! 3%nat)).

(** [int16_t(uint16_t(hi) * 256 + uint16_t(lo))] *)
Definition deflection (hi lo : Z) : Z := to_i16 (to_u16 hi * 256 + to_u16 lo).

Section Panel.

(** Constants of the build. *)
Variables (JOYSTICK_MSG_LENGTH : Z) (JOYSTICK_SIGN_X JOYSTICK_SIGN_Y : Z)
  (DEBUG_MODE : bool).

Definition onJoystickPacketReceived (buffer : list Z) (s : State)
  : option State :=
  if negb (Z.of_nat (length buffer) =? JOYSTICK_MSG_LENGTH) then
    Some (if DEBUG_MODE
          then Serial_println wrong_number_of_bytes_received s
          else s)
  else if (length buffer <? 9)%nat then
    None                                    (* buffer[0] .. buffer[8] are read *)
  else
    let wheel := wheel_position buffer in
    let focus :=
      if first_packet_from_joystick_panel s then Some (focusPosition s)
      else
        let turned := wheel - focuswheel_pos s in
        if in_int turned && in_int (focusPosition s + turned)
        then Some (focusPosition s + turned)
        else None in
    let dx := JOYSTICK_SIGN_X * deflection (buffer !!! 4%nat) (buffer !!! 5%nat) in
    let dy := JOYSTICK_SIGN_Y * deflection (buffer !!! 6%nat) (buffer !!! 7%nat) in
    match focus with
    | Some position =>
        if in_int dx && in_int dy then
          Some {| focusPosition := position;
                  focuswheel_pos := wheel;
                  first_packet_from_joystick_panel := false;
                  joystick_delta_x := to_i16 dx;
                  joystick_delta_y := to_i16 dy;
                  btns := buffer !!! 8%nat;
                  flag_read_joystick := true;
                  Serial_printed := Serial_printed s |}
        else None
    | None => None
    end.

(** The packets of the panel, one call of the handler each. *)
Fixpoint receive_packets (packets : list (list Z)) (s : State) : option State :=
  match packets with
  | [] => Some s
  | buffer :: rest =>
      match onJoystickPacketReceived buffer s with
      | Some s1 => receive_packets rest s1
      | None => None
      end
  end.

End Panel.

(** The packet the panel sends for a wheel position, two deflections and
    the buttons: big-endian two's complement. *)
Definition panel_packet (wheel dx dy buttons : Z) : list Z :=
  [Z.land (Z.shiftr (to_u32 wheel) 24) 0xFF;
   Z.land (Z.shiftr (to_u32 wheel) 16) 0xFF;
   Z.land (Z.shiftr (to_u32 wheel) 8) 0xFF;
   Z.land (to_u32 wheel) 0xFF;
   Z.land (Z.shiftr (to_u16 dx) 8) 0xFF; Z.land (to_u16 dx) 0xFF;
   Z.land (Z.shiftr (to_u16 dy) 8) 0xFF; Z.land (to_u16 dy) 0xFF;
   buttons].

End Joystick.

(* ===================================================================== *)
(** * Protocol v2 (controller, protocol_v2.h and protocol_v2.cpp)         *)
(* ===================================================================== *)

(** A store into a C array of bytes.  Outside the array the C program has no
    defined behaviour; the embedding stops with [None] there. *)
Definition array_store (a : list Z) (index v : Z) : option (list Z) :=
  if (0 <=? index) && (index <? Z.of_nat (length a))
  then Some (<[Z.to_nat index := v]> a)
  else None.

Module ProtocolV2.

(** ** Packet format (protocol_v2.h) *)

Definition PACKET_HEADER_0 : Z := 0xAA.
Definition PACKET_HEADER_1 : Z := 0xBB.
Definition PACKET_MAX_PAYLOAD : Z := 506.
Definition PACKET_MAX_SIZE : Z := 512.
Definition PACKET_OVERHEAD : Z := 6.
Definition RX_BUFFER_SIZE : Z := 512.

Definition CMD_GET_STATE : Z := 0xF0.
Definition CMD_GET_VERSION : Z := 0xF2.
Definition CMD_RESET : Z := 0xFF.

Inductive ResponseStatus :=
| STATUS_OK | STATUS_ACCEPTED | STATUS_REJECTED | STATUS_ERROR.

Definition status_code (s : ResponseStatus) : Z :=
  match s with
  | STATUS_OK => 0x00 | STATUS_ACCEPTED => 0x01
  | STATUS_REJECTED => 0x02 | STATUS_ERROR => 0x03
  end.

Inductive ErrorCode :=
| ERR_NONE | ERR_INVALID_CMD | ERR_INVALID_AXIS | ERR_AXIS_BUSY
| ERR_AXIS_NOT_HOMED | ERR_LIMIT_REACHED | ERR_CHECKSUM
| ERR_PACKET_TOO_SHORT | ERR_PACKET_TOO_LONG | ERR_SYSTEM_IN_ERROR
| ERR_HSA_RUNNING | ERR_INTERLOCK.

Definition error_value (e : ErrorCode) : Z :=
  match e with
  | ERR_NONE => 0x00 | ERR_INVALID_CMD => 0x01 | ERR_INVALID_AXIS => 0x02
  | ERR_AXIS_BUSY => 0x03 | ERR_AXIS_NOT_HOMED => 0x04
  | ERR_LIMIT_REACHED => 0x05 | ERR_CHECKSUM => 0x06
  | ERR_PACKET_TOO_SHORT => 0x07 | ERR_PACKET_TOO_LONG => 0x08
  | ERR_SYSTEM_IN_ERROR => 0x09 | ERR_HSA_RUNNING => 0x0A
  | ERR_INTERLOCK => 0x0B
  end.

Inductive AxisState := AXIS_IDLE | AXIS_MOVING | AXIS_HOMING | AXIS_ERROR.

Definition axis_state_code (a : AxisState) : Z :=
  match a with
  | AXIS_IDLE => 0 | AXIS_MOVING => 1 | AXIS_HOMING => 2 | AXIS_ERROR => 3
  end.

Inductive SystemMode := MODE_NORMAL | MODE_HSA | MODE_ERROR.

Definition system_mode_code (m : SystemMode) : Z :=
  match m with MODE_NORMAL => 0 | MODE_HSA => 1 | MODE_ERROR => 2 end.

(** ** CRC-16 *)

(** Modelled from the spec: one bit of CRC-16/CCITT-FALSE (the body of
    [crc16_ccitt] is not among the sources): shift left by one, folding the
    polynomial 0x1021 in when the bit shifted out is set. *)
Definition crc16_shift (crc : Z) : Z :=
  if Z.testbit crc 15
  then Z.lxor (to_u16 (Z.shiftl crc 1)) 0x1021
  else to_u16 (Z.shiftl crc 1).

(** Modelled from the spec: one byte of CRC-16/CCITT-FALSE, entering at the
    high end of the register, most significant bit first. *)
Definition crc16_byte (crc b : Z) : Z :=
  Nat.iter 8 crc16_shift (Z.lxor crc (Z.shiftl b 8)).

(** Modelled from the spec: [crc16_ccitt] is declared in utils/crc16.h and
    protocol_v2.h, its body is not among the sources.  The spec and both
    headers fix it as CRC-16/CCITT-FALSE: polynomial 0x1021, initial value
    0xFFFF, most significant bit first, no final xor, over the first [length]
    bytes of [data]. *)
Definition crc16_ccitt (data : list Z) (length : Z) : Z :=
  fold_left crc16_byte (take (Z.to_nat length) data) 0xFFFF.

(** ** Receive state machine *)

Inductive RxState :=
| RX_WAIT_HEADER_0
| RX_WAIT_HEADER_1
| RX_WAIT_LENGTH_0
| RX_WAIT_LENGTH_1
| RX_WAIT_PAYLOAD
| RX_WAIT_CRC_0
| RX_WAIT_CRC_1.

(** The file-static variables of the receiver. *)
Record Receiver := {
  rx_state : RxState;
  rx_buffer : list Z;            (* uint8_t [RX_BUFFER_SIZE] *)
  rx_payload_length : Z;         (* uint16_t *)
  rx_payload_received : Z;       (* uint16_t *)
  rx_crc_received : Z            (* uint16_t *)
}.

(** Their static initialisers. *)
Definition rx_power_on : Receiver := {|
  rx_state := RX_WAIT_HEADER_0;
  rx_buffer := replicate (Z.to_nat RX_BUFFER_SIZE) 0;
  rx_payload_length := 0;
  rx_payload_received := 0;
  rx_crc_received := 0
|}.

Definition set_rx_state (v : RxState) (rx : Receiver) : Receiver :=
  {| rx_state := v; rx_buffer := rx_buffer rx;
     rx_payload_length := rx_payload_length rx;
     rx_payload_received := rx_payload_received rx;
     rx_crc_received := rx_crc_received rx |}.

Definition set_rx_buffer (v : list Z) (rx : Receiver) : Receiver :=
  {| rx_state := rx_state rx; rx_buffer := v;
     rx_payload_length := rx_payload_length rx;
     rx_payload_received := rx_payload_received rx;
     rx_crc_received := rx_crc_received rx |}.

Definition set_rx_payload_length (v : Z) (rx : Receiver) : Receiver :=
  {| rx_state := rx_state rx; rx_buffer := rx_buffer rx;
     rx_payload_length := v;
     rx_payload_received := rx_payload_received rx;
     rx_crc_received := rx_crc_received rx |}.

Definition set_rx_payload_received (v : Z) (rx : Receiver) : Receiver :=
  {| rx_state := rx_state rx; rx_buffer := rx_buffer rx;
     rx_payload_length := rx_payload_length rx;
     rx_payload_received := v;
     rx_crc_received := rx_crc_received rx |}.

Definition set_rx_crc_received (v : Z) (rx : Receiver) : Receiver :=
  {| rx_state := rx_state rx; rx_buffer := rx_buffer rx;
     rx_payload_length := rx_payload_length rx;
     rx_payload_received := rx_payload_received rx;
     rx_crc_received := v |}.

(** What the receiver maintains between bytes: the buffer keeps its size, a
    length that passed validation stays within 1..506 until the frame ends,
    and while the payload is collected fewer bytes are stored than the
    length announces. *)
Definition rx_invariant (rx : Receiver) : Prop :=
  length (rx_buffer rx) = Z.to_nat RX_BUFFER_SIZE /\
  match rx_state rx with
  | RX_WAIT_PAYLOAD =>
      1 <= rx_payload_length rx <= PACKET_MAX_PAYLOAD /\
      0 <= rx_payload_received rx < rx_payload_length rx
  | RX_WAIT_CRC_0 | RX_WAIT_CRC_1 =>
      1 <= rx_payload_length rx <= PACKET_MAX_PAYLOAD
  | _ => True
  end.

Section Reception.

(** The receiver hands a validated frame to [process_command], which works
    on the rest of the firmware state [Env] and never touches the
    receiver's own variables. *)
Context {Env : Type}.
Variable process_command : Env -> list Z -> Z -> Env.

(** The body of the [while] loop of [protocol_v2_process]: one byte [c]
    read from the serial port.  [None] stands for a store or copy outside
    an array. *)
Definition rx_byte (s : Receiver * Env) (c : Z) : option (Receiver * Env) :=
  let (rx, env) := s in
  let byte := to_u8 c in
  match rx_state rx with
  | RX_WAIT_HEADER_0 =>
      if byte =? PACKET_HEADER_0
      then Some (set_rx_state RX_WAIT_HEADER_1 rx, env)
      else Some (rx, env)
  | RX_WAIT_HEADER_1 =>
      if byte =? PACKET_HEADER_1
      then Some (set_rx_state RX_WAIT_LENGTH_0 rx, env)
      else if byte =? PACKET_HEADER_0
      then Some (set_rx_state RX_WAIT_HEADER_1 rx, env)
      else Some (set_rx_state RX_WAIT_HEADER_0 rx, env)
  | RX_WAIT_LENGTH_0 =>
      Some (set_rx_state RX_WAIT_LENGTH_1 (set_rx_payload_length byte rx), env)
  | RX_WAIT_LENGTH_1 =>
      let rx1 :=
        set_rx_payload_length
          (to_u16 (Z.lor (rx_payload_length rx) (Z.shiftl byte 8))) rx in
      if (rx_payload_length rx1 =? 0)
         || (PACKET_MAX_PAYLOAD <? rx_payload_length rx1)
      then Some (set_rx_state RX_WAIT_HEADER_0 rx1, env)
      else Some (set_rx_state RX_WAIT_PAYLOAD
                   (set_rx_payload_received 0 rx1), env)
  | RX_WAIT_PAYLOAD =>
      match array_store (rx_buffer rx) (rx_payload_received rx) byte with
      | None => None
      | Some buffer =>
          let rx1 :=
            set_rx_payload_received (to_u16 (rx_payload_received rx + 1))
              (set_rx_buffer buffer rx) in
          if rx_payload_length rx1 <=? rx_payload_received rx1
          then Some (set_rx_state RX_WAIT_CRC_0 rx1, env)
          else Some (rx1, env)
      end
  | RX_WAIT_CRC_0 =>
      Some (set_rx_state RX_WAIT_CRC_1 (set_rx_crc_received byte rx), env)
  | RX_WAIT_CRC_1 =>
      let rx1 :=
        set_rx_crc_received
          (to_u16 (Z.lor (rx_crc_received rx) (Z.shiftl byte 8))) rx in
      let len := rx_payload_length rx1 in
      (* crc_data has PACKET_MAX_PAYLOAD + 2 bytes and receives len + 2 *)
      if len <=? PACKET_MAX_PAYLOAD then
        let crc_data :=
          [Z.land len 0xFF; Z.land (Z.shiftr len 8) 0xFF]
          ++ take (Z.to_nat len) (rx_buffer rx1) in
        let calculated_crc := crc16_ccitt crc_data (to_u16 (len + 2)) in
        let env1 :=
          if calculated_crc =? rx_crc_received rx1
          then process_command env (rx_buffer rx1) len
          else env in
        Some (set_rx_state RX_WAIT_HEADER_0 rx1, env1)
      else None
  end.

(** [protocol_v2_process] with the bytes the serial port has [available]:
    the loop reads them all, one per iteration. *)
Fixpoint protocol_v2_process_with (s : Receiver * Env) (available : list Z)
  : option (Receiver * Env) :=
  match available with
  | [] => Some s
  | c :: rest =>
      match rx_byte s c with
      | Some s1 => protocol_v2_process_with s1 rest
      | None => None
      end
  end.

(** Successive calls of [protocol_v2_process], one per chunk of input. *)
Fixpoint protocol_v2_process_chunks (s : Receiver * Env)
  (chunks : list (list Z)) : option (Receiver * Env) :=
  match chunks with
  | [] => Some s
  | chunk :: rest =>
      match protocol_v2_process_with s chunk with
      | Some s1 => protocol_v2_process_chunks s1 rest
      | None => None
      end
  end.

End Reception.

(** A call of [process_command]: the [length] bytes behind the pointer it is
    given, and [length]. *)
Definition Call : Type := list Z * Z.

(** The observer that stands in for [process_command] to list the calls the
    receiver makes. *)
Definition record_call (calls : list Call) (payload : list Z) (length : Z)
  : list Call :=
  calls ++ [(take (Z.to_nat length) payload, length)].

(** The wire image of a frame: header, little-endian length, payload and
    little-endian CRC field. *)
Definition frame_bytes (payload : list Z) (crc_lo crc_hi : Z) : list Z :=
  let L := Z.of_nat (length payload) in
  [PACKET_HEADER_0; PACKET_HEADER_1; Z.land L 0xFF; Z.land (Z.shiftr L 8) 0xFF]
  ++ payload ++ [crc_lo; crc_hi].

(** The CRC a sender computes for a payload: over the two length bytes and
    the payload. *)
Definition frame_crc (payload : list Z) : Z :=
  let L := Z.of_nat (length payload) in
  crc16_ccitt ([Z.land L 0xFF; Z.land (Z.shiftr L 8) 0xFF] ++ payload) (L + 2).

(** A well-formed frame carries the CRC of its length field and payload. *)
Definition encode_frame (payload : list Z) : list Z :=
  let crc := frame_crc payload in
  frame_bytes payload (Z.land crc 0xFF) (Z.land (Z.shiftr crc 8) 0xFF).

(** ** Response structure (packed, 78 bytes) *)

Record AxisStatus := {
  position_usteps : Z;     (* int32_t *)
  target_usteps : Z;       (* int32_t *)
  state : Z;               (* AxisState *)
  axis_error_code : Z;     (* field error_code of AxisStatus *)
  homed : Z;               (* 0 = not homed, 1 = homed *)
  axis_reserved : Z        (* field reserved of AxisStatus *)
}.

Record ResponsePacket := {
  cmd_id : Z;
  status : Z;
  error_code : Z;
  system_mode : Z;
  axes : list AxisStatus;  (* [4] *)
  dac_values : list Z;     (* uint16_t [8] *)
  illum_on_mask : Z;
  led_pattern : Z;
  joystick_delta_x_r : Z;  (* field joystick_delta_x of ResponsePacket *)
  joystick_delta_y_r : Z;  (* field joystick_delta_y of ResponsePacket *)
  buttons : Z;
  reserved : list Z        (* [3] *)
}.

Definition RESPONSE_SIZE : Z := 78.

(** The bytes of the packed structs, as [memcpy] reads them on the
    little-endian target. *)
Definition axis_status_bytes (a : AxisStatus) : list Z :=
  le32 (position_usteps a) ++ le32 (target_usteps a)
  ++ [state a; axis_error_code a; homed a; axis_reserved a].

Definition response_bytes (r : ResponsePacket) : list Z :=
  [cmd_id r; status r; error_code r; system_mode r]
  ++ flat_map axis_status_bytes (axes r)
  ++ flat_map le16 (dac_values r)
  ++ [illum_on_mask r; led_pattern r]
  ++ le16 (joystick_delta_x_r r) ++ le16 (joystick_delta_y_r r)
  ++ [buttons r] ++ reserved r.

(** ** Firmware globals read and written by the protocol *)

(** The globals of the firmware that protocol_v2.cpp names, the two
    illumination tracking statics of protocol_v2.cpp itself, the strobe
    channel arrays, and what has been written to the serial port.
    [X_use_encoder], [Y_use_encoder] and [Z_use_encoder] are configuration
    constants of a header that is not among the sources, and
    [tmc4361_XACTUAL] holds what [tmc4361A_currentPosition] reads back from
    the motion controller [tmc4361[i]]; both are left arbitrary. *)
Record Globals := {
  mcu_cmd_execution_in_progress : bool;
  X_commanded_movement_in_progress : bool;
  Y_commanded_movement_in_progress : bool;
  Z_commanded_movement_in_progress : bool;
  W_commanded_movement_in_progress : bool;
  is_homing_X : bool;
  is_homing_Y : bool;
  is_homing_Z : bool;
  is_homing_W : bool;
  is_homing_XY : bool;
  home_X_found : bool;
  home_Y_found : bool;
  home_Z_found : bool;
  home_W_found : bool;
  is_preparing_for_homing_X : bool;
  is_preparing_for_homing_Y : bool;
  is_preparing_for_homing_Z : bool;
  is_preparing_for_homing_W : bool;
  trigger_mode : Z;
  X_use_encoder : bool;
  Y_use_encoder : bool;
  Z_use_encoder : bool;
  X_pos : Z;
  Y_pos : Z;
  Z_pos : Z;
  tmc4361_XACTUAL : list Z;
  X_commanded_target_position : Z;
  Y_commanded_target_position : Z;
  Z_commanded_target_position : Z;
  W_commanded_target_position : Z;
  joystick_delta_x : Z;
  joystick_delta_y : Z;
  joystick_button_pressed : bool;
  illumination_channel_states : Z;
  current_led_pattern : Z;
  strobe : Strobe.Channels;
  SerialUSB_written : list (list Z)
}.

(** Indices of the motion controllers in [tmc4361], as protocol_v2.h records
    them for the current firmware: x=0, y=1, z=2, w=3. *)
Definition x : nat := 0.
Definition y : nat := 1.
Definition z : nat := 2.
Definition w : nat := 3.

Definition tmc4361A_currentPosition (g : Globals) (axis : nat) : Z :=
  tmc4361_XACTUAL g !!! axis.

(** The globals as their static initialisers leave them (globals.cpp), with
    the encoders not in use and the motion controllers at position 0. *)
Definition globals_power_on : Globals := {|
  mcu_cmd_execution_in_progress := false;
  X_commanded_movement_in_progress := false;
  Y_commanded_movement_in_progress := false;
  Z_commanded_movement_in_progress := false;
  W_commanded_movement_in_progress := false;
  is_homing_X := false;
  is_homing_Y := false;
  is_homing_Z := false;
  is_homing_W := false;
  is_homing_XY := false;
  home_X_found := false;
  home_Y_found := false;
  home_Z_found := false;
  home_W_found := false;
  is_preparing_for_homing_X := false;
  is_preparing_for_homing_Y := false;
  is_preparing_for_homing_Z := false;
  is_preparing_for_homing_W := false;
  trigger_mode := 0;
  X_use_encoder := false;
  Y_use_encoder := false;
  Z_use_encoder := false;
  X_pos := 0;
  Y_pos := 0;
  Z_pos := 0;
  tmc4361_XACTUAL := replicate 4 0;
  X_commanded_target_position := 0;
  Y_commanded_target_position := 0;
  Z_commanded_target_position := 0;
  W_commanded_target_position := 0;
  joystick_delta_x := 0;
  joystick_delta_y := 0;
  joystick_button_pressed := false;
  illumination_channel_states := 0;
  current_led_pattern := 0;
  strobe := Strobe.initial_channels;
  SerialUSB_written := []
|}.

(** A state in the middle of operation: X moves towards 12000, Y prepares for
    homing while a movement is still flagged, Z is homing, W is homed and
    idle; two illumination channels are on, an LED pattern is shown, and
    strobe channel 2 is armed with a 50 ms pulse under way. *)
Definition globals_in_operation : Globals := {|
  mcu_cmd_execution_in_progress := true;
  X_commanded_movement_in_progress := true;
  Y_commanded_movement_in_progress := true;
  Z_commanded_movement_in_progress := false;
  W_commanded_movement_in_progress := false;
  is_homing_X := false;
  is_homing_Y := false;
  is_homing_Z := true;
  is_homing_W := false;
  is_homing_XY := false;
  home_X_found := true;
  home_Y_found := false;
  home_Z_found := false;
  home_W_found := true;
  is_preparing_for_homing_X := false;
  is_preparing_for_homing_Y := true;
  is_preparing_for_homing_Z := false;
  is_preparing_for_homing_W := false;
  trigger_mode := 1;
  X_use_encoder := true;
  Y_use_encoder := false;
  Z_use_encoder := false;
  X_pos := 11500;
  Y_pos := 0;
  Z_pos := 0;
  tmc4361_XACTUAL := [11498; -300; 42; 0];
  X_commanded_target_position := 12000;
  Y_commanded_target_position := -300;
  Z_commanded_target_position := 0;
  W_commanded_target_position := 0;
  joystick_delta_x := -3;
  joystick_delta_y := 0;
  joystick_button_pressed := true;
  illumination_channel_states := 5;
  current_led_pattern := 3;
  strobe := {|
    Strobe.trigger_output_level := replicate 6 Strobe.HIGH;
    Strobe.control_strobe := [false; false; true; false; false; false];
    Strobe.strobe_output_level :=
      [Strobe.LOW; Strobe.LOW; Strobe.HIGH; Strobe.LOW; Strobe.LOW; Strobe.LOW];
    Strobe.strobe_on := replicate 6 false;
    Strobe.strobe_delay := [0; 0; 1000; 0; 0; 0];
    Strobe.illumination_on_time := [0; 0; 50000; 0; 0; 0];
    Strobe.timestamp_trigger_rising_edge := [0; 0; 777000; 0; 0; 0]
  |};
  SerialUSB_written := []
|}.

(** The per-axis flags, by index of the axis in [axes]: X, Y, Z, W. *)
Definition axis_is_homing (g : Globals) (axis : nat) : bool :=
  nth axis [is_homing_X g; is_homing_Y g; is_homing_Z g; is_homing_W g] false.

Definition axis_is_preparing_for_homing (g : Globals) (axis : nat) : bool :=
  nth axis [is_preparing_for_homing_X g; is_preparing_for_homing_Y g;
            is_preparing_for_homing_Z g; is_preparing_for_homing_W g] false.

Definition axis_movement_in_progress (g : Globals) (axis : nat) : bool :=
  nth axis [X_commanded_movement_in_progress g;
            Y_commanded_movement_in_progress g;
            Z_commanded_movement_in_progress g;
            W_commanded_movement_in_progress g] false.

(** ** Response building *)

(** [protocol_v2_build_response]: the struct is cleared, then filled from the
    globals.  The default of the last parameter is [ERR_NONE]. *)
Definition protocol_v2_build_response (g : Globals) (id : Z)
  (st : ResponseStatus) (error : ErrorCode) : ResponsePacket :=
  {| cmd_id := id;
     status := status_code st;
     error_code := error_value error;
     system_mode := system_mode_code MODE_NORMAL;
     axes :=
       [ (* X axis (index 0) *)
         {| position_usteps :=
              if X_use_encoder g then X_pos g else tmc4361A_currentPosition g x;
            target_usteps := X_commanded_target_position g;
            state :=
              if is_homing_X g || is_preparing_for_homing_X g
              then axis_state_code AXIS_HOMING
              else if X_commanded_movement_in_progress g
              then axis_state_code AXIS_MOVING
              else axis_state_code AXIS_IDLE;
            axis_error_code := 0;
            homed := if home_X_found g then 1 else 0;
            axis_reserved := 0 |};
         (* Y axis (index 1) *)
         {| position_usteps :=
              if Y_use_encoder g then Y_pos g else tmc4361A_currentPosition g y;
            target_usteps := Y_commanded_target_position g;
            state :=
              if is_homing_Y g || is_preparing_for_homing_Y g
              then axis_state_code AXIS_HOMING
              else if Y_commanded_movement_in_progress g
              then axis_state_code AXIS_MOVING
              else axis_state_code AXIS_IDLE;
            axis_error_code := 0;
            homed := if home_Y_found g then 1 else 0;
            axis_reserved := 0 |};
         (* Z axis (index 2) *)
         {| position_usteps :=
              if Z_use_encoder g then Z_pos g else tmc4361A_currentPosition g z;
            target_usteps := Z_commanded_target_position g;
            state :=
              if is_homing_Z g || is_preparing_for_homing_Z g
              then axis_state_code AXIS_HOMING
              else if Z_commanded_movement_in_progress g
              then axis_state_code AXIS_MOVING
              else axis_state_code AXIS_IDLE;
            axis_error_code := 0;
            homed := if home_Z_found g then 1 else 0;
            axis_reserved := 0 |};
         (* W axis (index 3) *)
         {| position_usteps := tmc4361A_currentPosition g w;
            target_usteps := W_commanded_target_position g;
            state :=
              if is_homing_W g || is_preparing_for_homing_W g
              then axis_state_code AXIS_HOMING
              else if W_commanded_movement_in_progress g
              then axis_state_code AXIS_MOVING
              else axis_state_code AXIS_IDLE;
            axis_error_code := 0;
            homed := if home_W_found g then 1 else 0;
            axis_reserved := 0 |} ];
     dac_values := replicate 8 0;
     illum_on_mask := illumination_channel_states g;
     led_pattern := current_led_pattern g;
     joystick_delta_x_r := joystick_delta_x g;
     joystick_delta_y_r := joystick_delta_y g;
     buttons := if joystick_button_pressed g then 0x01 else 0x00;
     reserved := replicate 3 0 |}.

(** The packet [protocol_v2_send_response] assembles: header, length,
    the response struct, CRC over length and struct. *)
Definition response_packet (response : ResponsePacket) : list Z :=
  let payload_length := RESPONSE_SIZE in
  let body :=
    [Z.land payload_length 0xFF; Z.land (Z.shiftr payload_length 8) 0xFF]
    ++ response_bytes response in
  let crc := crc16_ccitt body (to_u16 (payload_length + 2)) in
  [PACKET_HEADER_0; PACKET_HEADER_1] ++ body
  ++ [Z.land crc 0xFF; Z.land (Z.shiftr crc 8) 0xFF].

(** [SerialUSB.write(packet, n)] *)
Definition SerialUSB_write (packet : list Z) (g : Globals) : Globals :=
  {| mcu_cmd_execution_in_progress := mcu_cmd_execution_in_progress g;
     X_commanded_movement_in_progress := X_commanded_movement_in_progress g;
     Y_commanded_movement_in_progress := Y_commanded_movement_in_progress g;
     Z_commanded_movement_in_progress := Z_commanded_movement_in_progress g;
     W_commanded_movement_in_progress := W_commanded_movement_in_progress g;
     is_homing_X := is_homing_X g;
     is_homing_Y := is_homing_Y g;
     is_homing_Z := is_homing_Z g;
     is_homing_W := is_homing_W g;
     is_homing_XY := is_homing_XY g;
     home_X_found := home_X_found g;
     home_Y_found := home_Y_found g;
     home_Z_found := home_Z_found g;
     home_W_found := home_W_found g;
     is_preparing_for_homing_X := is_preparing_for_homing_X g;
     is_preparing_for_homing_Y := is_preparing_for_homing_Y g;
     is_preparing_for_homing_Z := is_preparing_for_homing_Z g;
     is_preparing_for_homing_W := is_preparing_for_homing_W g;
     trigger_mode := trigger_mode g;
     X_use_encoder := X_use_encoder g;
     Y_use_encoder := Y_use_encoder g;
     Z_use_encoder := Z_use_encoder g;
     X_pos := X_pos g;
     Y_pos := Y_pos g;
     Z_pos := Z_pos g;
     tmc4361_XACTUAL := tmc4361_XACTUAL g;
     X_commanded_target_position := X_commanded_target_position g;
     Y_commanded_target_position := Y_commanded_target_position g;
     Z_commanded_target_position := Z_commanded_target_position g;
     W_commanded_target_position := W_commanded_target_position g;
     joystick_delta_x := joystick_delta_x g;
     joystick_delta_y := joystick_delta_y g;
     joystick_button_pressed := joystick_button_pressed g;
     illumination_channel_states := illumination_channel_states g;
     current_led_pattern := current_led_pattern g;
     strobe := strobe g;
     SerialUSB_written := SerialUSB_written g ++ [packet] |}.

Definition protocol_v2_send_response (response : ResponsePacket) (g : Globals)
  : Globals :=
  SerialUSB_write (response_packet response) g.

(** ** Command handlers *)

Definition handle_cmd_get_state (id : Z) (g : Globals) : Globals :=
  protocol_v2_send_response (protocol_v2_build_response g id STATUS_OK ERR_NONE) g.

(** The assignments of [handle_cmd_reset], before its response is built. *)
Definition reset_firmware_state (g : Globals) : Globals :=
  {| mcu_cmd_execution_in_progress := false;
     X_commanded_movement_in_progress := false;
     Y_commanded_movement_in_progress := false;
     Z_commanded_movement_in_progress := false;
     W_commanded_movement_in_progress := false;
     is_homing_X := false;
     is_homing_Y := false;
     is_homing_Z := false;
     is_homing_W := false;
     is_homing_XY := false;
     home_X_found := false;
     home_Y_found := false;
     home_Z_found := false;
     home_W_found := false;
     is_preparing_for_homing_X := false;
     is_preparing_for_homing_Y := false;
     is_preparing_for_homing_Z := false;
     is_preparing_for_homing_W := false;
     trigger_mode := 0;
     X_use_encoder := X_use_encoder g;
     Y_use_encoder := Y_use_encoder g;
     Z_use_encoder := Z_use_encoder g;
     X_pos := X_pos g;
     Y_pos := Y_pos g;
     Z_pos := Z_pos g;
     tmc4361_XACTUAL := tmc4361_XACTUAL g;
     X_commanded_target_position := X_commanded_target_position g;
     Y_commanded_target_position := Y_commanded_target_position g;
     Z_commanded_target_position := Z_commanded_target_position g;
     W_commanded_target_position := W_commanded_target_position g;
     joystick_delta_x := joystick_delta_x g;
     joystick_delta_y := joystick_delta_y g;
     joystick_button_pressed := joystick_button_pressed g;
     (* Reset illumination state *)
     illumination_channel_states := 0;
     current_led_pattern := 0;
     strobe := strobe g;
     SerialUSB_written := SerialUSB_written g |}.

Definition handle_cmd_reset (id : Z) (g : Globals) : Globals :=
  let g1 := reset_firmware_state g in
  protocol_v2_send_response (protocol_v2_build_response g1 id STATUS_OK ERR_NONE) g1.

Definition handle_cmd_get_version (id : Z) (g : Globals) : Globals :=
  protocol_v2_send_response (protocol_v2_build_response g id STATUS_OK ERR_NONE) g.

Definition handle_unknown_command (id cmd_type : Z) (g : Globals) : Globals :=
  protocol_v2_send_response
    (protocol_v2_build_response g id STATUS_REJECTED ERR_INVALID_CMD) g.

(** ** Command dispatch *)

Definition process_command (g : Globals) (payload : list Z) (length : Z)
  : Globals :=
  if length <? 2 then
    protocol_v2_send_response
      (protocol_v2_build_response g 0 STATUS_REJECTED ERR_PACKET_TOO_SHORT) g
  else
    let id := payload !!! 0%nat in
    let cmd_type := payload !!! 1%nat in
    if cmd_type =? CMD_GET_STATE then handle_cmd_get_state id g
    else if cmd_type =? CMD_RESET then handle_cmd_reset id g
    else if cmd_type =? CMD_GET_VERSION then handle_cmd_get_version id g
    else handle_unknown_command id cmd_type g.

(** ** The protocol engine on the firmware state *)

Definition Firmware : Type := Receiver * Globals.

(** [protocol_v2_init] *)
Definition protocol_v2_init (s : Firmware) : Firmware :=
  let (rx, g) := s in
  ({| rx_state := RX_WAIT_HEADER_0;
      rx_buffer := rx_buffer rx;
      rx_payload_length := 0;
      rx_payload_received := 0;
      rx_crc_received := 0 |},
   {| mcu_cmd_execution_in_progress := mcu_cmd_execution_in_progress g;
      X_commanded_movement_in_progress := X_commanded_movement_in_progress g;
      Y_commanded_movement_in_progress := Y_commanded_movement_in_progress g;
      Z_commanded_movement_in_progress := Z_commanded_movement_in_progress g;
      W_commanded_movement_in_progress := W_commanded_movement_in_progress g;
      is_homing_X := is_homing_X g;
      is_homing_Y := is_homing_Y g;
      is_homing_Z := is_homing_Z g;
      is_homing_W := is_homing_W g;
      is_homing_XY := is_homing_XY g;
      home_X_found := home_X_found g;
      home_Y_found := home_Y_found g;
      home_Z_found := home_Z_found g;
      home_W_found := home_W_found g;
      is_preparing_for_homing_X := is_preparing_for_homing_X g;
      is_preparing_for_homing_Y := is_preparing_for_homing_Y g;
      is_preparing_for_homing_Z := is_preparing_for_homing_Z g;
      is_preparing_for_homing_W := is_preparing_for_homing_W g;
      trigger_mode := trigger_mode g;
      X_use_encoder := X_use_encoder g;
      Y_use_encoder := Y_use_encoder g;
      Z_use_encoder := Z_use_encoder g;
      X_pos := X_pos g;
      Y_pos := Y_pos g;
      Z_pos := Z_pos g;
      tmc4361_XACTUAL := tmc4361_XACTUAL g;
      X_commanded_target_position := X_commanded_target_position g;
      Y_commanded_target_position := Y_commanded_target_position g;
      Z_commanded_target_position := Z_commanded_target_position g;
      W_commanded_target_position := W_commanded_target_position g;
      joystick_delta_x := joystick_delta_x g;
      joystick_delta_y := joystick_delta_y g;
      joystick_button_pressed := joystick_button_pressed g;
      illumination_channel_states := 0;
      current_led_pattern := 0;
      strobe := strobe g;
      SerialUSB_written := SerialUSB_written g |}).

(** [protocol_v2_process], with [process_command] as the consumer of frames. *)
Definition protocol_v2_process (s : Firmware) (available : list Z)
  : option Firmware :=
  protocol_v2_process_with process_command s available.

(** The receiver alone, listing the calls it makes. *)
Definition received_calls (rx : Receiver) (input : list Z)
  : option (Receiver * list Call) :=
  protocol_v2_process_with record_call (rx, []) input.

(** ** Streams of frames *)

(** What can arrive between two moments at which the receiver scans for a
    header: bytes other than the first header byte, a header followed by a
    length the receiver refuses, a complete frame whose CRC field is wrong,
    or a well-formed frame. *)
Inductive WireItem :=
| Noise (bytes : list Z)
| BadLength (lo hi : Z)
| BadCrc (payload : list Z) (crc_lo crc_hi : Z)
| Good (payload : list Z).

Definition item_bytes (i : WireItem) : list Z :=
  match i with
  | Noise bytes => bytes
  | BadLength lo hi => [PACKET_HEADER_0; PACKET_HEADER_1; lo; hi]
  | BadCrc payload crc_lo crc_hi => frame_bytes payload crc_lo crc_hi
  | Good payload => encode_frame payload
  end.

Definition item_ok (i : WireItem) : Prop :=
  match i with
  | Noise bytes => Forall (fun c => to_u8 c <> PACKET_HEADER_0) bytes
  | BadLength lo hi =>
      is_u8 lo /\ is_u8 hi /\
      (lo + 256 * hi = 0 \/ PACKET_MAX_PAYLOAD < lo + 256 * hi)
  | BadCrc payload crc_lo crc_hi =>
      1 <= Z.of_nat (length payload) <= PACKET_MAX_PAYLOAD /\
      Forall is_u8 payload /\ is_u8 crc_lo /\ is_u8 crc_hi /\
      frame_crc payload <> crc_lo + 256 * crc_hi
  | Good payload =>
      1 <= Z.of_nat (length payload) <= PACKET_MAX_PAYLOAD /\
      Forall is_u8 payload
  end.

(** The calls of [process_command] an item is worth. *)
Definition item_calls (i : WireItem) : list Call :=
  match i with
  | Good payload => [(payload, Z.of_nat (length payload))]
  | _ => []
  end.

(** [process_command] applied to a list of calls, in order. *)
Definition dispatch_all (g : Globals) (calls : list Call) : Globals :=
  fold_left (fun acc call => process_command acc (fst call) (snd call)) calls g.

(** A call the receiver may make: between 1 and 506 bytes, all of them
    bytes, and as many as the length says. *)
Definition call_ok (call : Call) : Prop :=
  1 <= snd call <= PACKET_MAX_PAYLOAD /\
  Z.of_nat (length (fst call)) = snd call /\
  Forall is_u8 (fst call).

End ProtocolV2.

(* ===================================================================== *)
(** * Legacy fixed-length protocol (controller_ttl_only)                  *)
(* ===================================================================== *)

Module TtlOnly.

(** ** Constants (constants.h) *)

Definition CMD_LENGTH : Z := 8.
Definition MSG_LENGTH : Z := 24.

Definition TURN_ON_ILLUMINATION : Z := 10.
Definition TURN_OFF_ILLUMINATION : Z := 11.
Definition SET_ILLUMINATION : Z := 12.
Definition ANALOG_WRITE_ONBOARD_DAC : Z := 15.
Definition SET_DAC80508_REFDIV_GAIN : Z := 16.
Definition SET_ILLUMINATION_INTENSITY_FACTOR : Z := 17.
Definition INITIALIZE : Z := 254.
Definition RESET : Z := 255.

Definition COMPLETED_WITHOUT_ERRORS : Z := 0.
Definition IN_PROGRESS : Z := 1.
Definition CMD_CHECKSUM_ERROR : Z := 2.
Definition CMD_INVALID : Z := 3.
Definition CMD_EXECUTION_ERROR : Z := 4.

Definition ILLUMINATION_SOURCE_405NM : Z := 11.
Definition ILLUMINATION_SOURCE_488NM : Z := 12.
Definition ILLUMINATION_SOURCE_638NM : Z := 13.
Definition ILLUMINATION_SOURCE_561NM : Z := 14.
Definition ILLUMINATION_SOURCE_730NM : Z := 15.

Definition LASER_405nm : Z := 1.
Definition LASER_488nm : Z := 2.
Definition LASER_561nm : Z := 3.
Definition LASER_638nm : Z := 4.
Definition LASER_730nm : Z := 5.

Definition DAC8050x_CS_pin : Z := 33.
Definition DAC8050x_DAC_ADDR : Z := 0x08.
Definition DAC8050x_GAIN_ADDR : Z := 0x04.
Definition DAC8050x_CONFIG_ADDR : Z := 0x03.

Definition interval_send_pos_update : Z := 10000.

(** ** Single-precision arithmetic

    [illumination_intensity_factor] is a [float]; the three operations the
    firmware applies to it are taken from the IEEE 754 binary32 format with
    rounding to nearest even. *)

Definition float_of_int (n : Z) : spec_float := binary_normalize 24 128 n 0 false.
Definition float_div (a b : spec_float) : spec_float := SFdiv 24 128 a b.
Definition float_mul (a b : spec_float) : spec_float := SFmul 24 128 a b.

(** Conversion to an integer type drops the fraction. *)
Definition float_to_int (f : spec_float) : Z :=
  match f with
  | S754_finite sign m e =>
      let magnitude :=
        if 0 <=? e then Z.pos m * 2 ^ e else Z.pos m / 2 ^ (- e) in
      if sign then - magnitude else magnitude
  | _ => 0
  end.

(** ** CRC-8 (utils/crc8.cpp) *)

Definition crc8_shift (val : Z) : Z :=
  if Z.land val 0x80 =? 0
  then to_u8 (Z.shiftl val 1)
  else to_u8 (Z.lxor (Z.shiftl val 1) 0x07).

Definition crc8_byte (val b : Z) : Z := Nat.iter 8 crc8_shift (Z.lxor val b).

Definition crc8ccitt (data : list Z) (size : Z) : Z :=
  fold_left crc8_byte (take (Z.to_nat size) data) 0.

(** ** Globals (globals.cpp) and the hardware behind them *)

(** The callbacks, as the entries of [cmd_map] name them. *)
Inductive CommandCallback :=
| callback_turn_on_illumination
| callback_turn_off_illumination
| callback_set_illumination
| callback_set_illumination_intensity_factor
| callback_set_dac_gain
| callback_analog_write_dac
| callback_initialize
| callback_reset.

(** Calls into the pins and the SPI bus, in the order they are made. *)
Inductive HwOp :=
| pinMode_OUTPUT (pin : Z)
| digitalWrite (pin : Z) (level : bool)
| SPI_begin
| SPI_beginTransaction
| SPI_transfer (byte : Z)
| SPI_transfer16 (word : Z)
| SPI_endTransaction
| delayMicroseconds (usec : Z).

Definition LOW : bool := false.
Definition HIGH : bool := true.

Record Globals := {
  buffer_rx : list Z;                      (* byte [512] *)
  buffer_tx : list Z;                      (* byte [MSG_LENGTH] *)
  buffer_rx_ptr : Z;
  cmd_id : Z;
  checksum_error : bool;
  us_since_last_pos_update : Z;            (* elapsedMicros *)
  illumination_source : Z;
  illumination_intensity : Z;              (* uint16_t *)
  illumination_intensity_factor : spec_float;
  illumination_is_on : bool;
  cmd_map : list (option CommandCallback); (* [256], a null pointer is None *)
  hardware : list HwOp;
  SerialUSB_written : list (list Z)
}.

(** The static initialisers. *)
Definition power_on : Globals := {|
  buffer_rx := replicate 512 0;
  buffer_tx := replicate (Z.to_nat MSG_LENGTH) 0;
  buffer_rx_ptr := 0;
  cmd_id := 0;
  checksum_error := false;
  us_since_last_pos_update := 0;
  illumination_source := 0;
  illumination_intensity := 0;
  illumination_intensity_factor := float_of_int 1;
  illumination_is_on := false;
  cmd_map := replicate 256 None;
  hardware := [];
  SerialUSB_written := []
|}.

(** Updates of single groups of variables. *)
Definition with_rx (buffer : list Z) (ptr : Z) (g : Globals) : Globals :=
  {| buffer_rx := buffer; buffer_tx := buffer_tx g; buffer_rx_ptr := ptr;
     cmd_id := cmd_id g; checksum_error := checksum_error g;
     us_since_last_pos_update := us_since_last_pos_update g;
     illumination_source := illumination_source g;
     illumination_intensity := illumination_intensity g;
     illumination_intensity_factor := illumination_intensity_factor g;
     illumination_is_on := illumination_is_on g;
     cmd_map := cmd_map g; hardware := hardware g;
     SerialUSB_written := SerialUSB_written g |}.

Definition with_cmd (id : Z) (error : bool) (g : Globals) : Globals :=
  {| buffer_rx := buffer_rx g; buffer_tx := buffer_tx g;
     buffer_rx_ptr := buffer_rx_ptr g;
     cmd_id := id; checksum_error := error;
     us_since_last_pos_update := us_since_last_pos_update g;
     illumination_source := illumination_source g;
     illumination_intensity := illumination_intensity g;
     illumination_intensity_factor := illumination_intensity_factor g;
     illumination_is_on := illumination_is_on g;
     cmd_map := cmd_map g; hardware := hardware g;
     SerialUSB_written := SerialUSB_written g |}.

Definition with_illumination (source intensity : Z) (factor : spec_float)
  (is_on : bool) (g : Globals) : Globals :=
  {| buffer_rx := buffer_rx g; buffer_tx := buffer_tx g;
     buffer_rx_ptr := buffer_rx_ptr g;
     cmd_id := cmd_id g; checksum_error := checksum_error g;
     us_since_last_pos_update := us_since_last_pos_update g;
     illumination_source := source;
     illumination_intensity := intensity;
     illumination_intensity_factor := factor;
     illumination_is_on := is_on;
     cmd_map := cmd_map g; hardware := hardware g;
     SerialUSB_written := SerialUSB_written g |}.

Definition with_cmd_map (map : list (option CommandCallback)) (g : Globals)
  : Globals :=
  {| buffer_rx := buffer_rx g; buffer_tx := buffer_tx g;
     buffer_rx_ptr := buffer_rx_ptr g;
     cmd_id := cmd_id g; checksum_error := checksum_error g;
     us_since_last_pos_update := us_since_last_pos_update g;
     illumination_source := illumination_source g;
     illumination_intensity := illumination_intensity g;
     illumination_intensity_factor := illumination_intensity_factor g;
     illumination_is_on := illumination_is_on g;
     cmd_map := map; hardware := hardware g;
     SerialUSB_written := SerialUSB_written g |}.

(** The hardware calls [ops], appended to those made so far. *)
Definition hw (ops : list HwOp) (g : Globals) : Globals :=
  {| buffer_rx := buffer_rx g; buffer_tx := buffer_tx g;
     buffer_rx_ptr := buffer_rx_ptr g;
     cmd_id := cmd_id g; checksum_error := checksum_error g;
     us_since_last_pos_update := us_since_last_pos_update g;
     illumination_source := illumination_source g;
     illumination_intensity := illumination_intensity g;
     illumination_intensity_factor := illumination_intensity_factor g;
     illumination_is_on := illumination_is_on g;
     cmd_map := cmd_map g; hardware := hardware g ++ ops;
     SerialUSB_written := SerialUSB_written g |}.

(** The microsecond timer [us_since_last_pos_update] set to [t]: by the
    firmware when it writes 0, by the passing of time otherwise. *)
Definition with_timer (t : Z) (g : Globals) : Globals :=
  {| buffer_rx := buffer_rx g; buffer_tx := buffer_tx g;
     buffer_rx_ptr := buffer_rx_ptr g;
     cmd_id := cmd_id g; checksum_error := checksum_error g;
     us_since_last_pos_update := t;
     illumination_source := illumination_source g;
     illumination_intensity := illumination_intensity g;
     illumination_intensity_factor := illumination_intensity_factor g;
     illumination_is_on := illumination_is_on g;
     cmd_map := cmd_map g; hardware := hardware g;
     SerialUSB_written := SerialUSB_written g |}.

(** [buffer_tx] filled and written to the serial port. *)
Definition transmit (packet : list Z) (g : Globals) : Globals :=
  {| buffer_rx := buffer_rx g; buffer_tx := packet;
     buffer_rx_ptr := buffer_rx_ptr g;
     cmd_id := cmd_id g; checksum_error := checksum_error g;
     us_since_last_pos_update := us_since_last_pos_update g;
     illumination_source := illumination_source g;
     illumination_intensity := illumination_intensity g;
     illumination_intensity_factor := illumination_intensity_factor g;
     illumination_is_on := illumination_is_on g;
     cmd_map := cmd_map g; hardware := hardware g;
     SerialUSB_written := SerialUSB_written g ++ [packet] |}.

(** ** Illumination (illumination.cpp) *)

Definition set_dac_gain (div gains : Z) (g : Globals) : Globals :=
  let value := to_u16 (Z.shiftl div 8 + gains) in
  hw [SPI_beginTransaction; digitalWrite DAC8050x_CS_pin LOW;
      SPI_transfer DAC8050x_GAIN_ADDR; SPI_transfer16 value;
      digitalWrite DAC8050x_CS_pin HIGH; SPI_endTransaction] g.

Definition set_dac_output (channel value : Z) (g : Globals) : Globals :=
  hw [SPI_beginTransaction; digitalWrite DAC8050x_CS_pin LOW;
      SPI_transfer (to_u8 (DAC8050x_DAC_ADDR + channel)); SPI_transfer16 value;
      digitalWrite DAC8050x_CS_pin HIGH; SPI_endTransaction] g.

Definition init_dac (g : Globals) : Globals :=
  set_dac_gain 0x00 0x80
    (hw [pinMode_OUTPUT DAC8050x_CS_pin; digitalWrite DAC8050x_CS_pin HIGH;
         SPI_begin; delayMicroseconds 1000;
         SPI_beginTransaction; digitalWrite DAC8050x_CS_pin LOW;
         SPI_transfer DAC8050x_CONFIG_ADDR; SPI_transfer16 0;
         digitalWrite DAC8050x_CS_pin HIGH; SPI_endTransaction] g).

Definition turn_off_all_lasers (g : Globals) : Globals :=
  hw [digitalWrite LASER_405nm LOW; digitalWrite LASER_488nm LOW;
      digitalWrite LASER_561nm LOW; digitalWrite LASER_638nm LOW;
      digitalWrite LASER_730nm LOW] g.

(** The laser line of an illumination source, if it has one. *)
Definition laser_pin (source : Z) : option Z :=
  if source =? ILLUMINATION_SOURCE_405NM then Some LASER_405nm
  else if source =? ILLUMINATION_SOURCE_488NM then Some LASER_488nm
  else if source =? ILLUMINATION_SOURCE_561NM then Some LASER_561nm
  else if source =? ILLUMINATION_SOURCE_638NM then Some LASER_638nm
  else if source =? ILLUMINATION_SOURCE_730NM then Some LASER_730nm
  else None.

Definition turn_on_illumination (g : Globals) : Globals :=
  let g1 :=
    with_illumination (illumination_source g) (illumination_intensity g)
      (illumination_intensity_factor g) true g in
  match laser_pin (illumination_source g1) with
  | Some pin => hw [digitalWrite pin HIGH] g1
  | None => g1
  end.

Definition turn_off_illumination (g : Globals) : Globals :=
  let g1 :=
    match laser_pin (illumination_source g) with
    | Some pin => hw [digitalWrite pin LOW] g
    | None => g
    end in
  with_illumination (illumination_source g1) (illumination_intensity g1)
    (illumination_intensity_factor g1) false g1.

(** The DAC channel of an illumination source, if it has one. *)
Definition dac_channel (source : Z) : option Z :=
  if source =? ILLUMINATION_SOURCE_405NM then Some 0
  else if source =? ILLUMINATION_SOURCE_488NM then Some 1
  else if source =? ILLUMINATION_SOURCE_561NM then Some 2
  else if source =? ILLUMINATION_SOURCE_638NM then Some 3
  else if source =? ILLUMINATION_SOURCE_730NM then Some 4
  else None.

Definition set_illumination (source intensity : Z) (g : Globals) : Globals :=
  let scaled :=
    to_u16 (float_to_int
              (float_mul (float_of_int intensity)
                 (illumination_intensity_factor g))) in
  let g1 :=
    with_illumination source scaled (illumination_intensity_factor g)
      (illumination_is_on g) g in
  let g2 :=
    match dac_channel source with
    | Some channel => set_dac_output channel (illumination_intensity g1) g1
    | None => g1
    end in
  if illumination_is_on g2 then turn_on_illumination g2 else g2.

(** ** Command handlers (commands.cpp) *)

(** [cmd_map[command] = &callback] *)
Definition register (command : Z) (callback : CommandCallback)
  (map : list (option CommandCallback)) : list (option CommandCallback) :=
  <[Z.to_nat command := Some callback]> map.

Definition init_callbacks (g : Globals) : Globals :=
  with_cmd_map
    (register RESET callback_reset
    (register INITIALIZE callback_initialize
    (register ANALOG_WRITE_ONBOARD_DAC callback_analog_write_dac
    (register SET_DAC80508_REFDIV_GAIN callback_set_dac_gain
    (register SET_ILLUMINATION_INTENSITY_FACTOR
       callback_set_illumination_intensity_factor
    (register SET_ILLUMINATION callback_set_illumination
    (register TURN_OFF_ILLUMINATION callback_turn_off_illumination
    (register TURN_ON_ILLUMINATION callback_turn_on_illumination
       (cmd_map g))))))))) g.

(** No-op: the command is acknowledged by [send_position_update]. *)
Definition callback_default (g : Globals) : Globals := g.

(** The body of each registered callback. *)
Definition invoke (callback : CommandCallback) (g : Globals) : Globals :=
  match callback with
  | callback_turn_on_illumination => turn_on_illumination g
  | callback_turn_off_illumination => turn_off_illumination g
  | callback_set_illumination =>
      let source := buffer_rx g !!! 2%nat in
      let intensity :=
        to_u16 (Z.shiftl (buffer_rx g !!! 3%nat) 8 + buffer_rx g !!! 4%nat) in
      set_illumination source intensity g
  | callback_set_illumination_intensity_factor =>
      let factor := buffer_rx g !!! 2%nat in
      let factor := if 100 <? factor then 100 else factor in
      with_illumination (illumination_source g) (illumination_intensity g)
        (float_div (float_of_int factor) (float_of_int 100))
        (illumination_is_on g) g
  | callback_set_dac_gain =>
      set_dac_gain (buffer_rx g !!! 2%nat) (buffer_rx g !!! 3%nat) g
  | callback_analog_write_dac =>
      let channel := buffer_rx g !!! 2%nat in
      let value :=
        to_u16 (Z.shiftl (buffer_rx g !!! 3%nat) 8 + buffer_rx g !!! 4%nat) in
      set_dac_output channel value g
  | callback_initialize =>
      init_dac
        (turn_off_all_lasers
           (with_illumination 0 0 (illumination_intensity_factor g) false g))
  | callback_reset =>
      let g1 := turn_off_all_lasers (with_cmd 0 (checksum_error g) g) in
      with_illumination 0 0 (illumination_intensity_factor g1) false g1
  end.

(** ** Serial communication (serial_communication.cpp) *)

(** [process_serial_message] with the bytes the serial port has
    [available].  [buffer_rx_ptr] stays within 0..7, so the store is inside
    [buffer_rx]. *)
Fixpoint process_serial_message (g : Globals) (available : list Z) : Globals :=
  match available with
  | [] => g
  | c :: rest =>
      let g1 :=
        with_rx (<[Z.to_nat (buffer_rx_ptr g) := to_u8 c]> (buffer_rx g))
          (buffer_rx_ptr g + 1) g in
      if buffer_rx_ptr g1 =? CMD_LENGTH then
        let g2 := with_rx (buffer_rx g1) 0 g1 in
        let g3 := with_cmd (buffer_rx g2 !!! 0%nat) (checksum_error g2) g2 in
        (* Validate CRC *)
        let checksum := crc8ccitt (buffer_rx g3) (CMD_LENGTH - 1) in
        if negb (checksum =? buffer_rx g3 !!! Z.to_nat (CMD_LENGTH - 1)) then
          (* the rest of the input is read and dropped *)
          with_cmd (cmd_id g3) true g3
        else
          let g4 := with_cmd (cmd_id g3) false g3 in
          (* Dispatch command *)
          let g5 :=
            match cmd_map g4 !!! Z.to_nat (buffer_rx g4 !!! 1%nat) with
            | None => callback_default g4
            | Some p_callback => invoke p_callback g4
            end in
          process_serial_message g5 rest
      else process_serial_message g1 rest
  end.

Definition send_position_update (g : Globals) : Globals :=
  if interval_send_pos_update <? us_since_last_pos_update g then
    let g1 := with_timer 0 g in
    let status :=
      if checksum_error g1 then CMD_CHECKSUM_ERROR
      else COMPLETED_WITHOUT_ERRORS in
    (* bytes 2..22: positions, buttons and reserved bytes, all zero *)
    let body := [cmd_id g1; status] ++ replicate 21 0 in
    let tx_checksum := crc8ccitt body (MSG_LENGTH - 1) in
    transmit (body ++ [tx_checksum]) g1
  else g.

(** A MOVE_X command (type 0, not registered in this build) with identifier
    0x2A, followed by its CRC-8. *)
Definition move_x_frame : list Z :=
  let body := [0x2A; 0; 0; 0; 0x10; 0; 0] in
  body ++ [crc8ccitt body 7].

(** ** Pin initialisation (init.cpp) *)

Definition init_laser_pins (g : Globals) : Globals :=
  hw [pinMode_OUTPUT LASER_405nm; digitalWrite LASER_405nm LOW;
      pinMode_OUTPUT LASER_488nm; digitalWrite LASER_488nm LOW;
      pinMode_OUTPUT LASER_561nm; digitalWrite LASER_561nm LOW;
      pinMode_OUTPUT LASER_638nm; digitalWrite LASER_638nm LOW;
      pinMode_OUTPUT LASER_730nm; digitalWrite LASER_730nm LOW] g.

(** ** Reading the hardware calls *)

(** The level a pin was last driven to, if it was driven at all. *)
Definition pin_level (pin : Z) (ops : list HwOp) : option bool :=
  fold_left
    (fun level op =>
       match op with
       | digitalWrite p v => if p =? pin then Some v else level
       | _ => level
       end) ops None.

Definition laser_pins : list Z :=
  [LASER_405nm; LASER_488nm; LASER_561nm; LASER_638nm; LASER_730nm].

(** Byte [i] of a frame with bit [k] inverted. *)
Definition flip_bit (frame : list Z) (i k : nat) : list Z :=
  <[i := Z.lxor (frame !!! i) (2 ^ Z.of_nat k)]> frame.

(** ** Commands as the host frames them *)

(** Eight bytes, the last one the CRC-8 of the first seven. *)
Definition well_formed_command (frame : list Z) : Prop :=
  length frame = 8%nat
  /\ Forall is_u8 frame
  /\ crc8ccitt frame 7 = frame !!! 7%nat.

Definition command_frame (id command : Z) (data : list Z) : list Z :=
  let body := [id; command] ++ data in
  body ++ [crc8ccitt body 7].

End TtlOnly.

(* ===================================================================== *)
(** * Properties                                                          *)
(* ===================================================================== *)

(** ** Bytes and 16-bit words *)

Lemma to_u8_id v : is_u8 v -> to_u8 v = v.
Proof. unfold is_u8, to_u8. intros H. apply Z.mod_small. lia. Qed.

Lemma to_u8_range v : is_u8 (to_u8 v).
Proof. unfold is_u8, to_u8. pose proof (Z.mod_pos_bound v (2 ^ 8)). lia. Qed.

Lemma to_u16_range v : 0 <= to_u16 v < 65536.
Proof. unfold to_u16. pose proof (Z.mod_pos_bound v (2 ^ 16)). lia. Qed.

Lemma to_u16_id v : 0 <= v < 65536 -> to_u16 v = v.
Proof. unfold to_u16. intros H. apply Z.mod_small. lia. Qed.

Lemma land_0xFF v : Z.land v 0xFF = v mod 256.
Proof. change 0xFF with (Z.ones 8). rewrite Z.land_ones by lia. reflexivity. Qed.

Lemma shiftr_8 v : Z.shiftr v 8 = v / 256.
Proof. rewrite Z.shiftr_div_pow2 by lia. reflexivity. Qed.

(** A low byte and a shifted high byte do not overlap: or-ing them adds. *)
Lemma lor_shiftl_8 lo hi :
  0 <= lo < 256 -> Z.lor lo (Z.shiftl hi 8) = lo + 256 * hi.
Proof.
  intros Hlo.
  assert (Hdisj : Z.land lo (Z.shiftl hi 8) = 0).
  { apply Z.bits_inj'. intros n Hn.
    rewrite Z.land_spec, Z.bits_0.
    destruct (Z.ltb_spec n 8) as [Hlt | Hge].
    - rewrite Z.shiftl_spec_low by lia. apply andb_false_r.
    - assert (Z.testbit lo n = false) as ->; [| reflexivity].
      destruct (Z.eq_dec lo 0) as [-> | Hnz]; [apply Z.bits_0 |].
      apply Z.bits_above_log2; [lia |].
      assert (Z.log2 lo < 8); [| lia].
      apply Z.log2_lt_pow2; lia. }
  rewrite <- Z.lxor_lor by exact Hdisj.
  rewrite <- Z.add_nocarry_lxor by exact Hdisj.
  rewrite Z.shiftl_mul_pow2 by lia. lia.
Qed.

Lemma word_of_bytes lo hi :
  is_u8 lo -> is_u8 hi -> to_u16 (Z.lor lo (Z.shiftl hi 8)) = lo + 256 * hi.
Proof.
  unfold is_u8. intros Hlo Hhi.
  rewrite lor_shiftl_8 by lia. apply to_u16_id. lia.
Qed.

Lemma low_byte_u8 v : is_u8 (Z.land v 0xFF).
Proof.
  rewrite land_0xFF. unfold is_u8.
  pose proof (Z.mod_pos_bound v 256). lia.
Qed.

(** Splitting a 16-bit word into its two bytes and back. *)
Lemma bytes_of_word v :
  0 <= v < 65536 ->
  Z.land v 0xFF + 256 * Z.land (Z.shiftr v 8) 0xFF = v.
Proof.
  intros Hv. rewrite !land_0xFF, shiftr_8.
  rewrite (Z.mod_small (v / 256)).
  - pose proof (Z.div_mod v 256). lia.
  - split; [apply Z.div_pos; lia | apply Z.div_lt_upper_bound; lia].
Qed.

Lemma lxor_u16 a b :
  0 <= a < 65536 -> 0 <= b < 65536 -> 0 <= Z.lxor a b < 65536.
Proof.
  intros Ha Hb.
  assert (Hnn : 0 <= Z.lxor a b) by (apply Z.lxor_nonneg; lia).
  split; [exact Hnn |].
  destruct (Z.eq_dec (Z.lxor a b) 0) as [-> | Hnz]; [lia |].
  change 65536 with (2 ^ 16). apply Z.log2_lt_pow2; [lia |].
  eapply Z.le_lt_trans; [apply Z.log2_lxor; lia |].
  apply Z.max_lub_lt.
  - destruct (Z.eq_dec a 0) as [-> | ?]; [reflexivity |].
    apply Z.log2_lt_pow2; lia.
  - destruct (Z.eq_dec b 0) as [-> | ?]; [reflexivity |].
    apply Z.log2_lt_pow2; lia.
Qed.

(** ** The CRC-16 stays within 16 bits *)

Lemma crc16_shift_range crc : 0 <= ProtocolV2.crc16_shift crc < 65536.
Proof.
  unfold ProtocolV2.crc16_shift.
  destruct (Z.testbit crc 15).
  - apply lxor_u16; [apply to_u16_range | lia].
  - apply to_u16_range.
Qed.

Lemma crc16_byte_range crc b : 0 <= ProtocolV2.crc16_byte crc b < 65536.
Proof. unfold ProtocolV2.crc16_byte. simpl. apply crc16_shift_range. Qed.

Lemma crc16_ccitt_range data len : 0 <= ProtocolV2.crc16_ccitt data len < 65536.
Proof.
  unfold ProtocolV2.crc16_ccitt.
  assert (Hacc : forall l acc, 0 <= acc < 65536 ->
            0 <= fold_left ProtocolV2.crc16_byte l acc < 65536).
  { induction l as [| b l IH]; intros acc Hacc; simpl; [exact Hacc |].
    apply IH, crc16_byte_range. }
  apply Hacc. lia.
Qed.

(** ** The receive state machine *)

Section Receiver_facts.

Import ProtocolV2.

Context {Env : Type}.
Variable pc : Env -> list Z -> Z -> Env.

Local Abbreviation run := (protocol_v2_process_with pc).
Local Abbreviation step := (rx_byte pc).

Lemma run_app s a b :
  run s (a ++ b) =
  match run s a with Some s1 => run s1 b | None => None end.
Proof.
  revert s. induction a as [| c a IH]; intros s; simpl; [reflexivity |].
  destruct (step s c) as [s1 |]; [apply IH | reflexivity].
Qed.

Lemma run_chunks s chunks :
  protocol_v2_process_chunks pc s chunks = run s (concat chunks).
Proof.
  revert s. induction chunks as [| chunk chunks IH]; intros s; simpl.
  - reflexivity.
  - rewrite run_app.
    destruct (run s chunk) as [s1 |]; [apply IH | reflexivity].
Qed.

Lemma concat_singletons (l : list Z) : concat (map (fun b => [b]) l) = l.
Proof. induction l as [| b l IH]; simpl; [| rewrite IH]; reflexivity. Qed.

(** *** Single transitions *)

Lemma step_header_0 rx env c :
  rx_state rx = RX_WAIT_HEADER_0 ->
  step (rx, env) c =
  Some (if to_u8 c =? PACKET_HEADER_0
        then set_rx_state RX_WAIT_HEADER_1 rx else rx, env).
Proof.
  intros Hst. unfold rx_byte. rewrite Hst.
  destruct (to_u8 c =? PACKET_HEADER_0); reflexivity.
Qed.

Lemma step_header_1 rx env c :
  rx_state rx = RX_WAIT_HEADER_1 ->
  step (rx, env) c =
  Some (set_rx_state
          (if to_u8 c =? PACKET_HEADER_1 then RX_WAIT_LENGTH_0
           else if to_u8 c =? PACKET_HEADER_0 then RX_WAIT_HEADER_1
           else RX_WAIT_HEADER_0) rx, env).
Proof.
  intros Hst. unfold rx_byte. rewrite Hst.
  destruct (to_u8 c =? PACKET_HEADER_1); [reflexivity |].
  destruct (to_u8 c =? PACKET_HEADER_0); reflexivity.
Qed.

Lemma step_length_0 rx env c :
  rx_state rx = RX_WAIT_LENGTH_0 ->
  step (rx, env) c =
  Some (set_rx_state RX_WAIT_LENGTH_1 (set_rx_payload_length (to_u8 c) rx), env).
Proof. intros Hst. unfold rx_byte. rewrite Hst. reflexivity. Qed.

Lemma step_crc_0 rx env c :
  rx_state rx = RX_WAIT_CRC_0 ->
  step (rx, env) c =
  Some (set_rx_state RX_WAIT_CRC_1 (set_rx_crc_received (to_u8 c) rx), env).
Proof. intros Hst. unfold rx_byte. rewrite Hst. reflexivity. Qed.

Lemma step_payload rx env c :
  rx_state rx = RX_WAIT_PAYLOAD ->
  length (rx_buffer rx) = 512%nat ->
  0 <= rx_payload_received rx < rx_payload_length rx ->
  rx_payload_length rx <= 506 ->
  step (rx, env) c =
  Some (set_rx_state
          (if rx_payload_length rx <=? rx_payload_received rx + 1
           then RX_WAIT_CRC_0 else RX_WAIT_PAYLOAD)
          (set_rx_payload_received (rx_payload_received rx + 1)
             (set_rx_buffer
                (<[Z.to_nat (rx_payload_received rx) := to_u8 c]> (rx_buffer rx))
                rx)), env).
Proof.
  intros Hst Hlen Hrecv Hmax. unfold rx_byte, array_store. rewrite Hst, Hlen.
  replace ((0 <=? rx_payload_received rx)
           && (rx_payload_received rx <? Z.of_nat 512)) with true
    by (symmetry; apply andb_true_iff; split;
        [apply Z.leb_le | apply Z.ltb_lt]; lia).
  cbn [rx_payload_length rx_payload_received set_rx_payload_received
       set_rx_buffer set_rx_state].
  rewrite to_u16_id by lia.
  destruct (rx_payload_length rx <=? rx_payload_received rx + 1) eqn:E.
  - reflexivity.
  - f_equal. f_equal. destruct rx; cbn in *. subst. reflexivity.
Qed.

(** *** Collecting the payload *)

(** From [RX_WAIT_PAYLOAD] with [k] bytes already stored, the remaining
    bytes [p] of the payload land behind them and the machine moves on to
    the CRC field. *)
Lemma payload_phase p : forall rx env (k : nat),
  rx_state rx = RX_WAIT_PAYLOAD ->
  length (rx_buffer rx) = 512%nat ->
  rx_payload_received rx = Z.of_nat k ->
  rx_payload_length rx = Z.of_nat (k + length p) ->
  (k + length p <= 506)%nat ->
  p <> [] ->
  Forall is_u8 p ->
  exists rx1,
    run (rx, env) p = Some (rx1, env) /\
    rx_state rx1 = RX_WAIT_CRC_0 /\
    rx_payload_length rx1 = rx_payload_length rx /\
    length (rx_buffer rx1) = 512%nat /\
    take (k + length p) (rx_buffer rx1) = take k (rx_buffer rx) ++ p.
Proof.
  induction p as [| b p IH]; intros rx env k Hst Hbuf Hrecv Hlen Hmax Hne Hbytes;
    [congruence |].
  apply Forall_cons in Hbytes as [Hb Hbytes].
  cbn [length] in Hlen, Hmax.
  cbn [protocol_v2_process_with].
  rewrite step_payload by (try assumption; lia).
  rewrite (to_u8_id b Hb), Hrecv, Nat2Z.id.
  assert (Hk : (k < length (rx_buffer rx))%nat) by lia.
  assert (Htake : take (S k) (<[k := b]> (rx_buffer rx))
                  = take k (rx_buffer rx) ++ [b]).
  { rewrite (take_S_r _ k b) by (apply list_lookup_insert_eq; exact Hk).
    rewrite take_insert_ge by lia. reflexivity. }
  destruct p as [| b' p]; cbn [length] in Hlen, Hmax.
  - (* the last payload byte *)
    replace (rx_payload_length rx <=? Z.of_nat k + 1) with true
      by (symmetry; apply Z.leb_le; lia).
    eexists. split; [reflexivity |].
    cbn [rx_state rx_payload_length rx_buffer set_rx_state
         set_rx_payload_received set_rx_buffer length].
    rewrite length_insert.
    repeat split; try assumption.
    replace (k + 1)%nat with (S k) by lia. exact Htake.
  - (* more to come *)
    replace (rx_payload_length rx <=? Z.of_nat k + 1) with false
      by (symmetry; apply Z.leb_gt; lia).
    pose proof (IH (set_rx_state RX_WAIT_PAYLOAD
                      (set_rx_payload_received (Z.of_nat k + 1)
                         (set_rx_buffer (<[k := b]> (rx_buffer rx)) rx)))
                   env (S k)) as IH1.
    cbn [rx_state rx_payload_length rx_payload_received rx_buffer
         set_rx_state set_rx_payload_received set_rx_buffer length] in IH1.
    rewrite length_insert in IH1.
    destruct IH1 as (rx1 & Hrun & Hst1 & Hlen1 & Hbuf1 & Htake1);
      [reflexivity | exact Hbuf | lia | lia | lia | discriminate
      | exact Hbytes |].
    exists rx1. split; [exact Hrun |].
    repeat split; try assumption.
    replace (k + length (b :: b' :: p))%nat with (S k + S (length p))%nat
      by (cbn [length]; lia).
    rewrite Htake1, Htake, <- app_assoc. reflexivity.
Qed.

(** *** A whole frame *)

(** From [RX_WAIT_HEADER_1], the rest of a frame with a payload of 1 to 506
    bytes brings the machine back to [RX_WAIT_HEADER_0] with the payload in
    the buffer, and [process_command] is called exactly when the CRC field
    matches. *)
Lemma frame_after_first_header rx env payload crc_lo crc_hi :
  let L := Z.of_nat (length payload) in
  rx_state rx = RX_WAIT_HEADER_1 ->
  length (rx_buffer rx) = 512%nat ->
  1 <= L <= 506 ->
  Forall is_u8 payload ->
  is_u8 crc_lo -> is_u8 crc_hi ->
  exists rx1,
    run (rx, env) (tail (frame_bytes payload crc_lo crc_hi)) =
      Some (rx1, if frame_crc payload =? crc_lo + 256 * crc_hi
                 then pc env (rx_buffer rx1) L else env) /\
    rx_state rx1 = RX_WAIT_HEADER_0 /\
    length (rx_buffer rx1) = 512%nat /\
    take (length payload) (rx_buffer rx1) = payload.
Proof.
  intros L Hst Hbuf HL Hbytes Hlo Hhi.
  assert (HL16 : 0 <= L < 65536) by lia.
  unfold frame_bytes. fold L.
  cbn [tail app protocol_v2_process_with].
  (* 0xBB *)
  rewrite step_header_1 by exact Hst.
  change (to_u8 PACKET_HEADER_1 =? PACKET_HEADER_1) with true. cbv iota.
  (* length, low byte then high byte *)
  rewrite step_length_0 by reflexivity.
  rewrite (to_u8_id _ (low_byte_u8 L)).
  unfold rx_byte at 1.
  cbn [rx_state rx_payload_length set_rx_state set_rx_payload_length].
  rewrite (to_u8_id _ (low_byte_u8 (Z.shiftr L 8))).
  rewrite word_of_bytes by apply low_byte_u8.
  rewrite bytes_of_word by exact HL16.
  replace ((L =? 0) || (PACKET_MAX_PAYLOAD <? L)) with false
    by (symmetry; apply orb_false_iff; split;
        [apply Z.eqb_neq | apply Z.ltb_ge]; unfold PACKET_MAX_PAYLOAD; lia).
  (* payload *)
  rewrite run_app.
  edestruct (payload_phase payload
               (set_rx_state RX_WAIT_PAYLOAD
                  (set_rx_payload_received 0
                     (set_rx_payload_length L
                        (set_rx_state RX_WAIT_LENGTH_1
                           (set_rx_payload_length (Z.land L 0xFF)
                              (set_rx_state RX_WAIT_LENGTH_0 rx))))))
               env 0%nat)
    as (rx1 & Hrun & Hst1 & Hlen1 & Hbuf1 & Htake1);
    try reflexivity; try assumption; try (cbn [Nat.add]; lia).
  { intros ->. cbn in L. lia. }
  rewrite Hrun. rewrite take_0, app_nil_l in Htake1.
  cbn [Nat.add] in Htake1.
  cbn [rx_payload_length set_rx_state set_rx_payload_received
       set_rx_payload_length] in Hlen1.
  (* CRC, low byte then high byte *)
  cbn [protocol_v2_process_with].
  rewrite step_crc_0 by exact Hst1.
  unfold rx_byte.
  cbn [rx_state rx_payload_length rx_buffer rx_crc_received
       set_rx_state set_rx_crc_received].
  rewrite (to_u8_id _ Hlo), (to_u8_id _ Hhi), Hlen1.
  rewrite word_of_bytes by assumption.
  replace (L <=? PACKET_MAX_PAYLOAD) with true
    by (symmetry; apply Z.leb_le; unfold PACKET_MAX_PAYLOAD; lia).
  unfold L at 3. rewrite Nat2Z.id, Htake1.
  rewrite (to_u16_id (L + 2)) by lia.
  fold (frame_crc payload).
  exists (set_rx_state RX_WAIT_HEADER_0
            (set_rx_crc_received (crc_lo + 256 * crc_hi)
               (set_rx_state RX_WAIT_CRC_1 (set_rx_crc_received crc_lo rx1)))).
  split; [reflexivity |].
  cbn [rx_state rx_buffer set_rx_state set_rx_crc_received].
  repeat split; assumption.
Qed.

(** A frame that carries the CRC of its own length field and payload is
    handed over. *)
Lemma encoded_frame_after_first_header rx env payload :
  rx_state rx = RX_WAIT_HEADER_1 ->
  length (rx_buffer rx) = 512%nat ->
  1 <= Z.of_nat (length payload) <= 506 ->
  Forall is_u8 payload ->
  exists rx1,
    run (rx, env) (tail (encode_frame payload)) =
      Some (rx1, pc env (rx_buffer rx1) (Z.of_nat (length payload))) /\
    rx_state rx1 = RX_WAIT_HEADER_0 /\
    length (rx_buffer rx1) = 512%nat /\
    take (length payload) (rx_buffer rx1) = payload.
Proof.
  intros Hst Hbuf HL Hbytes.
  pose proof (crc16_ccitt_range
                ([Z.land (Z.of_nat (length payload)) 0xFF;
                  Z.land (Z.shiftr (Z.of_nat (length payload)) 8) 0xFF]
                 ++ payload)
                (Z.of_nat (length payload) + 2)) as Hcrc.
  fold (frame_crc payload) in Hcrc.
  destruct (frame_after_first_header rx env payload
              (Z.land (frame_crc payload) 0xFF)
              (Z.land (Z.shiftr (frame_crc payload) 8) 0xFF))
    as (rx1 & Hrun & Hrest); try assumption; try apply low_byte_u8.
  exists rx1. split; [| exact Hrest].
  unfold encode_frame. rewrite Hrun.
  rewrite bytes_of_word by exact Hcrc.
  rewrite Z.eqb_refl. reflexivity.
Qed.

(** *** Memory safety *)

Lemma step_invariant rx env c :
  rx_invariant rx ->
  exists rx1 env1, step (rx, env) c = Some (rx1, env1) /\ rx_invariant rx1.
Proof.
  unfold rx_invariant, RX_BUFFER_SIZE, PACKET_MAX_PAYLOAD.
  intros [Hbuf Hinv].
  change (Z.to_nat 512) with 512%nat in *.
  destruct (rx_state rx) eqn:Hst.
  - rewrite step_header_0 by exact Hst. do 2 eexists. split; [reflexivity |].
    destruct (to_u8 c =? PACKET_HEADER_0); cbn; [| rewrite Hst]; auto.
  - rewrite step_header_1 by exact Hst. do 2 eexists. split; [reflexivity |].
    destruct (to_u8 c =? PACKET_HEADER_1); [cbn; auto |].
    destruct (to_u8 c =? PACKET_HEADER_0); cbn; auto.
  - rewrite step_length_0 by exact Hst. do 2 eexists. split; [reflexivity |].
    cbn. auto.
  - unfold rx_byte. rewrite Hst.
    cbn [rx_payload_length set_rx_payload_length].
    set (len := to_u16 (Z.lor (rx_payload_length rx) (Z.shiftl (to_u8 c) 8))).
    pose proof (to_u16_range (Z.lor (rx_payload_length rx)
                                    (Z.shiftl (to_u8 c) 8))) as Hlen.
    fold len in Hlen. unfold PACKET_MAX_PAYLOAD.
    destruct ((len =? 0) || (506 <? len)) eqn:E;
      do 2 eexists; (split; [reflexivity |]); cbn; [auto |].
    apply orb_false_iff in E as [E0 E1].
    apply Z.eqb_neq in E0. apply Z.ltb_ge in E1. split; [exact Hbuf | lia].
  - destruct Hinv as [Hlen Hrecv].
    rewrite step_payload by (try assumption; lia).
    do 2 eexists. split; [reflexivity |].
    destruct (rx_payload_length rx <=? rx_payload_received rx + 1) eqn:E;
      cbn; rewrite length_insert; (split; [exact Hbuf |]); [lia |].
    apply Z.leb_gt in E. lia.
  - rewrite step_crc_0 by exact Hst. do 2 eexists. split; [reflexivity |].
    cbn. auto.
  - unfold rx_byte. rewrite Hst.
    cbn [rx_payload_length set_rx_crc_received]. unfold PACKET_MAX_PAYLOAD.
    replace (rx_payload_length rx <=? 506) with true
      by (symmetry; apply Z.leb_le; lia).
    do 2 eexists. split; [reflexivity |]. cbn. auto.
Qed.

Lemma run_invariant input : forall rx env,
  rx_invariant rx ->
  exists rx1 env1, run (rx, env) input = Some (rx1, env1) /\ rx_invariant rx1.
Proof.
  induction input as [| c input IH]; intros rx env Hinv.
  - exists rx, env. split; [reflexivity | exact Hinv].
  - cbn [protocol_v2_process_with].
    destruct (step_invariant rx env c Hinv) as (rx1 & env1 & -> & Hinv1).
    apply IH, Hinv1.
Qed.

(** [RX_WAIT_PAYLOAD] is only entered with a validated length and nothing
    stored yet. *)
Lemma enter_payload rx env c rx1 env1 :
  rx_state rx <> RX_WAIT_PAYLOAD ->
  step (rx, env) c = Some (rx1, env1) ->
  rx_state rx1 = RX_WAIT_PAYLOAD ->
  1 <= rx_payload_length rx1 <= PACKET_MAX_PAYLOAD /\
  rx_payload_received rx1 = 0.
Proof.
  intros Hne Hstep Hst1. unfold rx_byte in Hstep.
  destruct (rx_state rx) eqn:Hst; try congruence.
  - destruct (to_u8 c =? PACKET_HEADER_0); inversion Hstep; subst;
      cbn in Hst1; congruence.
  - destruct (to_u8 c =? PACKET_HEADER_1);
      [| destruct (to_u8 c =? PACKET_HEADER_0)];
      inversion Hstep; subst; cbn in Hst1; congruence.
  - inversion Hstep; subst; cbn in Hst1; congruence.
  - cbn [rx_payload_length set_rx_payload_length] in Hstep.
    set (len := to_u16 (Z.lor (rx_payload_length rx) (Z.shiftl (to_u8 c) 8)))
      in *.
    pose proof (to_u16_range (Z.lor (rx_payload_length rx)
                                    (Z.shiftl (to_u8 c) 8))) as Hlen.
    fold len in Hlen.
    destruct ((len =? 0) || (PACKET_MAX_PAYLOAD <? len)) eqn:E;
      inversion Hstep; subst; cbn in Hst1; [congruence |].
    apply orb_false_iff in E as [E0 E1].
    apply Z.eqb_neq in E0. apply Z.ltb_ge in E1. cbn. lia.
  - inversion Hstep; subst; cbn in Hst1; congruence.
  - cbn [rx_payload_length set_rx_crc_received] in Hstep.
    destruct (rx_payload_length rx <=? PACKET_MAX_PAYLOAD);
      inversion Hstep; subst; cbn in Hst1; congruence.
Qed.

End Receiver_facts.

(** ** Claims about the frame receiver *)

Section Receiver_claims.

Import ProtocolV2.

(** The dispatcher reads nothing behind the [length] bytes it is given. *)
Lemma process_command_prefix g buffer len :
  process_command g buffer len
  = process_command g (take (Z.to_nat len) buffer) len.
Proof.
  unfold process_command.
  destruct (len <? 2) eqn:E; [reflexivity |].
  apply Z.ltb_ge in E.
  rewrite !lookup_total_take_lt by lia. reflexivity.
Qed.

(** The CRC-16/CCITT-FALSE check value: the CRC of the ASCII digits
    "123456789" is 0x29B1. *)
Example crc16_check_value :
  crc16_ccitt [49; 50; 51; 52; 53; 54; 55; 56; 57] 9 = 0x29B1.
Proof. vm_compute. reflexivity. Qed.

(** End to end: a well-formed frame met while scanning for a header reaches
    the dispatcher with its payload. *)
Lemma firmware_accepts_encoded_frame rx g payload :
  rx_state rx = RX_WAIT_HEADER_0 ->
  length (rx_buffer rx) = 512%nat ->
  1 <= Z.of_nat (length payload) <= 506 ->
  Forall is_u8 payload ->
  exists rx1,
    protocol_v2_process (rx, g) (encode_frame payload)
    = Some (rx1, process_command g payload (Z.of_nat (length payload)))
    /\ rx_state rx1 = RX_WAIT_HEADER_0
    /\ length (rx_buffer rx1) = 512%nat.
Proof.
  intros Hst Hbuf HL Hbytes.
  destruct (encoded_frame_after_first_header process_command
              (set_rx_state RX_WAIT_HEADER_1 rx) g payload)
    as (rx1 & Hrun & Hst1 & Hbuf1 & Htake); try assumption; [reflexivity |].
  exists rx1. split; [| split; assumption].
  unfold protocol_v2_process.
  assert (Hunfold : encode_frame payload = 0xAA :: tail (encode_frame payload))
    by reflexivity.
  rewrite Hunfold. cbn [protocol_v2_process_with].
  rewrite step_header_0 by exact Hst.
  change (to_u8 170 =? PACKET_HEADER_0) with true. cbv iota.
  rewrite Hrun, process_command_prefix, Nat2Z.id, Htake. reflexivity.
Qed.

(** C1.  A frame [0xAA, 0xBB, L_lo, L_hi, payload, crc_lo, crc_hi] with a
    payload of 1 to 506 bytes, fed to a receiver that is scanning for a
    header: if the CRC-16 of the length bytes and the payload equals
    [crc_lo + 256 * crc_hi], [process_command] is called once, with that
    payload and that length; if it differs, [process_command] is not
    called; either way the receiver is back in [RX_WAIT_HEADER_0] after the
    second CRC byte.  Stated for the calls the receiver makes and for the
    firmware state. *)
Theorem frame_reception rx payload crc_lo crc_hi :
  let L := Z.of_nat (length payload) in
  let crc_matches := frame_crc payload =? crc_lo + 256 * crc_hi in
  rx_state rx = RX_WAIT_HEADER_0 ->
  length (rx_buffer rx) = Z.to_nat RX_BUFFER_SIZE ->
  1 <= L <= 506 ->
  Forall is_u8 payload ->
  is_u8 crc_lo -> is_u8 crc_hi ->
  (exists rx1,
      received_calls rx (frame_bytes payload crc_lo crc_hi)
      = Some (rx1, if crc_matches then [(payload, L)] else [])
      /\ rx_state rx1 = RX_WAIT_HEADER_0)
  /\
  (forall g, exists rx1,
      protocol_v2_process (rx, g) (frame_bytes payload crc_lo crc_hi)
      = Some (rx1, if crc_matches then process_command g payload L else g)
      /\ rx_state rx1 = RX_WAIT_HEADER_0).
Proof.
  intros L crc_matches Hst Hbuf HL Hbytes Hlo Hhi.
  assert (Hhead : forall (Env : Type) (pc : Env -> list Z -> Z -> Env) env,
             protocol_v2_process_with pc (rx, env)
               (frame_bytes payload crc_lo crc_hi)
             = protocol_v2_process_with pc
                 (set_rx_state RX_WAIT_HEADER_1 rx, env)
                 (tail (frame_bytes payload crc_lo crc_hi))).
  { intros Env pc env. unfold frame_bytes.
    cbn [app tail protocol_v2_process_with].
    rewrite step_header_0 by exact Hst. reflexivity. }
  split.
  - destruct (frame_after_first_header record_call
                (set_rx_state RX_WAIT_HEADER_1 rx) [] payload crc_lo crc_hi)
      as (rx1 & Hrun & Hst1 & _ & Htake); try assumption; [reflexivity |].
    exists rx1. split; [| exact Hst1].
    unfold received_calls. rewrite Hhead, Hrun.
    fold L crc_matches. destruct crc_matches; [| reflexivity].
    unfold record_call, L. rewrite Nat2Z.id, Htake. reflexivity.
  - intros g.
    destruct (frame_after_first_header process_command
                (set_rx_state RX_WAIT_HEADER_1 rx) g payload crc_lo crc_hi)
      as (rx1 & Hrun & Hst1 & _ & Htake); try assumption; [reflexivity |].
    exists rx1. split; [| exact Hst1].
    unfold protocol_v2_process. rewrite Hhead, Hrun.
    fold L crc_matches. destruct crc_matches; [| reflexivity].
    rewrite process_command_prefix. unfold L at 1.
    rewrite Nat2Z.id, Htake. reflexivity.
Qed.

(** C2.  Feeding the input one byte at a time, or split into chunks at any
    boundaries, gives the same calls of [process_command] and the same
    final receiver state as feeding it as one block; the same holds for the
    firmware state behind the receiver. *)
Theorem chunk_boundary_independence rx (chunks : list (list Z)) (input : list Z) :
  protocol_v2_process_chunks record_call (rx, []) chunks
  = received_calls rx (concat chunks)
  /\ protocol_v2_process_chunks record_call (rx, []) (map (fun b => [b]) input)
     = received_calls rx input
  /\ (forall g,
        protocol_v2_process_chunks process_command (rx, g) chunks
        = protocol_v2_process (rx, g) (concat chunks))
  /\ (forall g,
        protocol_v2_process_chunks process_command (rx, g)
          (map (fun b => [b]) input)
        = protocol_v2_process (rx, g) input).
Proof.
  unfold received_calls, protocol_v2_process.
  repeat split; intros;
    rewrite run_chunks; rewrite ?concat_singletons; reflexivity.
Qed.

(** C3.  In [RX_WAIT_HEADER_1], 0xBB advances to [RX_WAIT_LENGTH_0], 0xAA
    leaves the state at [RX_WAIT_HEADER_1] and any other byte resets to
    [RX_WAIT_HEADER_0]; hence 0xAA followed by a well-formed frame is
    accepted: the receiver picks up the frame at the second 0xAA. *)
Theorem header_resynchronisation :
  (forall rx calls,
      rx_state rx = RX_WAIT_HEADER_1 ->
      rx_byte record_call (rx, calls) 0xBB
      = Some (set_rx_state RX_WAIT_LENGTH_0 rx, calls)
      /\ rx_byte record_call (rx, calls) 0xAA
         = Some (set_rx_state RX_WAIT_HEADER_1 rx, calls)
      /\ forall c, is_u8 c -> c <> 0xAA -> c <> 0xBB ->
           rx_byte record_call (rx, calls) c
           = Some (set_rx_state RX_WAIT_HEADER_0 rx, calls))
  /\
  (forall rx payload,
      rx_state rx = RX_WAIT_HEADER_0 ->
      length (rx_buffer rx) = Z.to_nat RX_BUFFER_SIZE ->
      1 <= Z.of_nat (length payload) <= 506 ->
      Forall is_u8 payload ->
      exists rx1,
        received_calls rx (0xAA :: encode_frame payload)
        = Some (rx1, [(payload, Z.of_nat (length payload))])
        /\ rx_state rx1 = RX_WAIT_HEADER_0).
Proof.
  split.
  - intros rx calls Hst. repeat split.
    + rewrite step_header_1 by exact Hst. reflexivity.
    + rewrite step_header_1 by exact Hst. reflexivity.
    + intros c Hc Haa Hbb. rewrite step_header_1 by exact Hst.
      rewrite (to_u8_id c Hc).
      replace (c =? PACKET_HEADER_1) with false
        by (symmetry; apply Z.eqb_neq; exact Hbb).
      replace (c =? PACKET_HEADER_0) with false
        by (symmetry; apply Z.eqb_neq; exact Haa).
      reflexivity.
  - intros rx payload Hst Hbuf HL Hbytes.
    pose proof (crc16_ccitt_range
                  ([Z.land (Z.of_nat (length payload)) 0xFF;
                    Z.land (Z.shiftr (Z.of_nat (length payload)) 8) 0xFF]
                   ++ payload)
                  (Z.of_nat (length payload) + 2)) as Hcrc.
    fold (frame_crc payload) in Hcrc.
    destruct (frame_after_first_header record_call
                (set_rx_state RX_WAIT_HEADER_1
                   (set_rx_state RX_WAIT_HEADER_1 rx)) [] payload
                (Z.land (frame_crc payload) 0xFF)
                (Z.land (Z.shiftr (frame_crc payload) 8) 0xFF))
      as (rx1 & Hrun & Hst1 & _ & Htake);
      try assumption; try apply low_byte_u8; [reflexivity |].
    exists rx1. split; [| exact Hst1].
    unfold received_calls, encode_frame.
    assert (Hunfold : frame_bytes payload (Z.land (frame_crc payload) 0xFF)
                        (Z.land (Z.shiftr (frame_crc payload) 8) 0xFF)
                      = 0xAA :: tail (frame_bytes payload
                           (Z.land (frame_crc payload) 0xFF)
                           (Z.land (Z.shiftr (frame_crc payload) 8) 0xFF)))
      by reflexivity.
    rewrite Hunfold.
    cbn [protocol_v2_process_with].
    rewrite step_header_0 by exact Hst.
    change (to_u8 170 =? PACKET_HEADER_0) with true. cbv iota.
    rewrite step_header_1 by reflexivity.
    change (to_u8 170 =? PACKET_HEADER_1) with false.
    change (to_u8 170 =? PACKET_HEADER_0) with true. cbv iota.
    rewrite Hrun.
    rewrite bytes_of_word by exact Hcrc.
    rewrite Z.eqb_refl.
    unfold record_call. rewrite Nat2Z.id, Htake. reflexivity.
Qed.

(** C10.  Whatever bytes arrive after power-on, the receiver never stores
    outside [rx_buffer]: every run is defined (a store outside the buffer
    would end it), the buffer keeps its 512 bytes, and whenever the
    receiver waits for a payload byte, the index [rx_payload_received] of
    the next store is below [rx_payload_length], which is between 1 and
    506, so the index is at most 505.  [RX_WAIT_PAYLOAD] is only entered
    with such a length and with [rx_payload_received = 0]. *)
Theorem rx_buffer_stores_in_bounds :
  forall (Env : Type) (pc : Env -> list Z -> Z -> Env) (env : Env)
         (input : list Z),
  exists rx1 env1,
    protocol_v2_process_with pc (rx_power_on, env) input = Some (rx1, env1)
    /\ Z.of_nat (length (rx_buffer rx1)) = RX_BUFFER_SIZE
    /\ (rx_state rx1 = RX_WAIT_PAYLOAD ->
          1 <= rx_payload_length rx1 <= 506 /\
          0 <= rx_payload_received rx1 < rx_payload_length rx1 /\
          rx_payload_received rx1 <= 505 /\
          rx_payload_received rx1 < RX_BUFFER_SIZE /\
          forall c, array_store (rx_buffer rx1) (rx_payload_received rx1) c
                    <> None)
    /\ (forall c rx2 env2,
          rx_state rx1 <> RX_WAIT_PAYLOAD ->
          rx_byte pc (rx1, env1) c = Some (rx2, env2) ->
          rx_state rx2 = RX_WAIT_PAYLOAD ->
          1 <= rx_payload_length rx2 <= 506 /\ rx_payload_received rx2 = 0).
Proof.
  intros Env pc env input.
  destruct (run_invariant pc input rx_power_on env)
    as (rx1 & env1 & Hrun & Hbuf & Hinv).
  { split; [reflexivity | exact I]. }
  exists rx1, env1. split; [exact Hrun |].
  unfold RX_BUFFER_SIZE, PACKET_MAX_PAYLOAD in *.
  split; [rewrite Hbuf; reflexivity |]. split.
  - intros Hst. rewrite Hst in Hinv. repeat split; try lia.
    intros c. unfold array_store. rewrite Hbuf.
    replace ((0 <=? rx_payload_received rx1)
             && (rx_payload_received rx1 <? Z.of_nat (Z.to_nat 512)))
      with true; [discriminate |].
    symmetry. apply andb_true_iff.
    split; [apply Z.leb_le | apply Z.ltb_lt]; lia.
  - intros c rx2 env2 Hne Hstep Hst2.
    eapply enter_payload; eassumption.
Qed.

(** *** Instances *)

Local Ltac bytes := repeat constructor; unfold is_u8; lia.

(** A GET_STATE command with identifier 1, framed with its CRC 0xB586, is
    handed to [process_command]. *)
Lemma frame_reception_witness :
  (rx_state rx_power_on = RX_WAIT_HEADER_0
   /\ 1 <= Z.of_nat (length [1; 0xF0]) <= 506
   /\ Forall is_u8 [1; 0xF0] /\ is_u8 0x86 /\ is_u8 0xB5)
  /\ exists rx1,
       received_calls rx_power_on [0xAA; 0xBB; 2; 0; 1; 0xF0; 0x86; 0xB5]
       = Some (rx1, [([1; 0xF0], 2)])
       /\ rx_state rx1 = RX_WAIT_HEADER_0.
Proof.
  split; [repeat split; try reflexivity; try discriminate; bytes |].
  apply (frame_reception rx_power_on [1; 0xF0] 0x86 0xB5);
    try reflexivity; try (cbn; lia); bytes.
Defined.

(** The same frame behind a stray 0xAA. *)
Lemma header_resynchronisation_witness :
  (rx_state rx_power_on = RX_WAIT_HEADER_0
   /\ 1 <= Z.of_nat (length [1; 0xF0]) <= 506
   /\ Forall is_u8 [1; 0xF0])
  /\ exists rx1,
       received_calls rx_power_on
         [0xAA; 0xAA; 0xBB; 2; 0; 1; 0xF0; 0x86; 0xB5]
       = Some (rx1, [([1; 0xF0], 2)])
       /\ rx_state rx1 = RX_WAIT_HEADER_0.
Proof.
  split; [repeat split; try reflexivity; try discriminate; bytes |].
  apply (proj2 header_resynchronisation rx_power_on [1; 0xF0]);
    try reflexivity; try (cbn; lia); bytes.
Defined.

(** After the header and a length of 2, the receiver waits for the payload
    with nothing stored. *)
Lemma rx_buffer_stores_in_bounds_witness :
  exists rx1 calls,
    protocol_v2_process_with record_call (rx_power_on, [])
      [0xAA; 0xBB; 2; 0] = Some (rx1, calls)
    /\ rx_state rx1 = RX_WAIT_PAYLOAD
    /\ rx_payload_received rx1 <= 505.
Proof.
  destruct (rx_buffer_stores_in_bounds _ record_call [] [0xAA; 0xBB; 2; 0])
    as (rx1 & calls & Hrun & _ & Hpayload & _).
  exists rx1, calls. split; [exact Hrun |].
  assert (Hst : rx_state rx1 = RX_WAIT_PAYLOAD).
  { vm_compute in Hrun. injection Hrun as <- _. reflexivity. }
  split; [exact Hst |]. apply Hpayload, Hst.
Defined.

End Receiver_claims.

(** ** Claims about the dispatcher and the response builder *)

Section Dispatcher_claims.

Import ProtocolV2.

Local Ltac bytes := repeat constructor; unfold is_u8; lia.

(** The status and error bytes sit at fixed places of the packet sent. *)
Lemma response_packet_status r : response_packet r !!! 5%nat = status r.
Proof. reflexivity. Qed.

Lemma response_packet_error_code r :
  response_packet r !!! 6%nat = error_code r.
Proof. reflexivity. Qed.

Lemma written_one_more g p q :
  SerialUSB_written g ++ [p] = SerialUSB_written g ++ [q] -> p = q.
Proof. intros H. apply app_inv_head in H. congruence. Qed.

(** C4.  For each of the four axes and each value of its three flags, the
    response reports [AXIS_HOMING] if the axis is homing or preparing for
    homing, otherwise [AXIS_MOVING] if a commanded movement is in progress,
    otherwise [AXIS_IDLE]; the state is always one of these three. *)
Theorem axis_state_precedence g id st error (axis : nat)
    (homing preparing moving : bool) :
  (axis < 4)%nat ->
  axis_is_homing g axis = homing ->
  axis_is_preparing_for_homing g axis = preparing ->
  axis_movement_in_progress g axis = moving ->
  exists a,
    axes (protocol_v2_build_response g id st error) !! axis = Some a
    /\ state a =
         axis_state_code
           (if homing || preparing then AXIS_HOMING
            else if moving then AXIS_MOVING
            else AXIS_IDLE)
    /\ (state a = axis_state_code AXIS_HOMING
        \/ state a = axis_state_code AXIS_MOVING
        \/ state a = axis_state_code AXIS_IDLE).
Proof.
  intros Haxis <- <- <-.
  destruct axis as [| [| [| [| axis]]]]; [| | | | lia];
    (eexists; split; [reflexivity |]);
    cbn [state axis_is_homing axis_is_preparing_for_homing
         axis_movement_in_progress nth];
    match goal with
    | |- context [?h || ?p] =>
        destruct h, p; cbn [orb];
        try (split; [reflexivity | auto]);
        match goal with
        | |- context [if ?m then _ else _] =>
            destruct m; (split; [reflexivity | auto])
        end
    end.
Qed.

(** In [globals_in_operation] the Y axis prepares for homing while a
    movement is flagged: it is reported as homing. *)
Lemma axis_state_precedence_witness :
  ((1 < 4)%nat
   /\ axis_is_homing globals_in_operation 1 = false
   /\ axis_is_preparing_for_homing globals_in_operation 1 = true
   /\ axis_movement_in_progress globals_in_operation 1 = true)
  /\ exists a,
       axes (protocol_v2_build_response globals_in_operation 7
               STATUS_OK ERR_NONE) !! 1%nat = Some a
       /\ state a = axis_state_code AXIS_HOMING.
Proof.
  split; [repeat split; lia |].
  destruct (axis_state_precedence globals_in_operation 7 STATUS_OK ERR_NONE
              1 false true true)
    as (a & Ha & Hstate & _); try reflexivity; [lia |].
  exists a. split; assumption.
Defined.

(** C7.  With a length below 2, [process_command] writes exactly one
    response, with [cmd_id = 0], [STATUS_REJECTED] and
    [ERR_PACKET_TOO_SHORT], and changes nothing else; what it does is not
    what any of the handlers would have done.  A validated frame with a
    one-byte payload ends there. *)
Theorem short_payload_rejected g payload len :
  len < 2 ->
  let response :=
    protocol_v2_build_response g 0 STATUS_REJECTED ERR_PACKET_TOO_SHORT in
  process_command g payload len = SerialUSB_write (response_packet response) g
  /\ SerialUSB_written (process_command g payload len)
     = SerialUSB_written g ++ [response_packet response]
  /\ cmd_id response = 0
  /\ status response = status_code STATUS_REJECTED
  /\ error_code response = error_value ERR_PACKET_TOO_SHORT
  /\ (forall id cmd_type,
        process_command g payload len <> handle_cmd_get_state id g /\
        process_command g payload len <> handle_cmd_reset id g /\
        process_command g payload len <> handle_cmd_get_version id g /\
        process_command g payload len <> handle_unknown_command id cmd_type g)
  /\ (forall rx b,
        rx_state rx = RX_WAIT_HEADER_0 ->
        length (rx_buffer rx) = Z.to_nat RX_BUFFER_SIZE ->
        is_u8 b ->
        exists rx1,
          protocol_v2_process (rx, g) (encode_frame [b])
          = Some (rx1, SerialUSB_write (response_packet response) g)).
Proof.
  intros Hlen response.
  assert (Hpc : process_command g payload len
                = SerialUSB_write (response_packet response) g).
  { unfold process_command.
    replace (len <? 2) with true by (symmetry; apply Z.ltb_lt; exact Hlen).
    reflexivity. }
  rewrite Hpc.
  split; [reflexivity |]. split; [reflexivity |].
  split; [reflexivity |]. split; [reflexivity |]. split; [reflexivity |].
  split.
  - intros id cmd_type.
    repeat split; intros Heq;
      apply (f_equal SerialUSB_written) in Heq;
      cbn [SerialUSB_written SerialUSB_write handle_cmd_get_state
           handle_cmd_reset handle_cmd_get_version handle_unknown_command
           protocol_v2_send_response reset_firmware_state] in Heq;
      apply written_one_more in Heq.
    + apply (f_equal (fun p => p !!! 5%nat)) in Heq.
      rewrite !response_packet_status in Heq. discriminate.
    + apply (f_equal (fun p => p !!! 5%nat)) in Heq.
      rewrite !response_packet_status in Heq. discriminate.
    + apply (f_equal (fun p => p !!! 5%nat)) in Heq.
      rewrite !response_packet_status in Heq. discriminate.
    + apply (f_equal (fun p => p !!! 6%nat)) in Heq.
      rewrite !response_packet_error_code in Heq. discriminate.
  - intros rx b Hst Hbuf Hb.
    destruct (encoded_frame_after_first_header process_command
                (set_rx_state RX_WAIT_HEADER_1 rx) g [b])
      as (rx1 & Hrun & _); try assumption; try reflexivity;
      try (cbn; lia); try (constructor; [exact Hb | constructor]).
    exists rx1. unfold protocol_v2_process.
    assert (Hunfold : encode_frame [b] = 0xAA :: tail (encode_frame [b]))
      by reflexivity.
    rewrite Hunfold. cbn [protocol_v2_process_with].
    rewrite step_header_0 by exact Hst.
    change (to_u8 170 =? PACKET_HEADER_0) with true. cbv iota.
    rewrite Hrun. reflexivity.
Qed.

(** A payload of the single byte 0x42. *)
Lemma short_payload_rejected_witness :
  1 < 2 /\
  SerialUSB_written (process_command globals_in_operation [0x42] 1)
  = [response_packet
       (protocol_v2_build_response globals_in_operation 0 STATUS_REJECTED
          ERR_PACKET_TOO_SHORT)].
Proof.
  split; [lia |].
  apply (short_payload_rejected globals_in_operation [0x42] 1). lia.
Defined.

(** C5.  After a RESET command has been processed, the response to a
    GET_STATE command that follows it reports every axis as [AXIS_IDLE] and
    not homed, no illumination channel on and no LED pattern.  Stated for
    two calls of [process_command] in a row and for the two commands
    arriving as frames on the serial port. *)
Theorem reset_then_get_state g id1 id2 rest1 rest2 len1 len2 :
  2 <= len1 -> 2 <= len2 ->
  let g1 := process_command g (id1 :: CMD_RESET :: rest1) len1 in
  let g2 := process_command g1 (id2 :: CMD_GET_STATE :: rest2) len2 in
  let response := protocol_v2_build_response g1 id2 STATUS_OK ERR_NONE in
  SerialUSB_written g2 = SerialUSB_written g1 ++ [response_packet response]
  /\ cmd_id response = id2
  /\ status response = status_code STATUS_OK
  /\ length (axes response) = 4%nat
  /\ Forall (fun a => state a = axis_state_code AXIS_IDLE /\ homed a = 0)
       (axes response)
  /\ illum_on_mask response = 0
  /\ led_pattern response = 0
  /\ (forall rx,
        rx_state rx = RX_WAIT_HEADER_0 ->
        length (rx_buffer rx) = Z.to_nat RX_BUFFER_SIZE ->
        is_u8 id1 -> is_u8 id2 ->
        exists rx1 g3,
          protocol_v2_process (rx, g)
            (encode_frame [id1; CMD_RESET] ++ encode_frame [id2; CMD_GET_STATE])
          = Some (rx1, g3)
          /\ last (SerialUSB_written g3) = Some (response_packet response)).
Proof.
  intros Hlen1 Hlen2 g1 g2 response.
  assert (Hg1 : forall rest len, 2 <= len ->
            process_command g (id1 :: CMD_RESET :: rest) len
            = handle_cmd_reset id1 g).
  { intros rest len Hlen. unfold process_command.
    replace (len <? 2) with false by (symmetry; apply Z.ltb_ge; exact Hlen).
    reflexivity. }
  assert (Hg2 : forall g0 rest len, 2 <= len ->
            process_command g0 (id2 :: CMD_GET_STATE :: rest) len
            = handle_cmd_get_state id2 g0).
  { intros g0 rest len Hlen. unfold process_command.
    replace (len <? 2) with false by (symmetry; apply Z.ltb_ge; exact Hlen).
    reflexivity. }
  subst g2 response. rewrite Hg2 by exact Hlen2.
  subst g1. rewrite Hg1 by exact Hlen1.
  split; [reflexivity |]. split; [reflexivity |]. split; [reflexivity |].
  split; [reflexivity |].
  split; [repeat constructor |].
  split; [reflexivity |]. split; [reflexivity |].
  intros rx Hst Hbuf Hid1 Hid2.
  destruct (firmware_accepts_encoded_frame rx g [id1; CMD_RESET])
    as (rx1 & Hrun1 & Hst1 & Hbuf1); try assumption;
    [cbn; lia | unfold is_u8, CMD_RESET in *; repeat constructor; lia |].
  destruct (firmware_accepts_encoded_frame rx1
              (process_command g [id1; CMD_RESET] 2) [id2; CMD_GET_STATE])
    as (rx2 & Hrun2 & _); try assumption;
    [cbn; lia | unfold is_u8, CMD_GET_STATE in *; repeat constructor; lia |].
  exists rx2. eexists. unfold protocol_v2_process in *.
  rewrite run_app, Hrun1. split; [exact Hrun2 |].
  cbn [length Z.of_nat Pos.of_succ_nat Pos.succ].
  rewrite Hg2 by lia. rewrite Hg1 by lia.
  cbn [handle_cmd_get_state protocol_v2_send_response SerialUSB_write
       SerialUSB_written].
  apply last_snoc.
Qed.

(** From [globals_in_operation], where axes move and home and illumination
    is on. *)
Lemma reset_then_get_state_witness :
  (2 <= 2 /\ 2 <= 2)
  /\ exists response,
       last (SerialUSB_written
               (process_command
                  (process_command globals_in_operation [1; CMD_RESET] 2)
                  [2; CMD_GET_STATE] 2))
       = Some (response_packet response)
       /\ Forall (fun a => state a = 0 /\ homed a = 0) (axes response)
       /\ illum_on_mask response = 0
       /\ led_pattern response = 0.
Proof.
  split; [lia |].
  destruct (reset_then_get_state globals_in_operation 1 2 [] [] 2 2)
    as (Hwritten & _ & _ & _ & Haxes & Hmask & Hpattern & _); try lia.
  eexists. split; [rewrite Hwritten; apply last_snoc |].
  repeat split; assumption.
Defined.

(** C9.  [handle_cmd_reset] leaves every entry of the six strobe channel
    arrays as it was: an armed channel stays armed.  Besides the response
    it writes, it changes only the motion and homing flags, [trigger_mode],
    [mcu_cmd_execution_in_progress] and the two illumination tracking
    variables. *)
Theorem reset_leaves_strobe_channels g id :
  let g1 := handle_cmd_reset id g in
  (forall ch : nat,
      Strobe.control_strobe (strobe g1) !! ch
        = Strobe.control_strobe (strobe g) !! ch
      /\ Strobe.strobe_output_level (strobe g1) !! ch
          = Strobe.strobe_output_level (strobe g) !! ch
      /\ Strobe.strobe_on (strobe g1) !! ch
          = Strobe.strobe_on (strobe g) !! ch
      /\ Strobe.strobe_delay (strobe g1) !! ch
          = Strobe.strobe_delay (strobe g) !! ch
      /\ Strobe.illumination_on_time (strobe g1) !! ch
          = Strobe.illumination_on_time (strobe g) !! ch
      /\ Strobe.timestamp_trigger_rising_edge (strobe g1) !! ch
          = Strobe.timestamp_trigger_rising_edge (strobe g) !! ch)
  /\ strobe g1 = strobe g
  /\ (X_use_encoder g1, Y_use_encoder g1, Z_use_encoder g1)
     = (X_use_encoder g, Y_use_encoder g, Z_use_encoder g)
  /\ (X_pos g1, Y_pos g1, Z_pos g1, tmc4361_XACTUAL g1)
     = (X_pos g, Y_pos g, Z_pos g, tmc4361_XACTUAL g)
  /\ (X_commanded_target_position g1, Y_commanded_target_position g1,
      Z_commanded_target_position g1, W_commanded_target_position g1)
     = (X_commanded_target_position g, Y_commanded_target_position g,
        Z_commanded_target_position g, W_commanded_target_position g)
  /\ (joystick_delta_x g1, joystick_delta_y g1, joystick_button_pressed g1)
     = (joystick_delta_x g, joystick_delta_y g, joystick_button_pressed g)
  /\ SerialUSB_written g1
     = SerialUSB_written g
       ++ [response_packet
             (protocol_v2_build_response (reset_firmware_state g) id
                STATUS_OK ERR_NONE)].
Proof.
  intros g1. subst g1.
  repeat split; reflexivity.
Qed.

(** In [globals_in_operation] strobe channel 2 is armed with its output
    high; it still is after a RESET. *)
Example reset_keeps_channel_armed :
  let g1 := handle_cmd_reset 9 globals_in_operation in
  Strobe.control_strobe (strobe g1) !! 2%nat = Some true
  /\ Strobe.strobe_output_level (strobe g1) !! 2%nat = Some Strobe.HIGH
  /\ illumination_channel_states g1 = 0
  /\ is_homing_Z g1 = false.
Proof. repeat split; reflexivity. Qed.

End Dispatcher_claims.

(** ** The strobe timer interrupt *)

Section Strobe_claims.

Import Strobe.

Local Abbreviation body := (fun acc ch => strobe_channel ch acc).

(** Time that passes changes the clock and nothing else. *)
Lemma pass_channels s : channels (pass s) = channels s.
Proof. unfold pass. destruct (elapses s); reflexivity. Qed.

Lemma pass_actions s : actions (pass s) = actions s.
Proof. unfold pass. destruct (elapses s); reflexivity. Qed.

Local Ltac unfold_steps :=
  repeat
    (progress
       (cbn [channels illumination_is_on clock actions elapses
             trigger_output_level control_strobe strobe_output_level strobe_on
             strobe_delay illumination_on_time timestamp_trigger_rising_edge
             with_channels set_control_strobe set_strobe_output_level
             turn_on_illumination turn_off_illumination delayMicroseconds];
        rewrite ?pass_channels, ?pass_actions)).

(** The clock does not care what was switched in the meantime. *)
Lemma pass_after_switch_on ch s :
  since_rising_edge ch
    (pass (set_strobe_output_level ch HIGH (turn_on_illumination s)))
  = since_rising_edge ch (pass s).
Proof.
  unfold since_rising_edge, micros, pass.
  cbn [elapses set_strobe_output_level with_channels turn_on_illumination].
  destruct (elapses s); reflexivity.
Qed.

Lemma strobe_end_pass ch s : strobe_end ch (pass s) = strobe_end ch s.
Proof. unfold strobe_end. rewrite pass_channels. reflexivity. Qed.

Lemma steady_refl s : steady s s.
Proof.
  unfold steady. repeat split. exists []. symmetry. apply app_nil_r.
Qed.

Lemma steady_trans s1 s2 s3 : steady s1 s2 -> steady s2 s3 -> steady s1 s3.
Proof.
  unfold steady.
  intros (A1 & A2 & A3 & A4 & A5 & A6 & A7 & m1 & A8)
         (B1 & B2 & B3 & B4 & B5 & B6 & B7 & m2 & B8).
  repeat split; try congruence.
  exists (m1 ++ m2). rewrite B8, A8, app_assoc. reflexivity.
Qed.

Lemma steady_pass s : steady s (pass s).
Proof.
  unfold steady. rewrite pass_channels, pass_actions.
  repeat split. exists []. symmetry. apply app_nil_r.
Qed.

Lemma kept_refl ch s : kept ch s s.
Proof. split; reflexivity. Qed.

Lemma kept_trans ch s1 s2 s3 : kept ch s1 s2 -> kept ch s2 s3 -> kept ch s1 s3.
Proof. unfold kept. intros [A1 A2] [B1 B2]. split; congruence. Qed.

(** One pass of the loop body is one of seven things. *)
Lemma strobe_channel_cases ch s :
  let on_time := illumination_on_time (channels s) !!! ch in
  strobe_channel ch s = s
  \/ strobe_channel ch s = pass s
  \/ (on_time <= 30000
      /\ strobe_channel ch s
         = set_control_strobe ch false
             (turn_off_illumination
                (delayMicroseconds on_time (turn_on_illumination (pass s)))))
  \/ strobe_channel ch s = pass (pass s)
  \/ strobe_channel ch s
     = pass (set_strobe_output_level ch HIGH (turn_on_illumination (pass s)))
  \/ strobe_channel ch s
     = set_control_strobe ch false
         (set_strobe_output_level ch LOW
            (turn_off_illumination
               (pass (set_strobe_output_level ch HIGH
                        (turn_on_illumination (pass s))))))
  \/ strobe_channel ch s
     = set_control_strobe ch false
         (set_strobe_output_level ch LOW (turn_off_illumination (pass (pass s)))).
Proof.
  intros on_time. unfold strobe_channel.
  destruct (control_strobe (channels s) !!! ch : bool); [| auto].
  fold on_time. destruct (Z.leb_spec on_time 30000) as [Hshort | Hlong].
  - cbv zeta. cbn [channels turn_on_illumination].
    rewrite !pass_channels. fold on_time.
    destruct ((strobe_delay (channels s) !!! ch <=? since_rising_edge ch (pass s))
              && eqb (strobe_output_level (channels s) !!! ch) LOW); auto.
  - cbv zeta.
    destruct ((strobe_delay (channels (pass s)) !!! ch
               <=? since_rising_edge ch (pass s))
              && eqb (strobe_output_level (channels (pass s)) !!! ch) LOW);
      match goal with
      | |- context [if ?b then _ else _] => destruct b
      end; auto 10.
Qed.

Lemma strobe_channel_steady ch s : steady s (strobe_channel ch s).
Proof.
  destruct (strobe_channel_cases ch s)
    as [H | [H | [[_ H] | [H | [H | [H | H]]]]]];
    rewrite H; unfold steady; unfold_steps; rewrite ?length_insert;
    repeat split;
    first [ exists []; symmetry; apply app_nil_r
          | eexists; rewrite <- ?app_assoc; reflexivity ].
Qed.

Lemma strobe_channel_kept j ch s : j <> ch -> kept ch s (strobe_channel j s).
Proof.
  intros Hne.
  destruct (strobe_channel_cases j s)
    as [H | [H | [[_ H] | [H | [H | [H | H]]]]]];
    rewrite H; unfold kept; unfold_steps;
    rewrite ?list_lookup_total_insert_ne by exact Hne; split; reflexivity.
Qed.

Lemma loop_steady l : forall s, steady s (fold_left body l s).
Proof.
  induction l as [| j l IH]; intros s; cbn [fold_left].
  - apply steady_refl.
  - eapply steady_trans; [apply strobe_channel_steady | apply IH].
Qed.

Lemma loop_kept ch l : forall s,
  (forall j, In j l -> j <> ch) -> kept ch s (fold_left body l s).
Proof.
  induction l as [| j l IH]; intros s Hl; cbn [fold_left].
  - apply kept_refl.
  - eapply kept_trans.
    + apply strobe_channel_kept, Hl. left. reflexivity.
    + apply IH. intros k Hk. apply Hl. right. exact Hk.
Qed.

(** The handler is: the channels before [ch], then [ch], then the rest. *)
Lemma ISR_split ch s :
  (ch < 6)%nat ->
  ISR_strobeTimer s
  = fold_left body (seq (S ch) (5 - ch))
      (strobe_channel ch (strobe_channels_upto ch s)).
Proof.
  intros Hch. unfold ISR_strobeTimer, strobe_channels_upto.
  replace (seq 0 6) with (seq 0 ch ++ ch :: seq (S ch) (5 - ch)).
  - rewrite fold_left_app. reflexivity.
  - do 6 (destruct ch as [| ch]; [reflexivity |]). lia.
Qed.

(** *** One channel, one pass of the loop body *)

Section Body.

Variables (ch : nat) (v : State).
Hypothesis Hctl : (ch < length (control_strobe (channels v)))%nat.
Hypothesis Hlvl : (ch < length (strobe_output_level (channels v)))%nat.
Hypothesis Harmed : control_strobe (channels v) !!! ch = true.

Local Abbreviation on_time := (illumination_on_time (channels v) !!! ch).
Local Abbreviation delay := (strobe_delay (channels v) !!! ch).
Local Abbreviation level := (strobe_output_level (channels v) !!! ch).
(** The time since the trigger edge at the first and at the second read of
    [micros()]. *)
Local Abbreviation first_read := (since_rising_edge ch (pass v)).
Local Abbreviation second_read := (since_rising_edge ch (pass (pass v))).

Lemma body_short :
  on_time <= 30000 -> delay <= first_read -> level = LOW ->
  actions (strobe_channel ch v)
    = actions v ++ [IlluminationOn; BusyWait on_time; IlluminationOff]
  /\ control_strobe (channels (strobe_channel ch v)) !!! ch = false
  /\ strobe_output_level (channels (strobe_channel ch v)) !!! ch = LOW.
Proof.
  intros Hshort Hdelay Hlow. unfold strobe_channel.
  rewrite Harmed. cbv zeta. rewrite !pass_channels, Hlow.
  replace (on_time <=? 30000) with true by (symmetry; apply Z.leb_le; lia).
  replace (delay <=? first_read) with true
    by (symmetry; apply Z.leb_le; lia).
  cbn [andb eqb LOW]. unfold_steps.
  rewrite list_lookup_total_insert_eq by exact Hctl.
  rewrite <- !app_assoc. repeat split. exact Hlow.
Qed.

(** The long branch once the start check has switched the light on. *)
Lemma long_started :
  30000 < on_time -> delay <= first_read -> level = LOW ->
  strobe_channel ch v
  = let lit := pass (set_strobe_output_level ch HIGH
                       (turn_on_illumination (pass v))) in
    if strobe_end ch v <=? second_read
    then set_control_strobe ch false
           (set_strobe_output_level ch LOW (turn_off_illumination lit))
    else lit.
Proof.
  intros Hlong Hdelay Hlow. unfold strobe_channel.
  rewrite Harmed. cbv zeta. rewrite !pass_channels, Hlow.
  replace (on_time <=? 30000) with false by (symmetry; apply Z.leb_gt; lia).
  replace (delay <=? first_read) with true
    by (symmetry; apply Z.leb_le; lia).
  cbn [andb eqb LOW].
  rewrite pass_after_switch_on, strobe_end_pass.
  assert (Hhigh : strobe_output_level
                    (channels (set_strobe_output_level ch HIGH
                                 (turn_on_illumination (pass v)))) !!! ch
                  = HIGH).
  { unfold_steps. apply list_lookup_total_insert_eq. exact Hlvl. }
  rewrite Hhigh.
  assert (Hend : strobe_end ch (set_strobe_output_level ch HIGH
                                  (turn_on_illumination (pass v)))
                 = strobe_end ch v)
    by (unfold strobe_end; unfold_steps; reflexivity).
  rewrite Hend. cbn [eqb HIGH]. rewrite andb_true_r. reflexivity.
Qed.

Lemma body_long_start :
  30000 < on_time -> delay <= first_read -> level = LOW ->
  second_read < strobe_end ch v ->
  actions (strobe_channel ch v) = actions v ++ [IlluminationOn]
  /\ control_strobe (channels (strobe_channel ch v)) !!! ch = true
  /\ strobe_output_level (channels (strobe_channel ch v)) !!! ch = HIGH.
Proof.
  intros Hlong Hdelay Hlow Hbefore.
  rewrite long_started by assumption. cbv zeta.
  replace (strobe_end ch v <=? second_read) with false
    by (symmetry; apply Z.leb_gt; lia).
  unfold_steps.
  rewrite list_lookup_total_insert_eq by exact Hlvl.
  repeat split. exact Harmed.
Qed.

Lemma body_long_start_and_end :
  30000 < on_time -> delay <= first_read -> level = LOW ->
  strobe_end ch v <= second_read ->
  actions (strobe_channel ch v)
    = actions v ++ [IlluminationOn; IlluminationOff]
  /\ control_strobe (channels (strobe_channel ch v)) !!! ch = false
  /\ strobe_output_level (channels (strobe_channel ch v)) !!! ch = LOW.
Proof.
  intros Hlong Hdelay Hlow Hafter.
  rewrite long_started by assumption. cbv zeta.
  replace (strobe_end ch v <=? second_read) with true
    by (symmetry; apply Z.leb_le; lia).
  unfold_steps.
  rewrite !list_lookup_total_insert_eq
    by (rewrite ?length_insert; assumption).
  rewrite <- !app_assoc. repeat split.
Qed.

Lemma body_long_end :
  30000 < on_time -> level = HIGH ->
  strobe_end ch v <= second_read ->
  actions (strobe_channel ch v) = actions v ++ [IlluminationOff]
  /\ control_strobe (channels (strobe_channel ch v)) !!! ch = false
  /\ strobe_output_level (channels (strobe_channel ch v)) !!! ch = LOW.
Proof.
  intros Hlong Hhigh Hafter. unfold strobe_channel.
  rewrite Harmed. cbv zeta. rewrite !pass_channels, Hhigh.
  replace (on_time <=? 30000) with false by (symmetry; apply Z.leb_gt; lia).
  cbn [eqb HIGH LOW]. rewrite andb_false_r.
  rewrite !strobe_end_pass, !pass_channels, Hhigh.
  replace (strobe_end ch v <=? second_read) with true
    by (symmetry; apply Z.leb_le; lia).
  cbn [andb eqb HIGH]. unfold_steps.
  rewrite !list_lookup_total_insert_eq by assumption.
  repeat split.
Qed.

End Body.

(** *** A whole tick *)

(** While no armed channel precedes [ch], the loop reaches [ch] in the
    state the tick started in. *)
Lemma unarmed_prefix s : forall l,
  (forall j, In j l -> control_strobe (channels s) !!! j = false) ->
  fold_left body l s = s.
Proof.
  induction l as [| j l IH]; intros Hl; cbn [fold_left]; [reflexivity |].
  assert (Hj : strobe_channel j s = s).
  { unfold strobe_channel. rewrite (Hl j) by (left; reflexivity). reflexivity. }
  rewrite Hj. apply IH. intros k Hk. apply Hl. right. exact Hk.
Qed.

(** C6, as the handler behaves.  On a tick, take a channel [ch] that is
    armed.  The loop reaches it after the busy-waits of the channels before
    it and reads [micros()] for the start check; [elapsed] is the time since
    the trigger edge at that read.  In the long branch it reads [micros()]
    once more for the end check, after it has switched the illumination on
    if the start check held; [elapsed_end] is the time since the trigger
    edge at this second read, which is later than the first by whatever the
    calls in between took.
    - Short pulse ([illumination_on_time <= 30000]), delay elapsed, level
      LOW: illumination is turned on, the handler busy-waits
      [illumination_on_time], turns illumination off and disarms the
      channel, all in this tick; the level stays LOW.
    - Long pulse, delay elapsed, level LOW, and [elapsed_end] still below
      [strobe_delay + illumination_on_time]: illumination is turned on, the
      level becomes HIGH and the channel stays armed.
    - Long pulse, delay elapsed, level LOW, but [elapsed_end] has already
      reached [strobe_delay + illumination_on_time]: the same tick turns
      illumination on and off again, leaves the level LOW and disarms.
    - Long pulse, level HIGH, [elapsed_end] has reached
      [strobe_delay + illumination_on_time]: illumination is turned off,
      the level becomes LOW and the channel is disarmed.
    The sum [strobe_delay + illumination_on_time] is taken in 32 bits. *)
Theorem strobe_tick s ch :
  six_channels (channels s) ->
  (ch < 6)%nat ->
  control_strobe (channels s) !!! ch = true ->
  let visit := strobe_channels_upto ch s in
  let done := ISR_strobeTimer s in
  let on_time := illumination_on_time (channels s) !!! ch in
  let delay := strobe_delay (channels s) !!! ch in
  let level := strobe_output_level (channels s) !!! ch in
  let elapsed := since_rising_edge ch (pass visit) in
  let elapsed_end := since_rising_edge ch (pass (pass visit)) in
  let pulse_end := strobe_end ch s in
  let armed_after := control_strobe (channels done) !!! ch in
  let level_after := strobe_output_level (channels done) !!! ch in
  ((forall j, (j < ch)%nat -> control_strobe (channels s) !!! j = false) ->
     visit = s)
  /\ (on_time <= 30000 -> delay <= elapsed -> level = LOW ->
        (exists later,
            actions done
            = actions visit
              ++ [IlluminationOn; BusyWait on_time; IlluminationOff] ++ later)
        /\ armed_after = false /\ level_after = LOW)
  /\ (30000 < on_time -> delay <= elapsed -> level = LOW ->
        elapsed_end < pulse_end ->
        (exists later,
            actions done = actions visit ++ [IlluminationOn] ++ later)
        /\ armed_after = true /\ level_after = HIGH)
  /\ (30000 < on_time -> delay <= elapsed -> level = LOW ->
        pulse_end <= elapsed_end ->
        (exists later,
            actions done
            = actions visit ++ [IlluminationOn; IlluminationOff] ++ later)
        /\ armed_after = false /\ level_after = LOW)
  /\ (30000 < on_time -> level = HIGH -> pulse_end <= elapsed_end ->
        (exists later,
            actions done = actions visit ++ [IlluminationOff] ++ later)
        /\ armed_after = false /\ level_after = LOW).
Proof.
  intros (_ & Hctl & Hlvl & _) Hch Harmed
         visit done on_time delay level elapsed elapsed_end pulse_end
         armed_after level_after.
  (* the channels before ch leave its entries alone *)
  assert (Hs1 : steady s visit) by apply loop_steady.
  assert (Hk1 : kept ch s visit).
  { apply loop_kept. intros j Hj. apply in_seq in Hj. lia. }
  destruct Hs1 as (_ & _ & Hdelay1 & Hon1 & Hts1 & Hctl1 & Hlvl1 & _).
  destruct Hk1 as [Harmed1 Hlevel1].
  (* and so do the channels after it *)
  set (after := strobe_channel ch visit).
  assert (Hdone : done = fold_left body (seq (S ch) (5 - ch)) after)
    by (apply ISR_split; exact Hch).
  assert (Hs2 : steady after done) by (rewrite Hdone; apply loop_steady).
  assert (Hk2 : kept ch after done).
  { rewrite Hdone. apply loop_kept. intros j Hj. apply in_seq in Hj. lia. }
  destruct Hs2 as (_ & _ & _ & _ & _ & _ & _ & later & Hactions).
  destruct Hk2 as [Harmed2 Hlevel2].
  (* what the loop body sees for ch is what the tick started with *)
  assert (Hv_ctl : (ch < length (control_strobe (channels visit)))%nat)
    by (rewrite Hctl1, Hctl; exact Hch).
  assert (Hv_lvl : (ch < length (strobe_output_level (channels visit)))%nat)
    by (rewrite Hlvl1, Hlvl; exact Hch).
  assert (Hv_armed : control_strobe (channels visit) !!! ch = true)
    by (rewrite Harmed1; exact Harmed).
  assert (Hv_end : strobe_end ch visit = pulse_end)
    by (unfold pulse_end, strobe_end; rewrite Hdelay1, Hon1; reflexivity).
  unfold armed_after, level_after. rewrite Harmed2, Hlevel2, Hactions.
  subst after.
  split; [| split; [| split; [| split]]].
  - intros Hnone. apply unarmed_prefix.
    intros j Hj. apply Hnone. apply in_seq in Hj. lia.
  - intros Hshort Hdelay Hlow.
    destruct (body_short ch visit Hv_ctl Hv_lvl Hv_armed) as (Ha & Hc & Hl);
      rewrite ?Hon1, ?Hdelay1, ?Hlevel1; try assumption.
    rewrite Hon1 in Ha.
    split; [| split; assumption].
    exists later. rewrite Ha, <- app_assoc. reflexivity.
  - intros Hlong Hdelay Hlow Hbefore.
    destruct (body_long_start ch visit Hv_ctl Hv_lvl Hv_armed)
      as (Ha & Hc & Hl);
      rewrite ?Hon1, ?Hdelay1, ?Hlevel1, ?Hv_end; try assumption.
    split; [| split; assumption].
    exists later. rewrite Ha, <- app_assoc. reflexivity.
  - intros Hlong Hdelay Hlow Hafter.
    destruct (body_long_start_and_end ch visit Hv_ctl Hv_lvl Hv_armed)
      as (Ha & Hc & Hl);
      rewrite ?Hon1, ?Hdelay1, ?Hlevel1, ?Hv_end; try assumption.
    split; [| split; assumption].
    exists later. rewrite Ha, <- app_assoc. reflexivity.
  - intros Hlong Hhigh Hafter.
    destruct (body_long_end ch visit Hv_ctl Hv_lvl Hv_armed)
      as (Ha & Hc & Hl);
      rewrite ?Hon1, ?Hlevel1, ?Hv_end; try assumption.
    split; [| split; assumption].
    exists later. rewrite Ha, <- app_assoc. reflexivity.
Qed.

(** In [long_pulse_armed] the tick comes 1.05 ms after the trigger edge
    of channel 2, whose 50 ms pulse has a 1 ms delay: the pulse starts and
    the channel stays armed. *)
Lemma strobe_tick_witness :
  (six_channels (channels long_pulse_armed)
   /\ (2 < 6)%nat
   /\ control_strobe (channels long_pulse_armed) !!! 2%nat = true)
  /\ (exists later,
         actions (ISR_strobeTimer long_pulse_armed)
         = actions (strobe_channels_upto 2 long_pulse_armed)
           ++ [IlluminationOn] ++ later)
  /\ control_strobe (channels (ISR_strobeTimer long_pulse_armed)) !!! 2%nat
     = true
  /\ strobe_output_level (channels (ISR_strobeTimer long_pulse_armed))
       !!! 2%nat = HIGH.
Proof.
  assert (Hsix : six_channels (channels long_pulse_armed))
    by (repeat split; reflexivity).
  assert (Hch : (2 < 6)%nat) by lia.
  split; [split; [exact Hsix | split; [exact Hch | reflexivity]] |].
  apply (strobe_tick long_pulse_armed 2 Hsix Hch eq_refl);
    vm_compute; congruence.
Defined.

(** C6 as stated does not hold for long pulses.  In [two_pulses_armed]
    channel 1 is armed with [illumination_on_time = 30050 > 30000], its
    delay has elapsed and its level is LOW, at the start of the tick, when
    the loop reaches it and when it reads the clock; but the 30 ms
    busy-wait of channel 0 comes first, so the end check of channel 1
    already holds in the same tick: the level is LOW again and the channel
    disarmed when the tick ends. *)
Lemma strobe_long_pulse_counterexample :
  ~ (forall s ch,
        six_channels (channels s) ->
        (ch < 6)%nat ->
        control_strobe (channels s) !!! ch = true ->
        30000 < illumination_on_time (channels s) !!! ch ->
        strobe_delay (channels s) !!! ch <= since_rising_edge ch s ->
        strobe_delay (channels s) !!! ch
          <= since_rising_edge ch (strobe_channels_upto ch s) ->
        strobe_delay (channels s) !!! ch
          <= since_rising_edge ch (pass (strobe_channels_upto ch s)) ->
        strobe_output_level (channels s) !!! ch = LOW ->
        strobe_output_level (channels (ISR_strobeTimer s)) !!! ch = HIGH
        /\ control_strobe (channels (ISR_strobeTimer s)) !!! ch = true).
Proof.
  intros Hclaim.
  destruct (Hclaim two_pulses_armed 1%nat) as [Hlevel _];
    try (vm_compute; congruence).
  - repeat split; reflexivity.
  - lia.
  - vm_compute in Hlevel. discriminate.
Qed.

(** What the tick does there: one full short pulse for channel 0, then
    illumination on and off at once for channel 1. *)
Example two_pulses_tick :
  actions (ISR_strobeTimer two_pulses_armed)
  = [IlluminationOn; BusyWait 30000; IlluminationOff;
     IlluminationOn; IlluminationOff]
  /\ control_strobe (channels (ISR_strobeTimer two_pulses_armed))
     = replicate 6 false
  /\ strobe_output_level (channels (ISR_strobeTimer two_pulses_armed))
     = replicate 6 LOW.
Proof. vm_compute. repeat split. Qed.

(** The same happens without any busy-wait when switching on takes long
    enough.  In [slow_switch_on] the start check of channel 3 reads 39999 us
    since the edge, 1 us before the end of the 40 ms pulse; the end check
    reads 40000 us, and the pulse is over in the tick it started in. *)
Example slow_switch_on_tick :
  since_rising_edge 3 (pass (strobe_channels_upto 3 slow_switch_on)) = 39999
  /\ since_rising_edge 3 (pass (pass (strobe_channels_upto 3 slow_switch_on)))
     = 40000
  /\ strobe_end 3 slow_switch_on = 40000
  /\ actions (ISR_strobeTimer slow_switch_on)
     = [IlluminationOn; IlluminationOff]
  /\ control_strobe (channels (ISR_strobeTimer slow_switch_on)) !!! 3%nat
     = false
  /\ strobe_output_level (channels (ISR_strobeTimer slow_switch_on)) !!! 3%nat
     = LOW.
Proof. vm_compute. repeat split. Qed.

End Strobe_claims.

(** ** The legacy fixed-length protocol *)

Section TtlOnly_claims.

Import TtlOnly.

(** The CRC-8 check value: the CRC of the ASCII digits "123456789" is 0xF4. *)
Example crc8_check_value :
  crc8ccitt [49; 50; 51; 52; 53; 54; 55; 56; 57] 9 = 0xF4.
Proof. vm_compute. reflexivity. Qed.

Lemma crc8_shift_range val : is_u8 (crc8_shift val).
Proof.
  unfold crc8_shift. destruct (Z.land val 0x80 =? 0); apply to_u8_range.
Qed.

Lemma crc8ccitt_range data size : is_u8 (crc8ccitt data size).
Proof.
  unfold crc8ccitt.
  assert (Hacc : forall l acc, is_u8 acc -> is_u8 (fold_left crc8_byte l acc)).
  { induction l as [| b l IH]; intros acc Hacc; cbn [fold_left];
      [exact Hacc |].
    apply IH. unfold crc8_byte. cbn [Nat.iter]. apply crc8_shift_range. }
  apply Hacc. unfold is_u8. lia.
Qed.

(** The CRC of the first [length body] bytes does not look further. *)
Lemma crc8ccitt_prefix body more :
  crc8ccitt (body ++ more) (Z.of_nat (length body))
  = crc8ccitt body (Z.of_nat (length body)).
Proof.
  unfold crc8ccitt. rewrite Nat2Z.id, take_app_length, firstn_all.
  reflexivity.
Qed.

(** The commands [init_callbacks] registers, out of the 256 command types. *)
Example registered_commands :
  filter (fun c => bool_decide (cmd_map (init_callbacks power_on) !!! c <> None))
    (seq 0 256)
  = [10; 11; 12; 15; 16; 17; 254; 255]%nat.
Proof. vm_compute. reflexivity. Qed.

(** A byte that does not complete a command is stored and counted. *)
Lemma process_byte_pending g c rest :
  buffer_rx_ptr g + 1 <> CMD_LENGTH ->
  process_serial_message g (c :: rest) =
  process_serial_message
    (with_rx (<[Z.to_nat (buffer_rx_ptr g) := to_u8 c]> (buffer_rx g))
       (buffer_rx_ptr g + 1) g) rest.
Proof.
  intros Hne. cbn [process_serial_message]. cbn [buffer_rx_ptr with_rx].
  destruct (Z.eqb_spec (buffer_rx_ptr g + 1) CMD_LENGTH);
    [contradiction | reflexivity].
Qed.

(** The eighth byte completes a command: it is checked, then dispatched
    through [cmd_map]. *)
Lemma process_byte_complete g c rest :
  buffer_rx_ptr g + 1 = CMD_LENGTH ->
  process_serial_message g (c :: rest) =
  let buffer := <[Z.to_nat (buffer_rx_ptr g) := to_u8 c]> (buffer_rx g) in
  let received :=
    with_cmd (buffer !!! 0%nat) (checksum_error g) (with_rx buffer 0 g) in
  if crc8ccitt buffer 7 =? buffer !!! 7%nat then
    let accepted := with_cmd (buffer !!! 0%nat) false received in
    process_serial_message
      (match cmd_map g !!! Z.to_nat (buffer !!! 1%nat) with
       | None => callback_default accepted
       | Some p_callback => invoke p_callback accepted
       end) rest
  else with_cmd (buffer !!! 0%nat) true received.
Proof.
  intros Heq. cbn [process_serial_message]. cbn [buffer_rx_ptr with_rx].
  rewrite Heq, Z.eqb_refl.
  cbn [buffer_rx with_rx with_cmd cmd_id checksum_error cmd_map].
  change (CMD_LENGTH - 1) with 7. change (Z.to_nat 7) with 7%nat.
  destruct (crc8ccitt _ 7 =? _); reflexivity.
Qed.

(** Eight bytes arriving at the start of [buffer_rx] make one command. *)
Lemma process_frame g c0 c1 c2 c3 c4 c5 c6 c7 rest :
  buffer_rx_ptr g = 0 ->
  length (buffer_rx g) = 512%nat ->
  Forall is_u8 [c0; c1; c2; c3; c4; c5; c6; c7] ->
  process_serial_message g ([c0; c1; c2; c3; c4; c5; c6; c7] ++ rest) =
  let received :=
    with_cmd c0 (checksum_error g)
      (with_rx ([c0; c1; c2; c3; c4; c5; c6; c7] ++ drop 8 (buffer_rx g)) 0 g) in
  if crc8ccitt [c0; c1; c2; c3; c4; c5; c6] 7 =? c7 then
    let accepted := with_cmd c0 false received in
    process_serial_message
      (match cmd_map g !!! Z.to_nat c1 with
       | None => callback_default accepted
       | Some p_callback => invoke p_callback accepted
       end) rest
  else with_cmd c0 true received.
Proof.
  intros Hptr Hlen Hbytes.
  repeat match goal with
         | H : Forall _ (_ :: _) |- _ => apply Forall_cons in H as [? H]
         end.
  cbn [app].
  do 7 (rewrite process_byte_pending
          by (cbn [buffer_rx_ptr with_rx]; rewrite Hptr; discriminate);
        cbn [buffer_rx_ptr buffer_rx with_rx]).
  rewrite process_byte_complete
    by (cbn [buffer_rx_ptr with_rx]; rewrite Hptr; reflexivity).
  cbn [buffer_rx_ptr buffer_rx with_rx with_cmd checksum_error cmd_map].
  rewrite Hptr, !to_u8_id by assumption.
  change (Z.to_nat (0 + 1 + 1 + 1 + 1 + 1 + 1 + 1)) with 7%nat.
  change (Z.to_nat (0 + 1 + 1 + 1 + 1 + 1 + 1)) with 6%nat.
  change (Z.to_nat (0 + 1 + 1 + 1 + 1 + 1)) with 5%nat.
  change (Z.to_nat (0 + 1 + 1 + 1 + 1)) with 4%nat.
  change (Z.to_nat (0 + 1 + 1 + 1)) with 3%nat.
  change (Z.to_nat (0 + 1 + 1)) with 2%nat.
  change (Z.to_nat (0 + 1)) with 1%nat.
  change (Z.to_nat 0) with 0%nat.
  set (stored := <[7%nat := c7]> _).
  assert (Hstored : stored
                    = [c0; c1; c2; c3; c4; c5; c6; c7] ++ drop 8 (buffer_rx g)).
  { subst stored.
    destruct (buffer_rx g)
      as [| x0 [| x1 [| x2 [| x3 [| x4 [| x5 [| x6 [| x7 tl]]]]]]]];
      try discriminate Hlen.
    reflexivity. }
  rewrite Hstored. clear Hstored stored.
  assert (Hcrc : crc8ccitt
                   ([c0; c1; c2; c3; c4; c5; c6; c7] ++ drop 8 (buffer_rx g)) 7
                 = crc8ccitt [c0; c1; c2; c3; c4; c5; c6] 7)
    by (unfold crc8ccitt; reflexivity).
  rewrite Hcrc.
  change (([c0; c1; c2; c3; c4; c5; c6; c7] ++ drop 8 (buffer_rx g)) !!! 0%nat)
    with c0.
  change (([c0; c1; c2; c3; c4; c5; c6; c7] ++ drop 8 (buffer_rx g)) !!! 1%nat)
    with c1.
  change (([c0; c1; c2; c3; c4; c5; c6; c7] ++ drop 8 (buffer_rx g)) !!! 7%nat)
    with c7.
  reflexivity.
Qed.

(** C8.  An 8-byte command with a valid CRC-8 whose command type has no
    entry in [cmd_map] goes to [callback_default]: the illumination
    variables, the pins and the SPI bus are left as they were and nothing
    is written to the serial port; the frame's first byte becomes [cmd_id]
    and [checksum_error] is cleared.  The next position update, sent once
    the timer has passed [interval_send_pos_update], is a 24-byte packet
    that echoes that first byte and carries [COMPLETED_WITHOUT_ERRORS]; it
    touches no illumination or hardware state either. *)
Theorem unregistered_command_acknowledged g id cmd_type data :
  buffer_rx_ptr g = 0 ->
  length (buffer_rx g) = 512%nat ->
  is_u8 id -> is_u8 cmd_type ->
  Forall is_u8 data -> length data = 5%nat ->
  cmd_map g !!! Z.to_nat cmd_type = None ->
  let body := [id; cmd_type] ++ data in
  let frame := body ++ [crc8ccitt body 7] in
  let g1 := process_serial_message g frame in
  g1 = callback_default
         (with_cmd id false (with_rx (frame ++ drop 8 (buffer_rx g)) 0 g))
  /\ cmd_id g1 = id
  /\ checksum_error g1 = false
  /\ (illumination_source g1, illumination_intensity g1,
       illumination_intensity_factor g1, illumination_is_on g1)
     = (illumination_source g, illumination_intensity g,
        illumination_intensity_factor g, illumination_is_on g)
  /\ hardware g1 = hardware g
  /\ SerialUSB_written g1 = SerialUSB_written g
  /\ forall t,
       interval_send_pos_update < t ->
       let g2 := send_position_update (with_timer t g1) in
       exists packet,
         SerialUSB_written g2 = SerialUSB_written g ++ [packet]
         /\ Z.of_nat (length packet) = MSG_LENGTH
         /\ packet !!! 0%nat = id
         /\ packet !!! 1%nat = COMPLETED_WITHOUT_ERRORS
         /\ packet !!! 23%nat = crc8ccitt packet 23
         /\ hardware g2 = hardware g
         /\ (illumination_source g2, illumination_intensity g2,
              illumination_intensity_factor g2, illumination_is_on g2)
            = (illumination_source g, illumination_intensity g,
               illumination_intensity_factor g, illumination_is_on g).
Proof.
  intros Hptr Hlen Hid Htype Hdata Hfive Hnone body frame g1.
  destruct data as [| d2 [| d3 [| d4 [| d5 [| d6 [| ? ?]]]]]];
    try discriminate Hfive.
  assert (Hcrc : is_u8 (crc8ccitt body 7)) by apply crc8ccitt_range.
  assert (Hg1 : g1 = callback_default
                       (with_cmd id false
                          (with_rx (frame ++ drop 8 (buffer_rx g)) 0 g))).
  { assert (Hall : Forall is_u8 [id; cmd_type; d2; d3; d4; d5; d6;
                                  crc8ccitt body 7]).
    { repeat (apply Forall_cons in Hdata as [? Hdata]).
      repeat (apply Forall_cons; split; [assumption |]).
      exact Hdata. }
    subst g1 frame body. cbn [app] in *.
    pose proof (process_frame g id cmd_type d2 d3 d4 d5 d6
                  (crc8ccitt [id; cmd_type; d2; d3; d4; d5; d6] 7) []
                  Hptr Hlen Hall) as Hframe.
    cbn [app] in Hframe. rewrite Hframe.
    rewrite Z.eqb_refl. cbv zeta. rewrite Hnone.
    reflexivity. }
  rewrite Hg1. unfold callback_default.
  split; [reflexivity |]. split; [reflexivity |]. split; [reflexivity |].
  split; [reflexivity |]. split; [reflexivity |]. split; [reflexivity |].
  intros t Ht. cbv zeta. unfold send_position_update.
  cbn [us_since_last_pos_update with_timer].
  replace (interval_send_pos_update <? t) with true
    by (symmetry; apply Z.ltb_lt; exact Ht).
  cbn [with_timer with_cmd with_rx transmit checksum_error cmd_id
       SerialUSB_written hardware illumination_source illumination_intensity
       illumination_intensity_factor illumination_is_on].
  change (MSG_LENGTH - 1) with (Z.of_nat (length ([id; 0] ++ replicate 21 0))).
  change COMPLETED_WITHOUT_ERRORS with 0.
  set (reply := [id; 0] ++ replicate 21 0).
  exists (reply ++ [crc8ccitt reply (Z.of_nat (length reply))]).
  split; [reflexivity |].
  split; [| split; [| split; [| split; [| split; reflexivity]]]].
  - generalize (crc8ccitt reply (Z.of_nat (length reply))). reflexivity.
  - generalize (crc8ccitt reply (Z.of_nat (length reply))). reflexivity.
  - generalize (crc8ccitt reply (Z.of_nat (length reply))). reflexivity.
  - change 23 with (Z.of_nat (length reply)).
    rewrite crc8ccitt_prefix.
    generalize (crc8ccitt reply (Z.of_nat (length reply))). reflexivity.
Qed.

(** The MOVE_X command of [move_x_frame], sent to the firmware after
    [init_callbacks]: nothing happens to the lasers, and the position
    update that follows acknowledges command 0x2A. *)
Lemma unregistered_command_acknowledged_witness :
  (buffer_rx_ptr (init_callbacks power_on) = 0
   /\ is_u8 0x2A /\ is_u8 0
   /\ cmd_map (init_callbacks power_on) !!! Z.to_nat 0 = None
   /\ interval_send_pos_update < 10001)
  /\ hardware (process_serial_message (init_callbacks power_on) move_x_frame)
     = []
  /\ exists packet,
       SerialUSB_written
         (send_position_update
            (with_timer 10001
               (process_serial_message (init_callbacks power_on) move_x_frame)))
       = [packet]
       /\ packet !!! 0%nat = 0x2A
       /\ packet !!! 1%nat = COMPLETED_WITHOUT_ERRORS.
Proof.
  split; [repeat split; unfold is_u8; lia |].
  destruct (unregistered_command_acknowledged (init_callbacks power_on)
              0x2A 0 [0; 0; 0x10; 0; 0])
    as (_ & _ & _ & _ & Hhw & _ & Hupdate);
    try reflexivity; try (unfold is_u8; lia);
    [repeat constructor; unfold is_u8; lia |].
  split; [exact Hhw |].
  destruct (Hupdate 10001) as (packet & Hwritten & _ & Hid & Hstatus & _);
    [reflexivity |].
  exists packet. repeat split; assumption.
Defined.

End TtlOnly_claims.

(* ===================================================================== *)
(** * Further properties                                                  *)
(* ===================================================================== *)

(** ** The frame receiver on streams *)

Section Receiver_streams.

Import ProtocolV2.

Context {Env : Type}.
Variable pc : Env -> list Z -> Z -> Env.

Local Abbreviation run := (protocol_v2_process_with pc).

(** Bytes other than 0xAA met while scanning are dropped. *)
Lemma skip_noise noise : forall rx env rest,
  rx_state rx = RX_WAIT_HEADER_0 ->
  Forall (fun c => to_u8 c <> PACKET_HEADER_0) noise ->
  run (rx, env) (noise ++ rest) = run (rx, env) rest.
Proof.
  induction noise as [| c noise IH]; intros rx env rest Hst Hnoise;
    [reflexivity |].
  apply Forall_cons in Hnoise as [Hc Hnoise].
  cbn [app protocol_v2_process_with].
  rewrite step_header_0 by exact Hst.
  replace (to_u8 c =? PACKET_HEADER_0) with false
    by (symmetry; apply Z.eqb_neq; exact Hc).
  apply IH; assumption.
Qed.

(** A header followed by a refused length leaves the receiver scanning, with
    nothing stored. *)
Lemma refuse_length rx env lo hi rest :
  rx_state rx = RX_WAIT_HEADER_0 ->
  is_u8 lo -> is_u8 hi ->
  lo + 256 * hi = 0 \/ PACKET_MAX_PAYLOAD < lo + 256 * hi ->
  exists rx1,
    run (rx, env) ([PACKET_HEADER_0; PACKET_HEADER_1; lo; hi] ++ rest)
    = run (rx1, env) rest
    /\ rx_state rx1 = RX_WAIT_HEADER_0
    /\ rx_buffer rx1 = rx_buffer rx.
Proof.
  intros Hst Hlo Hhi Hbad.
  cbn [app protocol_v2_process_with].
  rewrite step_header_0 by exact Hst.
  change (to_u8 PACKET_HEADER_0 =? PACKET_HEADER_0) with true. cbv iota.
  rewrite step_header_1 by reflexivity.
  change (to_u8 PACKET_HEADER_1 =? PACKET_HEADER_1) with true. cbv iota.
  rewrite step_length_0 by reflexivity.
  unfold rx_byte at 1.
  cbn [rx_state rx_payload_length set_rx_state set_rx_payload_length].
  rewrite (to_u8_id lo Hlo), (to_u8_id hi Hhi).
  rewrite word_of_bytes by assumption.
  replace ((lo + 256 * hi =? 0) || (PACKET_MAX_PAYLOAD <? lo + 256 * hi))
    with true
    by (symmetry; apply orb_true_iff;
        destruct Hbad; [left; apply Z.eqb_eq | right; apply Z.ltb_lt];
        assumption).
  eexists. split; [reflexivity |]. split; reflexivity.
Qed.

(** A complete frame met while scanning: handed over if its CRC field
    matches, dropped otherwise; the receiver scans again after it. *)
Lemma frame_then rx env payload crc_lo crc_hi rest :
  rx_state rx = RX_WAIT_HEADER_0 ->
  length (rx_buffer rx) = 512%nat ->
  1 <= Z.of_nat (length payload) <= 506 ->
  Forall is_u8 payload ->
  is_u8 crc_lo -> is_u8 crc_hi ->
  exists rx1,
    run (rx, env) (frame_bytes payload crc_lo crc_hi ++ rest)
    = run (rx1, if frame_crc payload =? crc_lo + 256 * crc_hi
                then pc env (rx_buffer rx1) (Z.of_nat (length payload))
                else env) rest
    /\ rx_state rx1 = RX_WAIT_HEADER_0
    /\ length (rx_buffer rx1) = 512%nat
    /\ take (length payload) (rx_buffer rx1) = payload.
Proof.
  intros Hst Hbuf HL Hbytes Hlo Hhi.
  destruct (frame_after_first_header pc (set_rx_state RX_WAIT_HEADER_1 rx)
              env payload crc_lo crc_hi)
    as (rx1 & Hrun & Hrest); try assumption; [reflexivity |].
  exists rx1. split; [| exact Hrest].
  rewrite run_app.
  assert (Hunfold : frame_bytes payload crc_lo crc_hi
                    = 0xAA :: tail (frame_bytes payload crc_lo crc_hi))
    by reflexivity.
  rewrite Hunfold at 1. cbn [protocol_v2_process_with].
  rewrite step_header_0 by exact Hst.
  change (to_u8 170 =? PACKET_HEADER_0) with true. cbv iota.
  rewrite Hrun. reflexivity.
Qed.

End Receiver_streams.

Section Receiver_extras.

Import ProtocolV2.

(** One byte for the firmware is one byte for the receiver, with the calls
    recorded so far handed to the dispatcher. *)
Lemma step_simulation g rx calls c :
  rx_byte process_command (rx, dispatch_all g calls) c
  = match rx_byte record_call (rx, calls) c with
    | Some (rx1, calls1) => Some (rx1, dispatch_all g calls1)
    | None => None
    end.
Proof.
  unfold rx_byte.
  destruct (rx_state rx).
  - destruct (to_u8 c =? PACKET_HEADER_0); reflexivity.
  - destruct (to_u8 c =? PACKET_HEADER_1); [reflexivity |].
    destruct (to_u8 c =? PACKET_HEADER_0); reflexivity.
  - reflexivity.
  - match goal with |- context [if ?b then _ else _] => destruct b end;
      reflexivity.
  - destruct (array_store _ _ _); [| reflexivity].
    match goal with |- context [if ?b then _ else _] => destruct b end;
      reflexivity.
  - reflexivity.
  - cbn [rx_payload_length rx_buffer rx_crc_received set_rx_crc_received].
    destruct (rx_payload_length rx <=? PACKET_MAX_PAYLOAD); [| reflexivity].
    match goal with |- context [if ?b then _ else _] => destruct b end;
      [| reflexivity].
    unfold record_call, dispatch_all. rewrite fold_left_app.
    cbn [fold_left fst snd]. rewrite <- process_command_prefix. reflexivity.
Qed.

Lemma run_simulation g input : forall rx calls,
  protocol_v2_process_with process_command (rx, dispatch_all g calls) input
  = match protocol_v2_process_with record_call (rx, calls) input with
    | Some (rx1, calls1) => Some (rx1, dispatch_all g calls1)
    | None => None
    end.
Proof.
  induction input as [| c input IH]; intros rx calls;
    cbn [protocol_v2_process_with]; [reflexivity |].
  rewrite step_simulation.
  destruct (rx_byte record_call (rx, calls) c) as [[rx1 calls1] |];
    [apply IH | reflexivity].
Qed.

(** One item of a stream, met while scanning. *)
Lemma item_then i rx calls rest :
  item_ok i ->
  rx_state rx = RX_WAIT_HEADER_0 ->
  length (rx_buffer rx) = 512%nat ->
  exists rx1,
    protocol_v2_process_with record_call (rx, calls) (item_bytes i ++ rest)
    = protocol_v2_process_with record_call (rx1, calls ++ item_calls i) rest
    /\ rx_state rx1 = RX_WAIT_HEADER_0
    /\ length (rx_buffer rx1) = 512%nat.
Proof.
  intros Hok Hst Hbuf. destruct i as [noise | lo hi | payload lo hi | payload];
    cbn [item_ok item_bytes item_calls] in *; rewrite ?app_nil_r.
  - exists rx. split; [apply skip_noise; assumption | split; assumption].
  - destruct Hok as (Hlo & Hhi & Hbad).
    destruct (refuse_length record_call rx calls lo hi rest)
      as (rx1 & Hrun & Hst1 & Hbuf1); try assumption.
    exists rx1. split; [exact Hrun |]. split; [exact Hst1 | congruence].
  - destruct Hok as (HL & Hbytes & Hlo & Hhi & Hcrc).
    unfold PACKET_MAX_PAYLOAD in HL.
    destruct (frame_then record_call rx calls payload lo hi rest)
      as (rx1 & Hrun & Hst1 & Hbuf1 & _); try assumption.
    exists rx1. split; [| split; assumption].
    rewrite Hrun.
    replace (frame_crc payload =? lo + 256 * hi) with false
      by (symmetry; apply Z.eqb_neq; exact Hcrc).
    reflexivity.
  - destruct Hok as (HL & Hbytes). unfold PACKET_MAX_PAYLOAD in HL.
    pose proof (crc16_ccitt_range
                  ([Z.land (Z.of_nat (length payload)) 0xFF;
                    Z.land (Z.shiftr (Z.of_nat (length payload)) 8) 0xFF]
                   ++ payload)
                  (Z.of_nat (length payload) + 2)) as Hcrc.
    fold (frame_crc payload) in Hcrc.
    destruct (frame_then record_call rx calls payload
                (Z.land (frame_crc payload) 0xFF)
                (Z.land (Z.shiftr (frame_crc payload) 8) 0xFF) rest)
      as (rx1 & Hrun & Hst1 & Hbuf1 & Htake);
      try assumption; try apply low_byte_u8.
    exists rx1. split; [| split; assumption].
    unfold encode_frame. rewrite Hrun.
    rewrite bytes_of_word by exact Hcrc. rewrite Z.eqb_refl.
    unfold record_call. rewrite Nat2Z.id, Htake. reflexivity.
Qed.

(** X1.  A stream made of bytes other than 0xAA, headers with a refused
    length, complete frames with a wrong CRC and well-formed frames, in any
    order, met while the receiver scans for a header: [process_command] is
    called with the payloads of the well-formed frames, in order, and with
    nothing else; the firmware ends in the state the dispatcher reaches on
    these payloads, and the receiver scans for a header again. *)
Theorem frame_stream_delivery items rx g :
  Forall item_ok items ->
  rx_state rx = RX_WAIT_HEADER_0 ->
  length (rx_buffer rx) = Z.to_nat RX_BUFFER_SIZE ->
  exists rx1,
    received_calls rx (flat_map item_bytes items)
    = Some (rx1, flat_map item_calls items)
    /\ protocol_v2_process (rx, g) (flat_map item_bytes items)
       = Some (rx1, dispatch_all g (flat_map item_calls items))
    /\ rx_state rx1 = RX_WAIT_HEADER_0.
Proof.
  intros Hok Hst Hbuf.
  assert (Hcalls : forall calls, exists rx1,
            protocol_v2_process_with record_call (rx, calls)
              (flat_map item_bytes items)
            = Some (rx1, calls ++ flat_map item_calls items)
            /\ rx_state rx1 = RX_WAIT_HEADER_0).
  { change (Z.to_nat RX_BUFFER_SIZE) with 512%nat in Hbuf.
    revert rx Hst Hbuf.
    induction Hok as [| i items Hi Hitems IH]; intros rx Hst Hbuf calls.
    - exists rx. cbn. rewrite app_nil_r. split; [reflexivity | exact Hst].
    - cbn [flat_map].
      destruct (item_then i rx calls (flat_map item_bytes items) Hi Hst Hbuf)
        as (rx1 & Hrun & Hst1 & Hbuf1).
      destruct (IH rx1 Hst1 Hbuf1 (calls ++ item_calls i)) as (rx2 & Hrun2 & Hst2).
      exists rx2. rewrite Hrun, Hrun2, <- app_assoc. split; [reflexivity | exact Hst2]. }
  destruct (Hcalls []) as (rx1 & Hrun & Hst1).
  exists rx1. split; [exact Hrun |]. split; [| exact Hst1].
  unfold protocol_v2_process.
  change g with (dispatch_all g []) at 1.
  rewrite run_simulation, Hrun. reflexivity.
Qed.

(** X2.  On any input and from any receiver state, the firmware does what
    the dispatcher does on the calls the receiver makes, in order: the
    receiver's state never depends on what the commands do, and nothing
    reaches the firmware state except through [process_command]. *)
Theorem firmware_is_dispatch_of_received rx g input :
  protocol_v2_process (rx, g) input
  = match received_calls rx input with
    | Some (rx1, calls) => Some (rx1, dispatch_all g calls)
    | None => None
    end.
Proof.
  unfold protocol_v2_process, received_calls.
  change g with (dispatch_all g []) at 1.
  apply run_simulation.
Qed.

(** Every byte keeps the receiver's invariant, the buffer made of bytes and
    the calls well-formed. *)
Lemma step_calls rx calls c :
  rx_invariant rx -> Forall is_u8 (rx_buffer rx) -> Forall call_ok calls ->
  exists rx1 calls1,
    rx_byte record_call (rx, calls) c = Some (rx1, calls1)
    /\ rx_invariant rx1
    /\ Forall is_u8 (rx_buffer rx1)
    /\ Forall call_ok calls1.
Proof.
  intros Hinv Hbytes Hcalls.
  destruct (step_invariant record_call rx calls c Hinv)
    as (rx1 & calls1 & Heq & Hinv1).
  exists rx1, calls1. split; [exact Heq |]. split; [exact Hinv1 |].
  destruct Hinv as [Hbuf Hinv].
  unfold RX_BUFFER_SIZE, PACKET_MAX_PAYLOAD in *.
  change (Z.to_nat 512) with 512%nat in Hbuf.
  destruct (rx_state rx) eqn:Hst.
  - rewrite step_header_0 in Heq by exact Hst.
    injection Heq as <- <-.
    destruct (to_u8 c =? PACKET_HEADER_0); split; assumption.
  - rewrite step_header_1 in Heq by exact Hst.
    injection Heq as <- <-. split; assumption.
  - rewrite step_length_0 in Heq by exact Hst.
    injection Heq as <- <-. split; assumption.
  - unfold rx_byte in Heq. rewrite Hst in Heq.
    match type of Heq with
    | context [if ?b then _ else _] => destruct b
    end; injection Heq as <- <-; split; assumption.
  - destruct Hinv as [Hlen Hrecv].
    rewrite step_payload in Heq by (try assumption; lia).
    injection Heq as <- <-.
    cbn [rx_buffer set_rx_state set_rx_payload_received set_rx_buffer].
    split; [| exact Hcalls].
    apply Forall_insert; [exact Hbytes | apply to_u8_range].
  - rewrite step_crc_0 in Heq by exact Hst.
    injection Heq as <- <-. split; assumption.
  - unfold rx_byte in Heq. rewrite Hst in Heq.
    cbn [rx_payload_length rx_buffer rx_crc_received set_rx_crc_received]
      in Heq.
    unfold PACKET_MAX_PAYLOAD in Heq.
    replace (rx_payload_length rx <=? 506) with true in Heq
      by (symmetry; apply Z.leb_le; lia).
    injection Heq as <- <-.
    cbn [rx_buffer set_rx_state set_rx_crc_received].
    split; [exact Hbytes |].
    match goal with |- context [if ?b then _ else _] => destruct b end;
      [| exact Hcalls].
    unfold record_call. apply Forall_app. split; [exact Hcalls |].
    apply Forall_cons. split; [| apply Forall_nil; exact I].
    unfold call_ok, PACKET_MAX_PAYLOAD. cbn [fst snd].
    split; [lia |]. split; [rewrite length_take; lia |].
    apply Forall_take. exact Hbytes.
Qed.

(** X3.  Whatever arrives after power-on, every call of [process_command]
    the receiver makes carries between 1 and 506 bytes, as many as the
    length it passes, and each of them is a byte. *)
Theorem calls_are_well_formed input :
  exists rx1 calls,
    received_calls rx_power_on input = Some (rx1, calls)
    /\ Forall call_ok calls.
Proof.
  unfold received_calls.
  assert (Hgen : forall rx calls0,
            rx_invariant rx -> Forall is_u8 (rx_buffer rx) ->
            Forall call_ok calls0 ->
            exists rx1 calls,
              protocol_v2_process_with record_call (rx, calls0) input
              = Some (rx1, calls)
              /\ Forall call_ok calls).
  { induction input as [| c input IH]; intros rx calls0 Hinv Hbytes Hcalls.
    - exists rx, calls0. split; [reflexivity | exact Hcalls].
    - cbn [protocol_v2_process_with].
      destruct (step_calls rx calls0 c Hinv Hbytes Hcalls)
        as (rx1 & calls1 & -> & Hinv1 & Hbytes1 & Hcalls1).
      apply IH; assumption. }
  apply Hgen.
  - split; [reflexivity | exact I].
  - apply Forall_replicate. unfold is_u8. lia.
  - apply Forall_nil. exact I.
Qed.

End Receiver_extras.

(** ** The dispatcher and the responses it writes *)

Section Dispatcher_extras.

Import ProtocolV2.

(** A response built from the globals has the 78 bytes of the struct. *)
Lemma built_response_size g id st error :
  length (response_bytes (protocol_v2_build_response g id st error)) = 78%nat.
Proof. reflexivity. Qed.

(** It goes out as a frame of the receiver's own format. *)
Lemma built_response_is_frame g id st error :
  response_packet (protocol_v2_build_response g id st error)
  = encode_frame (response_bytes (protocol_v2_build_response g id st error)).
Proof.
  unfold response_packet, encode_frame, frame_bytes, frame_crc.
  rewrite built_response_size.
  change (Z.of_nat 78) with RESPONSE_SIZE.
  change (to_u16 (RESPONSE_SIZE + 2)) with (RESPONSE_SIZE + 2).
  cbn [app]. reflexivity.
Qed.

Lemma le16_bytes v : Forall is_u8 (le16 v).
Proof. unfold le16. repeat (apply Forall_cons; split; [apply low_byte_u8 |]). apply Forall_nil; exact I. Qed.

Lemma le32_bytes v : Forall is_u8 (le32 v).
Proof. unfold le32. repeat (apply Forall_cons; split; [apply low_byte_u8 |]). apply Forall_nil; exact I. Qed.

(** Its bytes are bytes, as soon as the three [uint8_t] values copied into
    it are. *)
Lemma built_response_bytes g id st error :
  is_u8 id ->
  is_u8 (illumination_channel_states g) ->
  is_u8 (current_led_pattern g) ->
  Forall is_u8 (response_bytes (protocol_v2_build_response g id st error)).
Proof.
  intros Hid Hmask Hpattern.
  assert (Hst : is_u8 (status_code st)) by (destruct st; cbn; unfold is_u8; lia).
  assert (Herr : is_u8 (error_value error))
    by (destruct error; cbn; unfold is_u8; lia).
  assert (Hstate : forall a b c : bool,
            is_u8 (if a || b then axis_state_code AXIS_HOMING
                   else if c then axis_state_code AXIS_MOVING
                   else axis_state_code AXIS_IDLE))
    by (intros [] [] []; cbn; unfold is_u8; lia).
  assert (Hflag : forall a : bool, is_u8 (if a then 1 else 0))
    by (intros []; unfold is_u8; lia).
  assert (Hzero : is_u8 0) by (unfold is_u8; lia).
  unfold response_bytes, protocol_v2_build_response.
  cbn [cmd_id status error_code system_mode axes dac_values illum_on_mask
       led_pattern joystick_delta_x_r joystick_delta_y_r buttons reserved
       flat_map axis_status_bytes position_usteps target_usteps state
       axis_error_code homed axis_reserved replicate system_mode_code].
  repeat first
    [ apply Forall_app; split
    | apply le32_bytes | apply le16_bytes
    | apply Forall_nil; exact I
    | apply Forall_cons; split ];
    first [assumption | apply Hstate | apply Hflag | idtac].
Qed.

(** X4.  A response built from the globals and sent by
    [protocol_v2_send_response] is 84 bytes long and is a well-formed frame
    of the same format the firmware receives: header, length 78, the
    response struct, and the CRC of length and struct.  The firmware's own
    receiver, scanning for a header, accepts it and hands over exactly the
    78 bytes of the struct. *)
Theorem response_is_well_formed_frame g id st error rx :
  is_u8 id ->
  is_u8 (illumination_channel_states g) ->
  is_u8 (current_led_pattern g) ->
  rx_state rx = RX_WAIT_HEADER_0 ->
  length (rx_buffer rx) = Z.to_nat RX_BUFFER_SIZE ->
  let response := protocol_v2_build_response g id st error in
  Z.of_nat (length (response_packet response)) = PACKET_OVERHEAD + RESPONSE_SIZE
  /\ response_packet response = encode_frame (response_bytes response)
  /\ exists rx1,
       received_calls rx (response_packet response)
       = Some (rx1, [(response_bytes response, RESPONSE_SIZE)])
       /\ rx_state rx1 = RX_WAIT_HEADER_0.
Proof.
  intros Hid Hmask Hpattern Hst Hbuf response.
  split; [reflexivity |]. split; [apply built_response_is_frame |].
  destruct (item_then (Good (response_bytes response)) rx [] [])
    as (rx1 & Hrun & Hst1 & _); try assumption.
  { cbn [item_ok]. subst response. rewrite built_response_size.
    split; [unfold PACKET_MAX_PAYLOAD; lia |].
    apply built_response_bytes; assumption. }
  exists rx1. split; [| exact Hst1].
  cbn [item_bytes item_calls app] in Hrun. rewrite app_nil_r in Hrun.
  unfold received_calls. subst response.
  rewrite built_response_is_frame, Hrun. reflexivity.
Qed.

(** A RESET acknowledgement from a firmware in the middle of operation, read
    back by a receiver at power-on. *)
Lemma response_is_well_formed_frame_witness :
  (is_u8 9
   /\ is_u8 (illumination_channel_states globals_in_operation)
   /\ is_u8 (current_led_pattern globals_in_operation)
   /\ rx_state rx_power_on = RX_WAIT_HEADER_0)
  /\ exists rx1,
       received_calls rx_power_on
         (response_packet
            (protocol_v2_build_response globals_in_operation 9 STATUS_OK
               ERR_NONE))
       = Some (rx1,
               [(response_bytes
                   (protocol_v2_build_response globals_in_operation 9
                      STATUS_OK ERR_NONE), 78)]).
Proof.
  split; [repeat split; cbn; lia |].
  destruct (response_is_well_formed_frame globals_in_operation 9 STATUS_OK
              ERR_NONE rx_power_on)
    as (_ & _ & rx1 & Hrun & _); try reflexivity; try (cbn; unfold is_u8; lia).
  exists rx1. exact Hrun.
Defined.

(** What [process_command] leaves behind, whatever it is given. *)
Lemma process_command_outcome g payload len :
  exists id st error,
    let g0 := if (2 <=? len) && (payload !!! 1%nat =? CMD_RESET)
              then reset_firmware_state g else g in
    process_command g payload len
    = protocol_v2_send_response
        (protocol_v2_build_response g0 id st error) g0
    /\ id = (if len <? 2 then 0 else payload !!! 0%nat).
Proof.
  unfold process_command.
  destruct (Z.ltb_spec len 2) as [Hshort | Hlong].
  - replace (2 <=? len) with false by (symmetry; apply Z.leb_gt; lia).
    do 3 eexists. split; reflexivity.
  - replace (2 <=? len) with true by (symmetry; apply Z.leb_le; lia).
    cbn [andb].
    destruct (payload !!! 1%nat =? CMD_GET_STATE) eqn:Hget.
    { apply Z.eqb_eq in Hget. rewrite Hget.
      do 3 eexists. split; reflexivity. }
    destruct (payload !!! 1%nat =? CMD_RESET) eqn:Hreset.
    { do 3 eexists. split; reflexivity. }
    destruct (payload !!! 1%nat =? CMD_GET_VERSION);
      do 3 eexists; split; reflexivity.
Qed.

(** X5.  Whatever payload and length it is given, [process_command] writes
    exactly one packet to the serial port, after what was written before:
    84 bytes that start with the header and the length 78 and carry, as
    [cmd_id], the first payload byte (0 if the length is below 2).  Unless
    the command is RESET, nothing else of the firmware state changes. *)
Theorem one_response_per_command g payload len :
  exists packet,
    SerialUSB_written (process_command g payload len)
    = SerialUSB_written g ++ [packet]
    /\ length packet = 84%nat
    /\ take 4 packet = [0xAA; 0xBB; 78; 0]
    /\ packet !!! 4%nat = (if len <? 2 then 0 else payload !!! 0%nat)
    /\ (len < 2 \/ payload !!! 1%nat <> CMD_RESET ->
        process_command g payload len = SerialUSB_write packet g).
Proof.
  destruct (process_command_outcome g payload len)
    as (id & st & error & Hout & Hid).
  cbv zeta in Hout. rewrite Hout. clear Hout.
  set (g0 := if (2 <=? len) && (payload !!! 1%nat =? CMD_RESET)
             then reset_firmware_state g else g).
  assert (Hwritten : SerialUSB_written g0 = SerialUSB_written g)
    by (subst g0;
        destruct ((2 <=? len) && (payload !!! 1%nat =? CMD_RESET));
        reflexivity).
  exists (response_packet (protocol_v2_build_response g0 id st error)).
  split.
  - unfold protocol_v2_send_response. cbn [SerialUSB_written SerialUSB_write].
    rewrite Hwritten. reflexivity.
  - split; [reflexivity |]. split; [reflexivity |].
    split; [rewrite <- Hid; reflexivity |].
    intros Hplain.
    assert (Hg0 : g0 = g); [| rewrite Hg0; reflexivity].
    subst g0.
    replace ((2 <=? len) && (payload !!! 1%nat =? CMD_RESET)) with false;
      [reflexivity |].
    symmetry. apply andb_false_iff.
    destruct Hplain as [Hshort | Hother];
      [left; apply Z.leb_gt; lia | right; apply Z.eqb_neq; exact Hother].
Qed.

(** X6.  A command of at least two bytes whose type is none of GET_STATE,
    RESET and GET_VERSION is answered with [STATUS_REJECTED] and
    [ERR_INVALID_CMD], its first byte echoed as [cmd_id]; the firmware state
    is otherwise untouched. *)
Theorem unknown_command_rejected g payload len :
  2 <= len ->
  payload !!! 1%nat <> CMD_GET_STATE ->
  payload !!! 1%nat <> CMD_RESET ->
  payload !!! 1%nat <> CMD_GET_VERSION ->
  let response :=
    protocol_v2_build_response g (payload !!! 0%nat) STATUS_REJECTED
      ERR_INVALID_CMD in
  process_command g payload len = SerialUSB_write (response_packet response) g
  /\ response_packet response !!! 4%nat = payload !!! 0%nat
  /\ response_packet response !!! 5%nat = status_code STATUS_REJECTED
  /\ response_packet response !!! 6%nat = error_value ERR_INVALID_CMD.
Proof.
  intros Hlen Hget Hreset Hversion response.
  split; [| repeat split].
  unfold process_command.
  replace (len <? 2) with false by (symmetry; apply Z.ltb_ge; exact Hlen).
  replace (payload !!! 1%nat =? CMD_GET_STATE) with false
    by (symmetry; apply Z.eqb_neq; exact Hget).
  replace (payload !!! 1%nat =? CMD_RESET) with false
    by (symmetry; apply Z.eqb_neq; exact Hreset).
  replace (payload !!! 1%nat =? CMD_GET_VERSION) with false
    by (symmetry; apply Z.eqb_neq; exact Hversion).
  reflexivity.
Qed.

(** A CMD_MOVE_AXIS command (type 0x01), which this dispatcher does not
    handle. *)
Lemma unknown_command_rejected_witness :
  (2 <= 6 /\ [7; 0x01; 0; 0; 0; 0] !!! 1%nat <> CMD_GET_STATE)
  /\ SerialUSB_written (process_command globals_power_on [7; 0x01; 0; 0; 0; 0] 6)
     = [response_packet
          (protocol_v2_build_response globals_power_on 7 STATUS_REJECTED
             ERR_INVALID_CMD)].
Proof.
  split; [split; [lia | discriminate] |].
  destruct (unknown_command_rejected globals_power_on [7; 0x01; 0; 0; 0; 0] 6)
    as [Hout _]; [lia | discriminate | discriminate | discriminate |].
  rewrite Hout. reflexivity.
Defined.



(** A stream with every kind of item: stray bytes, a header announcing
    length 0, a GET_STATE frame with a zeroed CRC field, and a well-formed
    GET_STATE frame; only the last one reaches the dispatcher. *)
Lemma frame_stream_delivery_witness :
  let items := [Noise [0; 0xBB; 0x55]; BadLength 0 0;
                BadCrc [1; 0xF0] 0 0; Good [2; 0xF0]] in
  (Forall item_ok items /\ rx_state rx_power_on = RX_WAIT_HEADER_0)
  /\ exists rx1,
       received_calls rx_power_on (flat_map item_bytes items)
       = Some (rx1, [([2; 0xF0], 2)])
       /\ protocol_v2_process (rx_power_on, globals_power_on)
            (flat_map item_bytes items)
          = Some (rx1, process_command globals_power_on [2; 0xF0] 2).
Proof.
  intros items.
  assert (Hok : Forall item_ok items).
  { subst items. repeat (apply Forall_cons; split); try (apply Forall_nil; exact I);
      cbn [item_ok]; unfold is_u8, PACKET_MAX_PAYLOAD;
      repeat split; try (cbn [length]; lia);
      try (repeat constructor; unfold is_u8; lia);
      try (left; lia); try (vm_compute; discriminate). }
  split; [split; [exact Hok | reflexivity] |].
  destruct (frame_stream_delivery items rx_power_on globals_power_on Hok
              eq_refl eq_refl)
    as (rx1 & Hcalls & Hrun & _).
  exists rx1. split; [exact Hcalls | exact Hrun].
Defined.

End Dispatcher_extras.

(** ** The legacy protocol: checksums and framing *)

Section TtlOnly_framing.

Import TtlOnly.

Lemma lxor_u8 a b : is_u8 a -> is_u8 b -> is_u8 (Z.lxor a b).
Proof.
  unfold is_u8. intros Ha Hb.
  assert (Hnn : 0 <= Z.lxor a b) by (apply Z.lxor_nonneg; lia).
  split; [exact Hnn |].
  destruct (Z.eq_dec (Z.lxor a b) 0) as [-> | Hnz]; [lia |].
  change 256 with (2 ^ 8). apply Z.log2_lt_pow2; [lia |].
  eapply Z.le_lt_trans; [apply Z.log2_lxor; lia |].
  apply Z.max_lub_lt.
  - destruct (Z.eq_dec a 0) as [-> | ?]; [reflexivity |].
    apply Z.log2_lt_pow2; lia.
  - destruct (Z.eq_dec b 0) as [-> | ?]; [reflexivity |].
    apply Z.log2_lt_pow2; lia.
Qed.

(** Every byte is one of the 256 numbers below 256. *)
Lemma u8_enumerated v : is_u8 v -> In v (map Z.of_nat (seq 0 256)).
Proof.
  intros Hv. apply in_map_iff. exists (Z.to_nat v).
  unfold is_u8 in Hv. split; [lia | apply in_seq; lia].
Qed.

(** The shift step of the CRC-8 is linear over exclusive-or: checked on all
    pairs of bytes. *)
Lemma crc8_shift_linear a b :
  is_u8 a -> is_u8 b ->
  crc8_shift (Z.lxor a b) = Z.lxor (crc8_shift a) (crc8_shift b).
Proof.
  intros Ha Hb.
  assert (Hall : forallb
            (fun x => forallb
               (fun y => crc8_shift (Z.lxor x y)
                          =? Z.lxor (crc8_shift x) (crc8_shift y))
               (map Z.of_nat (seq 0 256)))
            (map Z.of_nat (seq 0 256)) = true)
    by (vm_compute; reflexivity).
  rewrite forallb_forall in Hall.
  specialize (Hall a (u8_enumerated a Ha)).
  rewrite forallb_forall in Hall.
  apply Z.eqb_eq, Hall, u8_enumerated, Hb.
Qed.

Lemma crc8_iter_range n v : is_u8 v -> is_u8 (Nat.iter n crc8_shift v).
Proof.
  intros Hv. induction n as [| n IH]; cbn [Nat.iter];
    [exact Hv | apply crc8_shift_range].
Qed.

Lemma crc8_iter_linear n a b :
  is_u8 a -> is_u8 b ->
  Nat.iter n crc8_shift (Z.lxor a b)
  = Z.lxor (Nat.iter n crc8_shift a) (Nat.iter n crc8_shift b).
Proof.
  intros Ha Hb. induction n as [| n IH]; [reflexivity |].
  rewrite !Nat.iter_succ, IH.
  apply crc8_shift_linear; apply crc8_iter_range; assumption.
Qed.

Lemma crc8_byte_range v b : is_u8 (crc8_byte v b).
Proof. unfold crc8_byte. cbn [Nat.iter]. apply crc8_shift_range. Qed.

Lemma crc8_byte_linear v1 v2 b1 b2 :
  is_u8 v1 -> is_u8 v2 -> is_u8 b1 -> is_u8 b2 ->
  crc8_byte (Z.lxor v1 v2) (Z.lxor b1 b2)
  = Z.lxor (crc8_byte v1 b1) (crc8_byte v2 b2).
Proof.
  intros Hv1 Hv2 Hb1 Hb2. unfold crc8_byte.
  replace (Z.lxor (Z.lxor v1 v2) (Z.lxor b1 b2))
    with (Z.lxor (Z.lxor v1 b1) (Z.lxor v2 b2)).
  - apply crc8_iter_linear; apply lxor_u8; assumption.
  - rewrite !Z.lxor_assoc. f_equal.
    rewrite <- !Z.lxor_assoc. f_equal. apply Z.lxor_comm.
Qed.

(** The CRC-8 of the exclusive-or of two messages of the same length is the
    exclusive-or of their CRCs. *)
Lemma crc8_fold_linear l1 : forall l2 v1 v2,
  length l1 = length l2 ->
  Forall is_u8 l1 -> Forall is_u8 l2 -> is_u8 v1 -> is_u8 v2 ->
  fold_left crc8_byte (zip_with Z.lxor l1 l2) (Z.lxor v1 v2)
  = Z.lxor (fold_left crc8_byte l1 v1) (fold_left crc8_byte l2 v2).
Proof.
  induction l1 as [| b1 l1 IH]; intros [| b2 l2] v1 v2 Hlen H1 H2 Hv1 Hv2;
    try discriminate Hlen; [reflexivity |].
  apply Forall_cons in H1 as [Hb1 H1]. apply Forall_cons in H2 as [Hb2 H2].
  cbn [zip_with fold_left].
  rewrite crc8_byte_linear by assumption.
  apply IH; try assumption; try apply crc8_byte_range.
  cbn [length] in Hlen. lia.
Qed.

Lemma crc8ccitt_whole l :
  crc8ccitt l (Z.of_nat (length l)) = fold_left crc8_byte l 0.
Proof. unfold crc8ccitt. rewrite Nat2Z.id, firstn_all. reflexivity. Qed.

(** Inverting one bit of a 7-byte message changes its CRC-8. *)
Lemma crc8_detects_flip body i k :
  length body = 7%nat -> Forall is_u8 body ->
  (i < 7)%nat -> (k < 8)%nat ->
  crc8ccitt (flip_bit body i k) 7 <> crc8ccitt body 7.
Proof.
  intros Hlen Hbytes Hi Hk.
  set (error := <[i := 2 ^ Z.of_nat k]> (replicate 7 0)).
  assert (Hflip : flip_bit body i k = zip_with Z.lxor body error).
  { subst error. unfold flip_bit.
    destruct body as [| b0 [| b1 [| b2 [| b3 [| b4 [| b5 [| b6 [| ? ?]]]]]]]];
      try discriminate Hlen.
    do 7 (destruct i as [| i];
          [cbn [replicate zip_with]; cbn; rewrite ?Z.lxor_0_r; reflexivity |]).
    lia. }
  assert (Herror : Forall is_u8 error).
  { subst error. apply Forall_insert.
    - apply Forall_replicate. unfold is_u8. lia.
    - unfold is_u8. split; [apply Z.pow_nonneg; lia |].
      change 256 with (2 ^ 8). apply Z.pow_lt_mono_r; lia. }
  assert (Hnonzero : crc8ccitt error 7 <> 0).
  { subst error.
    do 7 (destruct i as [| i];
          [do 8 (destruct k as [| k]; [vm_compute; discriminate |]); lia |]).
    lia. }
  assert (Hzero : is_u8 0) by (unfold is_u8; lia).
  rewrite Hflip. intros Heq.
  change 7 with (Z.of_nat 7) in Heq, Hnonzero.
  rewrite <- Hlen in Heq at 2.
  replace (Z.of_nat 7) with (Z.of_nat (length (zip_with Z.lxor body error)))
    in Heq at 1
    by (rewrite length_zip_with, Hlen; subst error;
        rewrite length_insert, length_replicate; reflexivity).
  replace (Z.of_nat 7) with (Z.of_nat (length error)) in Hnonzero
    by (subst error; rewrite length_insert, length_replicate; reflexivity).
  rewrite !crc8ccitt_whole in Heq. rewrite crc8ccitt_whole in Hnonzero.
  change 0 with (Z.lxor 0 0) in Heq at 1.
  rewrite crc8_fold_linear in Heq; try assumption;
    [| subst error; rewrite length_insert, length_replicate; exact Hlen].
  apply Hnonzero.
  apply (f_equal (Z.lxor (fold_left crc8_byte body 0))) in Heq.
  rewrite <- Z.lxor_assoc, Z.lxor_nilpotent, Z.lxor_0_l in Heq.
  exact Heq.
Qed.

(** Eight bytes at the start of [buffer_rx], as a list. *)
Lemma process_frame_list g frame rest :
  buffer_rx_ptr g = 0 ->
  length (buffer_rx g) = 512%nat ->
  length frame = 8%nat ->
  Forall is_u8 frame ->
  process_serial_message g (frame ++ rest) =
  let received :=
    with_cmd (frame !!! 0%nat) (checksum_error g)
      (with_rx (frame ++ drop 8 (buffer_rx g)) 0 g) in
  if crc8ccitt frame 7 =? frame !!! 7%nat then
    let accepted := with_cmd (frame !!! 0%nat) false received in
    process_serial_message
      (match cmd_map g !!! Z.to_nat (frame !!! 1%nat) with
       | None => callback_default accepted
       | Some p_callback => invoke p_callback accepted
       end) rest
  else with_cmd (frame !!! 0%nat) true received.
Proof.
  intros Hptr Hbuf Hlen Hbytes.
  destruct frame as [| c0 [| c1 [| c2 [| c3 [| c4 [| c5 [| c6 [| c7 [| ? ?]]]]]]]]];
    try discriminate Hlen.
  rewrite (process_frame g c0 c1 c2 c3 c4 c5 c6 c7 rest Hptr Hbuf Hbytes).
  assert (Hcrc : crc8ccitt [c0; c1; c2; c3; c4; c5; c6; c7] 7
                 = crc8ccitt [c0; c1; c2; c3; c4; c5; c6] 7)
    by (unfold crc8ccitt; reflexivity).
  rewrite Hcrc.
  change ([c0; c1; c2; c3; c4; c5; c6; c7] !!! 0%nat) with c0.
  change ([c0; c1; c2; c3; c4; c5; c6; c7] !!! 1%nat) with c1.
  change ([c0; c1; c2; c3; c4; c5; c6; c7] !!! 7%nat) with c7.
  reflexivity.
Qed.

(** A position update that is due. *)
Lemma position_update_due g :
  interval_send_pos_update < us_since_last_pos_update g ->
  send_position_update g
  = let reply :=
      [cmd_id g;
       if checksum_error g then CMD_CHECKSUM_ERROR else COMPLETED_WITHOUT_ERRORS]
      ++ replicate 21 0 in
    transmit (reply ++ [crc8ccitt reply 23]) (with_timer 0 g).
Proof.
  intros Hdue. unfold send_position_update.
  replace (interval_send_pos_update <? us_since_last_pos_update g) with true
    by (symmetry; apply Z.ltb_lt; exact Hdue).
  reflexivity.
Qed.

(** X8.  A command is processed as soon as its eighth byte is read.  When
    its last byte is not the CRC-8 of the first seven, the firmware sets
    [checksum_error], takes the first byte as [cmd_id], calls no handler
    (illumination variables, pins, SPI bus and serial output stay as they
    were) and throws away every byte that was waiting behind the command;
    the next position update carries [CMD_CHECKSUM_ERROR]. *)
Theorem bad_checksum_drops_block g frame rest :
  buffer_rx_ptr g = 0 ->
  length (buffer_rx g) = 512%nat ->
  length frame = 8%nat ->
  Forall is_u8 frame ->
  crc8ccitt frame 7 <> frame !!! 7%nat ->
  let g1 := process_serial_message g (frame ++ rest) in
  g1 = process_serial_message g frame
  /\ checksum_error g1 = true
  /\ cmd_id g1 = frame !!! 0%nat
  /\ buffer_rx_ptr g1 = 0
  /\ (illumination_source g1, illumination_intensity g1,
       illumination_intensity_factor g1, illumination_is_on g1)
     = (illumination_source g, illumination_intensity g,
        illumination_intensity_factor g, illumination_is_on g)
  /\ hardware g1 = hardware g
  /\ SerialUSB_written g1 = SerialUSB_written g
  /\ forall t,
       interval_send_pos_update < t ->
       exists packet,
         SerialUSB_written (send_position_update (with_timer t g1))
         = SerialUSB_written g ++ [packet]
         /\ packet !!! 0%nat = frame !!! 0%nat
         /\ packet !!! 1%nat = CMD_CHECKSUM_ERROR.
Proof.
  intros Hptr Hbuf Hlen Hbytes Hbad g1.
  assert (Hdrop : forall tail,
            process_serial_message g (frame ++ tail)
            = with_cmd (frame !!! 0%nat) true
                (with_cmd (frame !!! 0%nat) (checksum_error g)
                   (with_rx (frame ++ drop 8 (buffer_rx g)) 0 g))).
  { intros tail. rewrite process_frame_list by assumption. cbv zeta.
    replace (crc8ccitt frame 7 =? frame !!! 7%nat) with false
      by (symmetry; apply Z.eqb_neq; exact Hbad).
    reflexivity. }
  subst g1. rewrite Hdrop.
  split; [rewrite <- (app_nil_r frame) at 4; rewrite Hdrop; reflexivity |].
  repeat (split; [reflexivity |]).
  intros t Ht.
  rewrite position_update_due by exact Ht. cbv zeta.
  eexists. split; [reflexivity |].
  split; reflexivity.
Qed.

(** A MOVE_X command whose last byte was zeroed on the way, with more bytes
    waiting behind it. *)
Lemma bad_checksum_drops_block_witness :
  (buffer_rx_ptr power_on = 0 /\ length [0x2A; 0; 0; 0; 0x10; 0; 0; 0] = 8%nat
   /\ crc8ccitt [0x2A; 0; 0; 0; 0x10; 0; 0; 0] 7 <> 0)
  /\ process_serial_message (init_callbacks power_on)
       ([0x2A; 0; 0; 0; 0x10; 0; 0; 0] ++ move_x_frame)
     = process_serial_message (init_callbacks power_on)
         [0x2A; 0; 0; 0; 0x10; 0; 0; 0]
  /\ checksum_error
       (process_serial_message (init_callbacks power_on)
          ([0x2A; 0; 0; 0; 0x10; 0; 0; 0] ++ move_x_frame)) = true.
Proof.
  assert (Hbad : crc8ccitt [0x2A; 0; 0; 0; 0x10; 0; 0; 0] 7 <> 0)
    by (vm_compute; discriminate).
  assert (Hbytes : Forall is_u8 [0x2A; 0; 0; 0; 0x10; 0; 0; 0])
    by (repeat constructor; unfold is_u8; lia).
  split; [repeat split; exact Hbad |].
  destruct (bad_checksum_drops_block (init_callbacks power_on)
              [0x2A; 0; 0; 0; 0x10; 0; 0; 0] move_x_frame
              eq_refl eq_refl eq_refl Hbytes Hbad)
    as (Hsame & Herror & _).
  split; assumption.
Defined.

(** X9.  Inverting any single bit of a valid 8-byte command, in any of its
    bytes including the CRC byte, is detected: [checksum_error] is set and
    no handler runs. *)
Theorem single_bit_corruption_detected g body (i k : nat) rest :
  buffer_rx_ptr g = 0 ->
  length (buffer_rx g) = 512%nat ->
  length body = 7%nat ->
  Forall is_u8 body ->
  (i < 8)%nat -> (k < 8)%nat ->
  let frame := body ++ [crc8ccitt body 7] in
  let g1 := process_serial_message g (flip_bit frame i k ++ rest) in
  checksum_error g1 = true
  /\ hardware g1 = hardware g
  /\ SerialUSB_written g1 = SerialUSB_written g
  /\ (illumination_source g1, illumination_intensity g1,
       illumination_intensity_factor g1, illumination_is_on g1)
     = (illumination_source g, illumination_intensity g,
        illumination_intensity_factor g, illumination_is_on g).
Proof.
  intros Hptr Hbuf Hlen Hbytes Hi Hk frame g1.
  assert (Hcrc : is_u8 (crc8ccitt body 7)) by apply crc8ccitt_range.
  assert (Hbit : is_u8 (2 ^ Z.of_nat k)).
  { unfold is_u8. split; [apply Z.pow_nonneg; lia |].
    change 256 with (2 ^ 8). apply Z.pow_lt_mono_r; lia. }
  assert (Hframe : Forall is_u8 frame)
    by (apply Forall_app; split;
        [exact Hbytes
        | apply Forall_cons; split; [exact Hcrc | apply Forall_nil; exact I]]).
  assert (Hflen : length frame = 8%nat)
    by (subst frame; rewrite length_app, Hlen; reflexivity).
  assert (Hbad : crc8ccitt (flip_bit frame i k) 7 <> flip_bit frame i k !!! 7%nat).
  { destruct (Nat.eq_dec i 7%nat) as [-> | Hne].
    - (* the CRC byte itself *)
      unfold flip_bit.
      rewrite list_lookup_total_insert_eq by lia.
      assert (Htake : crc8ccitt (<[7%nat := Z.lxor (frame !!! 7%nat)
                                             (2 ^ Z.of_nat k)]> frame) 7
                      = crc8ccitt body 7).
      { unfold crc8ccitt. change (Z.to_nat 7) with 7%nat.
        rewrite take_insert_ge by lia. subst frame.
        rewrite <- Hlen at 1. rewrite take_app_length, firstn_all2 by lia.
        reflexivity. }
      rewrite Htake.
      assert (Hlast : frame !!! 7%nat = crc8ccitt body 7).
      { subst frame. rewrite lookup_total_app_r by lia.
        rewrite Hlen. reflexivity. }
      rewrite Hlast. intros Heq.
      apply (f_equal (Z.lxor (crc8ccitt body 7))) in Heq.
      rewrite Z.lxor_nilpotent, <- Z.lxor_assoc, Z.lxor_nilpotent,
        Z.lxor_0_l in Heq.
      assert (0 < 2 ^ Z.of_nat k) by (apply Z.pow_pos_nonneg; lia). lia.
    - (* one of the seven bytes before it *)
      assert (Hi7 : (i < 7)%nat) by lia.
      assert (Hsplit : flip_bit frame i k
                       = flip_bit body i k ++ [crc8ccitt body 7]).
      { unfold flip_bit. subst frame.
        rewrite insert_app_l by lia.
        rewrite lookup_total_app_l by lia. reflexivity. }
      rewrite Hsplit.
      assert (Hlen1 : length (flip_bit body i k) = 7%nat)
        by (unfold flip_bit; rewrite length_insert; exact Hlen).
      rewrite lookup_total_app_r by lia. rewrite Hlen1.
      change ([crc8ccitt body 7] !!! (7 - 7)%nat) with (crc8ccitt body 7).
      pose proof (crc8ccitt_prefix (flip_bit body i k) [crc8ccitt body 7])
        as Hprefix.
      rewrite Hlen1 in Hprefix. change (Z.of_nat 7) with 7 in Hprefix.
      rewrite Hprefix.
      apply crc8_detects_flip; assumption. }
  assert (Hcorrupted : Forall is_u8 (flip_bit frame i k)).
  { unfold flip_bit. apply Forall_insert; [exact Hframe |].
    apply lxor_u8; [| exact Hbit].
    apply (Forall_lookup_total_1 is_u8 frame i); [exact Hframe | lia]. }
  subst g1. rewrite process_frame_list;
    try assumption; [| unfold flip_bit; rewrite length_insert; exact Hflen].
  cbv zeta.
  replace (crc8ccitt (flip_bit frame i k) 7 =? flip_bit frame i k !!! 7%nat)
    with false by (symmetry; apply Z.eqb_neq; exact Hbad).
  repeat split.
Qed.

(** Bit 3 of the payload byte at index 4 of [move_x_frame] inverted. *)
Lemma single_bit_corruption_detected_witness :
  (length [0x2A; 0; 0; 0; 0x10; 0; 0] = 7%nat /\ (4 < 8)%nat /\ (3 < 8)%nat)
  /\ flip_bit move_x_frame 4 3 = [0x2A; 0; 0; 0; 0x18; 0; 0; 0x50]
  /\ checksum_error
       (process_serial_message (init_callbacks power_on)
          (flip_bit move_x_frame 4 3)) = true.
Proof.
  split; [repeat split; lia |].
  split; [vm_compute; reflexivity |].
  assert (Hbytes : Forall is_u8 [0x2A; 0; 0; 0; 0x10; 0; 0])
    by (repeat constructor; unfold is_u8; lia).
  destruct (single_bit_corruption_detected (init_callbacks power_on)
              [0x2A; 0; 0; 0; 0x10; 0; 0] 4 3 []
              eq_refl eq_refl eq_refl Hbytes)
    as [Herror _]; [lia | lia |].
  rewrite app_nil_r in Herror. exact Herror.
Defined.

(** X10.  The CRC-8 of a message followed by its own CRC-8 is 0, so a
    receiver may check a frame by running the CRC over all of its bytes.
    The CRC starts from 0 and is therefore blind to zero bytes put in front
    of a message. *)
Theorem crc8_residue body :
  let n := Z.of_nat (length body) in
  crc8ccitt (body ++ [crc8ccitt body n]) (n + 1) = 0
  /\ crc8ccitt (0 :: body) (n + 1) = crc8ccitt body n.
Proof.
  intros n. subst n.
  assert (Hself : forall v, crc8_byte v v = 0)
    by (intros v; unfold crc8_byte; rewrite Z.lxor_nilpotent; reflexivity).
  split.
  - replace (Z.of_nat (length body) + 1)
      with (Z.of_nat (length (body ++ [crc8ccitt body (Z.of_nat (length body))])))
      by (rewrite length_app; cbn [length]; lia).
    rewrite !crc8ccitt_whole, fold_left_app. cbn [fold_left].
    apply Hself.
  - replace (Z.of_nat (length body) + 1) with (Z.of_nat (length (0 :: body)))
      by (cbn [length]; lia).
    rewrite !crc8ccitt_whole. cbn [fold_left].
    rewrite (Hself 0). reflexivity.
Qed.

End TtlOnly_framing.

(** ** The legacy protocol: commands, pins and the DAC *)

Section TtlOnly_commands.

Import TtlOnly.

Local Ltac case_matches :=
  repeat match goal with
         | |- context [match ?x with _ => _ end] => destruct x
         end.

(** No callback touches the receive buffer, its pointer, the callback table,
    the checksum flag, the timer or the serial output. *)
Lemma invoke_keeps callback g :
  buffer_rx (invoke callback g) = buffer_rx g
  /\ buffer_rx_ptr (invoke callback g) = buffer_rx_ptr g
  /\ cmd_map (invoke callback g) = cmd_map g
  /\ checksum_error (invoke callback g) = checksum_error g
  /\ us_since_last_pos_update (invoke callback g) = us_since_last_pos_update g
  /\ SerialUSB_written (invoke callback g) = SerialUSB_written g.
Proof.
  destruct callback; cbn [invoke];
    unfold set_illumination, turn_on_illumination, turn_off_illumination,
      init_dac, set_dac_gain, set_dac_output, turn_off_all_lasers;
    cbn [illumination_source illumination_is_on with_illumination hw with_cmd];
    case_matches; repeat split.
Qed.

(** The level of a pin after more hardware calls. *)
Lemma pin_level_app pin ops more :
  pin_level pin (ops ++ more)
  = match pin_level pin more with
    | Some v => Some v
    | None => pin_level pin ops
    end.
Proof.
  unfold pin_level. rewrite fold_left_app.
  generalize (fold_left
                (fun level op =>
                   match op with
                   | digitalWrite p v => if p =? pin then Some v else level
                   | _ => level
                   end) ops None).
  induction more as [| op more IH]; intros init; cbn [fold_left].
  - reflexivity.
  - rewrite IH. rewrite (IH (match op with
                             | digitalWrite p v => if p =? pin then Some v else None
                             | _ => None
                             end)).
    destruct (fold_left _ more None); [reflexivity |].
    destruct op; try reflexivity.
    destruct (pin0 =? pin); reflexivity.
Qed.

(** How [process_serial_message] reaches every state it reaches. *)
Lemma process_serial_message_ind (P : Globals -> Prop) :
  (forall g c,
      P g ->
      P (with_rx (<[Z.to_nat (buffer_rx_ptr g) := to_u8 c]> (buffer_rx g))
           (if buffer_rx_ptr g + 1 =? CMD_LENGTH then 0
            else buffer_rx_ptr g + 1) g)) ->
  (forall g id error, P g -> P (with_cmd id error g)) ->
  (forall callback g, P g -> P (invoke callback g)) ->
  forall input g, P g -> P (process_serial_message g input).
Proof.
  intros Hstore Hcmd Hinvoke.
  induction input as [| c input IH]; intros g Hg; [exact Hg |].
  specialize (Hstore g c Hg).
  destruct (Z.eq_dec (buffer_rx_ptr g + 1) CMD_LENGTH) as [Heq | Hne].
  - rewrite process_byte_complete by exact Heq. cbv zeta.
    rewrite Heq, Z.eqb_refl in Hstore.
    destruct (crc8ccitt _ 7 =? _).
    + apply IH. destruct (cmd_map g !!! _).
      * apply Hinvoke, Hcmd, Hcmd, Hstore.
      * apply Hcmd, Hcmd, Hstore.
    + apply Hcmd, Hcmd, Hstore.
  - rewrite process_byte_pending by exact Hne.
    replace (buffer_rx_ptr g + 1 =? CMD_LENGTH) with false in Hstore
      by (symmetry; apply Z.eqb_neq; exact Hne).
    apply IH, Hstore.
Qed.

(** A frame built by [command_frame] is well formed. *)
Lemma command_frame_well_formed id command data :
  is_u8 id -> is_u8 command -> Forall is_u8 data -> length data = 5%nat ->
  well_formed_command (command_frame id command data).
Proof.
  intros Hid Hcommand Hdata Hfive. unfold well_formed_command, command_frame.
  cbv zeta.
  assert (Hlen : length ([id; command] ++ data) = 7%nat)
    by (rewrite length_app, Hfive; reflexivity).
  split; [rewrite length_app, Hlen; reflexivity |].
  split.
  - apply Forall_app; split.
    + apply Forall_app; split; [| exact Hdata].
      apply Forall_cons; split; [exact Hid |].
      apply Forall_cons; split; [exact Hcommand | apply Forall_nil; exact I].
    + apply Forall_cons; split; [apply crc8ccitt_range | apply Forall_nil; exact I].
  - rewrite lookup_total_app_r by lia. rewrite Hlen.
    pose proof (crc8ccitt_prefix ([id; command] ++ data)
                  [crc8ccitt ([id; command] ++ data) 7]) as Hprefix.
    rewrite Hlen in Hprefix. change (Z.of_nat 7) with 7 in Hprefix.
    rewrite Hprefix.
    generalize (crc8ccitt ([id; command] ++ data) 7). reflexivity.
Qed.

(** A well-formed command met at the start of the buffer is dispatched. *)
Lemma well_formed_command_dispatched g frame rest :
  buffer_rx_ptr g = 0 ->
  length (buffer_rx g) = 512%nat ->
  well_formed_command frame ->
  process_serial_message g (frame ++ rest) =
  let accepted :=
    with_cmd (frame !!! 0%nat) false
      (with_cmd (frame !!! 0%nat) (checksum_error g)
         (with_rx (frame ++ drop 8 (buffer_rx g)) 0 g)) in
  process_serial_message
    (match cmd_map g !!! Z.to_nat (frame !!! 1%nat) with
     | None => callback_default accepted
     | Some p_callback => invoke p_callback accepted
     end) rest.
Proof.
  intros Hptr Hbuf (Hlen & Hbytes & Hcrc).
  rewrite process_frame_list by assumption. cbv zeta.
  rewrite Hcrc, Z.eqb_refl. reflexivity.
Qed.

(** X11.  A block of well-formed commands that arrives in one read is
    handled command by command, exactly as if each command had arrived in
    a read of its own; the receiver is back at the start of its buffer
    afterwards and, unless the block was empty, [checksum_error] is clear. *)
Theorem commands_handled_in_order frames g :
  buffer_rx_ptr g = 0 ->
  length (buffer_rx g) = 512%nat ->
  Forall well_formed_command frames ->
  let g1 := process_serial_message g (concat frames) in
  g1 = fold_left process_serial_message frames g
  /\ buffer_rx_ptr g1 = 0
  /\ length (buffer_rx g1) = 512%nat
  /\ (frames <> [] -> checksum_error g1 = false).
Proof.
  intros Hptr Hbuf Hall. cbv zeta.
  assert (Hstrong :
            process_serial_message g (concat frames)
            = fold_left process_serial_message frames g
            /\ buffer_rx_ptr (process_serial_message g (concat frames)) = 0
            /\ length (buffer_rx (process_serial_message g (concat frames)))
               = 512%nat
            /\ checksum_error (process_serial_message g (concat frames))
               = match frames with [] => checksum_error g | _ => false end).
  { revert g Hptr Hbuf.
    induction Hall as [| frame frames Hframe Hall IH]; intros g Hptr Hbuf.
    - repeat split; assumption.
    - cbn [concat fold_left].
      pose proof (well_formed_command_dispatched g frame [] Hptr Hbuf Hframe)
        as Hone.
      rewrite app_nil_r in Hone. cbv zeta in Hone.
      cbn [process_serial_message] in Hone.
      rewrite (well_formed_command_dispatched g frame (concat frames))
        by assumption.
      cbv zeta. rewrite Hone.
      set (accepted := with_cmd (frame !!! 0%nat) false
                         (with_cmd (frame !!! 0%nat) (checksum_error g)
                            (with_rx (frame ++ drop 8 (buffer_rx g)) 0 g))).
      set (g1 := match cmd_map g !!! Z.to_nat (frame !!! 1%nat) with
                 | None => callback_default accepted
                 | Some p_callback => invoke p_callback accepted
                 end).
      assert (Hg1 : buffer_rx_ptr g1 = 0
                    /\ length (buffer_rx g1) = 512%nat
                    /\ checksum_error g1 = false).
      { assert (Haccepted : length (buffer_rx accepted) = 512%nat).
        { subst accepted. cbn [buffer_rx with_cmd with_rx].
          destruct Hframe as (Hlen & _).
          rewrite length_app, length_drop, Hlen, Hbuf. reflexivity. }
        subst g1. destruct (cmd_map g !!! _) as [callback |].
        - destruct (invoke_keeps callback accepted)
            as (Hb & Hp & _ & He & _).
          rewrite Hb, Hp, He. repeat split; [exact Haccepted].
        - repeat split; exact Haccepted. }
      destruct Hg1 as (Hptr1 & Hbuf1 & Herr1).
      destruct (IH g1 Hptr1 Hbuf1) as (Hrun & Hp & Hb & He).
      repeat split; try assumption.
      rewrite He. destruct frames; [exact Herr1 | reflexivity]. }
  destruct Hstrong as (Hrun & Hp & Hb & He).
  repeat split; try assumption.
  intros Hne. rewrite He. destruct frames; [contradiction | reflexivity].
Qed.

(** SET_ILLUMINATION for the 405 nm laser followed by TURN_ON_ILLUMINATION,
    read in one block: the laser line ends up HIGH. *)
Lemma commands_handled_in_order_witness :
  let frames :=
    [command_frame 1 SET_ILLUMINATION [ILLUMINATION_SOURCE_405NM; 0x12; 0x34; 0; 0];
     command_frame 2 TURN_ON_ILLUMINATION [0; 0; 0; 0; 0]] in
  Forall well_formed_command frames
  /\ process_serial_message (init_callbacks power_on) (concat frames)
     = fold_left process_serial_message frames (init_callbacks power_on)
  /\ pin_level LASER_405nm
       (hardware (process_serial_message (init_callbacks power_on)
                    (concat frames))) = Some HIGH.
Proof.
  cbv zeta.
  assert (Hall : Forall well_formed_command
                   [command_frame 1 SET_ILLUMINATION
                      [ILLUMINATION_SOURCE_405NM; 0x12; 0x34; 0; 0];
                    command_frame 2 TURN_ON_ILLUMINATION [0; 0; 0; 0; 0]]).
  { apply Forall_cons; split; [| apply Forall_cons; split;
                                   [| apply Forall_nil; exact I]];
      (apply command_frame_well_formed;
       [vm_compute; split; [discriminate | reflexivity]
       | vm_compute; split; [discriminate | reflexivity]
       | repeat (apply Forall_cons; split;
                 [vm_compute; split; [discriminate | reflexivity] |]);
         apply Forall_nil; exact I
       | reflexivity]). }
  split; [exact Hall |].
  split.
  - apply (commands_handled_in_order _ (init_callbacks power_on)
             eq_refl eq_refl Hall).
  - vm_compute. reflexivity.
Defined.

(** X12.  Whatever bytes arrive, [buffer_rx_ptr] stays within 0..7, so every
    store lands in the first eight of the 512 bytes of [buffer_rx] and the
    other 504 are never written; the callback table is not changed, and
    receiving never writes to the serial port. *)
Theorem receive_buffer_invariant g input :
  0 <= buffer_rx_ptr g < CMD_LENGTH ->
  length (buffer_rx g) = 512%nat ->
  let g1 := process_serial_message g input in
  0 <= buffer_rx_ptr g1 < CMD_LENGTH
  /\ length (buffer_rx g1) = 512%nat
  /\ drop 8 (buffer_rx g1) = drop 8 (buffer_rx g)
  /\ cmd_map g1 = cmd_map g
  /\ SerialUSB_written g1 = SerialUSB_written g.
Proof.
  intros Hptr Hbuf. cbv zeta.
  apply (process_serial_message_ind
           (fun g1 =>
              0 <= buffer_rx_ptr g1 < CMD_LENGTH
              /\ length (buffer_rx g1) = 512%nat
              /\ drop 8 (buffer_rx g1) = drop 8 (buffer_rx g)
              /\ cmd_map g1 = cmd_map g
              /\ SerialUSB_written g1 = SerialUSB_written g)).
  - intros g1 c (Hp & Hb & Hd & Hm & Hw).
    cbn [buffer_rx buffer_rx_ptr cmd_map SerialUSB_written with_rx].
    unfold CMD_LENGTH in *.
    split; [destruct (Z.eqb_spec (buffer_rx_ptr g1 + 1) 8); lia |].
    split; [rewrite length_insert; exact Hb |].
    split; [| split; assumption].
    rewrite drop_insert_lt by lia. exact Hd.
  - intros g1 id error H. exact H.
  - intros callback g1 (Hp & Hb & Hd & Hm & Hw).
    destruct (invoke_keeps callback g1) as (-> & -> & -> & _ & _ & ->).
    repeat split; assumption || apply Hp.
  - repeat split; (reflexivity || assumption || apply Hptr).
Qed.

(** Eleven bytes, the first eight of them [move_x_frame], read from power
    on: three bytes of the next command are pending. *)
Lemma receive_buffer_invariant_witness :
  (0 <= buffer_rx_ptr (init_callbacks power_on) < CMD_LENGTH)
  /\ buffer_rx_ptr
       (process_serial_message (init_callbacks power_on)
          (move_x_frame ++ [7; 8; 9])) = 3
  /\ drop 8 (buffer_rx
               (process_serial_message (init_callbacks power_on)
                  (move_x_frame ++ [7; 8; 9])))
     = replicate 504 0.
Proof.
  assert (Hptr : 0 <= buffer_rx_ptr (init_callbacks power_on) < CMD_LENGTH)
    by (vm_compute; split; [discriminate | reflexivity]).
  split; [exact Hptr |].
  destruct (receive_buffer_invariant (init_callbacks power_on)
              (move_x_frame ++ [7; 8; 9]) Hptr eq_refl)
    as (_ & _ & Hdrop & _).
  split; [vm_compute; reflexivity | exact Hdrop].
Defined.

(** The laser line of a source is one of the five laser pins. *)
Lemma laser_pin_is_laser source pin :
  laser_pin source = Some pin -> In pin laser_pins.
Proof.
  unfold laser_pin, laser_pins. intros H.
  repeat match type of H with
         | (if ?c then _ else _) = _ => destruct c
         end;
    inversion H; subst; cbn [In]; tauto.
Qed.

Lemma laser_pins_range pin : In pin laser_pins -> 1 <= pin <= 5.
Proof.
  unfold laser_pins, LASER_405nm, LASER_488nm, LASER_561nm, LASER_638nm,
    LASER_730nm.
  cbn [In]. lia.
Qed.

(** One more write to a pin. *)
Lemma pin_level_write pin other level ops :
  pin_level pin (ops ++ [digitalWrite other level])
  = if other =? pin then Some level else pin_level pin ops.
Proof.
  rewrite pin_level_app. unfold pin_level at 1. cbn [fold_left].
  destruct (other =? pin); reflexivity.
Qed.

(** X13.  After [init_laser_pins], after [turn_off_all_lasers] and after the
    INITIALIZE callback every one of the five laser lines is LOW, whatever
    was driven before.  INITIALIZE also clears source, intensity and the on
    flag, keeps the intensity factor and [cmd_id], and leaves the chip
    select of the DAC HIGH. *)
Theorem lasers_switched_off g :
  Forall (fun pin =>
            pin_level pin (hardware (init_laser_pins g)) = Some LOW
            /\ pin_level pin (hardware (turn_off_all_lasers g)) = Some LOW
            /\ pin_level pin (hardware (invoke callback_initialize g))
               = Some LOW) laser_pins
  /\ pin_level DAC8050x_CS_pin (hardware (invoke callback_initialize g))
     = Some HIGH
  /\ (illumination_source (invoke callback_initialize g),
      illumination_intensity (invoke callback_initialize g),
      illumination_is_on (invoke callback_initialize g)) = (0, 0, false)
  /\ illumination_intensity_factor (invoke callback_initialize g)
     = illumination_intensity_factor g
  /\ cmd_id (invoke callback_initialize g) = cmd_id g.
Proof.
  split.
  - unfold laser_pins.
    repeat (apply Forall_cons; split; [| try (apply Forall_nil; exact I)]);
      (split; [| split]);
      cbn [invoke]; unfold init_laser_pins, init_dac, set_dac_gain,
        turn_off_all_lasers; cbn [hardware hw with_illumination];
      rewrite !pin_level_app; reflexivity.
  - split; [| repeat split].
    cbn [invoke]. unfold init_dac, set_dac_gain, turn_off_all_lasers.
    cbn [hardware hw with_illumination].
    rewrite !pin_level_app. reflexivity.
Qed.

(** X14.  A well-formed RESET command switches every laser line LOW and
    clears source, intensity and the on flag.  It also sets [cmd_id] to 0
    after the frame's identifier was stored, so the position update that
    acknowledges the RESET carries identifier 0 and not the identifier the
    host sent. *)
Theorem reset_command g id data :
  buffer_rx_ptr g = 0 ->
  length (buffer_rx g) = 512%nat ->
  is_u8 id -> Forall is_u8 data -> length data = 5%nat ->
  cmd_map g !!! Z.to_nat RESET = Some callback_reset ->
  let g1 := process_serial_message g (command_frame id RESET data) in
  Forall (fun pin => pin_level pin (hardware g1) = Some LOW) laser_pins
  /\ (illumination_source g1, illumination_intensity g1,
      illumination_is_on g1) = (0, 0, false)
  /\ illumination_intensity_factor g1 = illumination_intensity_factor g
  /\ cmd_id g1 = 0
  /\ checksum_error g1 = false
  /\ forall t,
       interval_send_pos_update < t ->
       exists packet,
         SerialUSB_written (send_position_update (with_timer t g1))
         = SerialUSB_written g ++ [packet]
         /\ packet !!! 0%nat = 0
         /\ packet !!! 1%nat = COMPLETED_WITHOUT_ERRORS.
Proof.
  intros Hptr Hbuf Hid Hdata Hfive Hreset g1.
  assert (Hframe : well_formed_command (command_frame id RESET data))
    by (apply command_frame_well_formed;
        [exact Hid | unfold is_u8, RESET; lia | exact Hdata | exact Hfive]).
  assert (Htype : command_frame id RESET data !!! 1%nat = RESET)
    by (unfold command_frame; cbv zeta;
        generalize (crc8ccitt ([id; RESET] ++ data) 7); reflexivity).
  pose proof (well_formed_command_dispatched g _ [] Hptr Hbuf Hframe) as Hrun.
  rewrite app_nil_r in Hrun. cbv zeta in Hrun.
  rewrite Htype, Hreset in Hrun. cbn [process_serial_message] in Hrun.
  subst g1. rewrite Hrun. clear Hrun.
  split.
  - unfold laser_pins.
    repeat (apply Forall_cons; split; [| try (apply Forall_nil; exact I)]);
      cbn [invoke]; unfold turn_off_all_lasers;
      cbn [hardware hw with_illumination with_cmd with_rx];
      rewrite !pin_level_app; reflexivity.
  - repeat (split; [reflexivity |]).
    intros t Ht. rewrite position_update_due by exact Ht. cbv zeta.
    eexists. split; [reflexivity |]. split; reflexivity.
Qed.

(** RESET with identifier 0x2A, after the 405 nm laser was switched on. *)
Lemma reset_command_witness :
  let lit :=
    process_serial_message (init_callbacks power_on)
      (command_frame 1 SET_ILLUMINATION [ILLUMINATION_SOURCE_405NM; 0; 9; 0; 0]
       ++ command_frame 2 TURN_ON_ILLUMINATION [0; 0; 0; 0; 0]) in
  (buffer_rx_ptr lit = 0 /\ is_u8 0x2A
   /\ cmd_map lit !!! Z.to_nat RESET = Some callback_reset
   /\ pin_level LASER_405nm (hardware lit) = Some HIGH)
  /\ pin_level LASER_405nm
       (hardware
          (process_serial_message lit (command_frame 0x2A RESET [0; 0; 0; 0; 0])))
     = Some LOW
  /\ cmd_id (process_serial_message lit (command_frame 0x2A RESET [0; 0; 0; 0; 0]))
     = 0.
Proof.
  cbv zeta.
  split; [repeat split; vm_compute; try reflexivity; discriminate |].
  set (lit := process_serial_message _ _).
  assert (Hu8 : is_u8 0x2A) by (unfold is_u8; lia).
  assert (Hdata : Forall is_u8 [0; 0; 0; 0; 0])
    by (repeat (apply Forall_cons; split; [unfold is_u8; lia |]);
        apply Forall_nil; exact I).
  destruct (reset_command lit 0x2A [0; 0; 0; 0; 0])
    as (Hlasers & _ & _ & Hcmd & _);
    [vm_compute; reflexivity | vm_compute; reflexivity | exact Hu8 | exact Hdata
    | reflexivity | vm_compute; reflexivity |].
  split; [| exact Hcmd].
  apply Forall_cons in Hlasers as [Hfirst _]. exact Hfirst.
Defined.

(** What switching does to the pins when the source has a laser line. *)
Lemma laser_line_steps g pin :
  laser_pin (illumination_source g) = Some pin ->
  illumination_is_on (turn_on_illumination g) = true
  /\ illumination_source (turn_on_illumination g) = illumination_source g
  /\ hardware (turn_on_illumination g)
     = hardware g ++ [digitalWrite pin HIGH]
  /\ hardware (turn_off_illumination (turn_on_illumination g))
     = (hardware g ++ [digitalWrite pin HIGH]) ++ [digitalWrite pin LOW].
Proof.
  intros Hpin. unfold turn_on_illumination, turn_off_illumination.
  cbn [illumination_source with_illumination]. rewrite Hpin.
  cbn [illumination_source with_illumination hw]. rewrite Hpin.
  repeat split.
Qed.

(** X15.  [turn_on_illumination] sets the on flag and [turn_off_illumination]
    clears it, whatever the source is.  When the current source has a laser
    line, that line and no other pin is driven HIGH, respectively LOW; for
    any other source (an LED matrix pattern, say) no pin is driven at all,
    although the flag still changes. *)
Theorem illumination_switching g :
  let on := turn_on_illumination g in
  let off := turn_off_illumination g in
  illumination_is_on on = true
  /\ illumination_is_on off = false
  /\ (illumination_source on, illumination_intensity on,
      illumination_intensity_factor on)
     = (illumination_source g, illumination_intensity g,
        illumination_intensity_factor g)
  /\ (illumination_source off, illumination_intensity off,
      illumination_intensity_factor off)
     = (illumination_source g, illumination_intensity g,
        illumination_intensity_factor g)
  /\ match laser_pin (illumination_source g) with
     | Some pin =>
         In pin laser_pins
         /\ pin_level pin (hardware on) = Some HIGH
         /\ pin_level pin (hardware off) = Some LOW
         /\ forall other,
              other <> pin ->
              pin_level other (hardware on) = pin_level other (hardware g)
              /\ pin_level other (hardware off) = pin_level other (hardware g)
     | None => hardware on = hardware g /\ hardware off = hardware g
     end.
Proof.
  cbv zeta. unfold turn_on_illumination, turn_off_illumination.
  cbn [illumination_source with_illumination].
  destruct (laser_pin (illumination_source g)) as [pin |] eqn:Hpin.
  - repeat (split; [reflexivity |]).
    split; [apply laser_pin_is_laser with (1 := Hpin) |].
    cbn [hardware hw with_illumination].
    rewrite !pin_level_write, Z.eqb_refl.
    repeat (split; [reflexivity |]).
    intros other Hother. rewrite !pin_level_write.
    destruct (Z.eqb_spec pin other); [congruence | split; reflexivity].
  - repeat split.
Qed.

(** The DAC writes of [set_dac_output] and [set_dac_gain] drive no laser
    line. *)
Lemma dac_write_keeps_lasers pin g :
  In pin laser_pins ->
  (forall channel value,
      pin_level pin (hardware (set_dac_output channel value g))
      = pin_level pin (hardware g))
  /\ (forall div gains,
         pin_level pin (hardware (set_dac_gain div gains g))
         = pin_level pin (hardware g)).
Proof.
  intros Hpin. apply laser_pins_range in Hpin.
  assert (Hcs : (DAC8050x_CS_pin =? pin) = false)
    by (apply Z.eqb_neq; unfold DAC8050x_CS_pin; lia).
  split; intros; unfold set_dac_output, set_dac_gain; cbn [hardware hw];
    rewrite pin_level_app; unfold pin_level at 1; cbn [fold_left];
    rewrite Hcs; reflexivity.
Qed.

(** X16.  While the illumination is on, [set_illumination] with a new laser
    source drives the new laser line HIGH and never drives the line of the
    previous source: that line stays HIGH, and a following
    [turn_off_illumination] switches off the new line only. *)
Theorem source_switch_keeps_previous_laser_on g source intensity old new :
  illumination_is_on g = true ->
  laser_pin (illumination_source g) = Some old ->
  pin_level old (hardware g) = Some HIGH ->
  laser_pin source = Some new ->
  new <> old ->
  let g1 := set_illumination source intensity g in
  illumination_source g1 = source
  /\ illumination_is_on g1 = true
  /\ pin_level new (hardware g1) = Some HIGH
  /\ pin_level old (hardware g1) = Some HIGH
  /\ pin_level new (hardware (turn_off_illumination g1)) = Some LOW
  /\ pin_level old (hardware (turn_off_illumination g1)) = Some HIGH.
Proof.
  intros Hon Hold Hhigh Hnew Hne g1.
  assert (Hold_pin : In old laser_pins)
    by (apply laser_pin_is_laser with (1 := Hold)).
  set (scaled := to_u16 (float_to_int
                           (float_mul (float_of_int intensity)
                              (illumination_intensity_factor g)))).
  set (stored := with_illumination source scaled
                   (illumination_intensity_factor g) (illumination_is_on g) g).
  set (written := match dac_channel source with
                  | Some channel => set_dac_output channel scaled stored
                  | None => stored
                  end).
  assert (Hwritten : illumination_source written = source
                     /\ illumination_is_on written = true
                     /\ pin_level old (hardware written) = Some HIGH).
  { subst written. destruct (dac_channel source) as [channel |].
    - destruct (dac_write_keeps_lasers old stored Hold_pin) as [Hout _].
      rewrite Hout. split; [reflexivity |]. split; [exact Hon | exact Hhigh].
    - split; [reflexivity |]. split; [exact Hon | exact Hhigh]. }
  destruct Hwritten as (Hsource & Hflag & Hkept).
  assert (Hg1 : g1 = turn_on_illumination written).
  { subst g1. unfold set_illumination. cbv zeta.
    fold scaled. fold stored. cbn [illumination_intensity with_illumination stored].
    change (illumination_intensity stored) with scaled.
    fold written. rewrite Hflag. reflexivity. }
  assert (Hlaser : laser_pin (illumination_source written) = Some new)
    by (rewrite Hsource; exact Hnew).
  destruct (laser_line_steps written new Hlaser)
    as (Hon1 & Hsrc1 & Hhw1 & Hoff).
  rewrite Hsource in Hsrc1. rewrite Hg1.
  split; [exact Hsrc1 |]. split; [exact Hon1 |].
  rewrite Hhw1, !pin_level_write, Z.eqb_refl.
  split; [reflexivity |].
  replace (new =? old) with false by (symmetry; apply Z.eqb_neq; exact Hne).
  split; [exact Hkept |].
  rewrite Hoff, !pin_level_write, Z.eqb_refl.
  replace (new =? old) with false by (symmetry; apply Z.eqb_neq; exact Hne).
  split; [reflexivity | exact Hkept].
Qed.

(** The 405 nm laser is on; the source is changed to 488 nm and the
    illumination is then switched off: the 405 nm line is still HIGH. *)
Lemma source_switch_keeps_previous_laser_on_witness :
  let g :=
    turn_on_illumination
      (set_illumination ILLUMINATION_SOURCE_405NM 1000 power_on) in
  (illumination_is_on g = true
   /\ laser_pin (illumination_source g) = Some LASER_405nm
   /\ pin_level LASER_405nm (hardware g) = Some HIGH
   /\ laser_pin ILLUMINATION_SOURCE_488NM = Some LASER_488nm
   /\ LASER_488nm <> LASER_405nm)
  /\ pin_level LASER_405nm
       (hardware
          (turn_off_illumination
             (set_illumination ILLUMINATION_SOURCE_488NM 500 g)))
     = Some HIGH.
Proof.
  cbv zeta.
  set (g := turn_on_illumination
              (set_illumination ILLUMINATION_SOURCE_405NM 1000 power_on)).
  assert (Hon : illumination_is_on g = true) by (vm_compute; reflexivity).
  assert (Hold : laser_pin (illumination_source g) = Some LASER_405nm)
    by (vm_compute; reflexivity).
  assert (Hhigh : pin_level LASER_405nm (hardware g) = Some HIGH)
    by (vm_compute; reflexivity).
  assert (Hnew : laser_pin ILLUMINATION_SOURCE_488NM = Some LASER_488nm)
    by reflexivity.
  assert (Hne : LASER_488nm <> LASER_405nm) by discriminate.
  split; [repeat split; assumption |].
  apply (source_switch_keeps_previous_laser_on g ILLUMINATION_SOURCE_488NM 500
           LASER_405nm LASER_488nm Hon Hold Hhigh Hnew Hne).
Defined.

(** No callback leaves the chip select of the DAC LOW. *)
Lemma invoke_releases_chip_select callback g :
  pin_level DAC8050x_CS_pin (hardware (invoke callback g)) = Some HIGH
  \/ pin_level DAC8050x_CS_pin (hardware (invoke callback g))
     = pin_level DAC8050x_CS_pin (hardware g).
Proof.
  assert (Hlaser : forall source pin level ops,
             laser_pin source = Some pin ->
             pin_level DAC8050x_CS_pin (ops ++ [digitalWrite pin level])
             = pin_level DAC8050x_CS_pin ops).
  { intros source pin level ops Hpin.
    apply laser_pin_is_laser, laser_pins_range in Hpin.
    rewrite pin_level_write.
    replace (pin =? DAC8050x_CS_pin) with false
      by (symmetry; apply Z.eqb_neq; unfold DAC8050x_CS_pin; lia).
    reflexivity. }
  assert (Hon : forall g0,
             pin_level DAC8050x_CS_pin (hardware (turn_on_illumination g0))
             = pin_level DAC8050x_CS_pin (hardware g0)).
  { intros g0. unfold turn_on_illumination.
    cbn [illumination_source with_illumination].
    destruct (laser_pin (illumination_source g0)) as [pin |] eqn:Hpin;
      [| reflexivity].
    cbn [hardware hw with_illumination].
    apply Hlaser with (1 := Hpin). }
  destruct callback; cbn [invoke].
  - right. apply Hon.
  - right. unfold turn_off_illumination.
    destruct (laser_pin (illumination_source g)) as [pin |] eqn:Hpin;
      [| reflexivity].
    cbn [hardware hw with_illumination].
    apply Hlaser with (1 := Hpin).
  - unfold set_illumination. cbv zeta.
    cbn [illumination_intensity illumination_is_on with_illumination].
    destruct (dac_channel _) as [channel |].
    + left.
      assert (Hout : forall value g0,
                 pin_level DAC8050x_CS_pin
                   (hardware (set_dac_output channel value g0)) = Some HIGH)
        by (intros; unfold set_dac_output; cbn [hardware hw];
            rewrite pin_level_app; reflexivity).
      destruct (illumination_is_on (set_dac_output _ _ _));
        [rewrite Hon |]; apply Hout.
    + right. cbn [illumination_is_on with_illumination].
      destruct (illumination_is_on g); [rewrite Hon |]; reflexivity.
  - right. reflexivity.
  - left. unfold set_dac_gain. cbn [hardware hw].
    rewrite pin_level_app. reflexivity.
  - left. unfold set_dac_output. cbn [hardware hw].
    rewrite pin_level_app. reflexivity.
  - left. unfold init_dac, set_dac_gain. cbn [hardware hw].
    rewrite pin_level_app. reflexivity.
  - right. unfold turn_off_all_lasers.
    cbn [hardware hw with_illumination with_cmd].
    rewrite pin_level_app. reflexivity.
Qed.

(** X17.  The chip select of the DAC is never left LOW: if it is not LOW
    before a read, it is not LOW after the read, whatever bytes arrive and
    whichever commands they make. *)
Theorem dac_chip_select_released g input :
  pin_level DAC8050x_CS_pin (hardware g) <> Some LOW ->
  pin_level DAC8050x_CS_pin (hardware (process_serial_message g input))
  <> Some LOW.
Proof.
  apply (process_serial_message_ind
           (fun g1 => pin_level DAC8050x_CS_pin (hardware g1) <> Some LOW)).
  - intros g1 c H. exact H.
  - intros g1 id error H. exact H.
  - intros callback g1 H.
    destruct (invoke_releases_chip_select callback g1) as [-> | ->];
      [discriminate | exact H].
Qed.

(** An analog write to DAC channel 3, from power on. *)
Lemma dac_chip_select_released_witness :
  pin_level DAC8050x_CS_pin (hardware (init_callbacks power_on)) <> Some LOW
  /\ pin_level DAC8050x_CS_pin
       (hardware
          (process_serial_message (init_callbacks power_on)
             (command_frame 5 ANALOG_WRITE_ONBOARD_DAC [3; 0x80; 0; 0; 0])))
     = Some HIGH.
Proof.
  assert (Hidle : pin_level DAC8050x_CS_pin
                    (hardware (init_callbacks power_on)) <> Some LOW)
    by (vm_compute; discriminate).
  split; [exact Hidle |].
  pose proof (dac_chip_select_released (init_callbacks power_on)
                (command_frame 5 ANALOG_WRITE_ONBOARD_DAC [3; 0x80; 0; 0; 0])
                Hidle) as Hreleased.
  destruct (pin_level DAC8050x_CS_pin
              (hardware
                 (process_serial_message (init_callbacks power_on)
                    (command_frame 5 ANALOG_WRITE_ONBOARD_DAC
                       [3; 0x80; 0; 0; 0]))))
    as [[|] |] eqn:Hlevel;
    [reflexivity | contradiction | vm_compute in Hlevel; discriminate].
Defined.

(** X18.  [init_callbacks] fills eight entries of a 256-entry callback table
    and leaves the other 248 as they were (null after power on); each of the
    eight commands gets the callback of its name, none of the eight
    assignments overwrites another, and running [init_callbacks] a second
    time changes nothing. *)
Theorem init_callbacks_table g :
  length (cmd_map g) = 256%nat ->
  let g1 := init_callbacks g in
  length (cmd_map g1) = 256%nat
  /\ (forall c,
         0 <= c < 256 ->
         cmd_map g1 !!! Z.to_nat c
         = if c =? TURN_ON_ILLUMINATION then Some callback_turn_on_illumination
           else if c =? TURN_OFF_ILLUMINATION
                then Some callback_turn_off_illumination
           else if c =? SET_ILLUMINATION then Some callback_set_illumination
           else if c =? SET_ILLUMINATION_INTENSITY_FACTOR
                then Some callback_set_illumination_intensity_factor
           else if c =? SET_DAC80508_REFDIV_GAIN then Some callback_set_dac_gain
           else if c =? ANALOG_WRITE_ONBOARD_DAC
                then Some callback_analog_write_dac
           else if c =? INITIALIZE then Some callback_initialize
           else if c =? RESET then Some callback_reset
           else cmd_map g !!! Z.to_nat c)
  /\ init_callbacks g1 = g1.
Proof.
  intros Hlen g1.
  assert (Hlen1 : length (cmd_map g1) = 256%nat)
    by (subst g1; unfold init_callbacks, register; cbn [cmd_map with_cmd_map];
        rewrite !length_insert; exact Hlen).
  assert (Htable : forall g0 c,
             length (cmd_map g0) = 256%nat ->
             0 <= c < 256 ->
             cmd_map (init_callbacks g0) !!! Z.to_nat c
             = if c =? TURN_ON_ILLUMINATION
               then Some callback_turn_on_illumination
               else if c =? TURN_OFF_ILLUMINATION
                    then Some callback_turn_off_illumination
               else if c =? SET_ILLUMINATION then Some callback_set_illumination
               else if c =? SET_ILLUMINATION_INTENSITY_FACTOR
                    then Some callback_set_illumination_intensity_factor
               else if c =? SET_DAC80508_REFDIV_GAIN
                    then Some callback_set_dac_gain
               else if c =? ANALOG_WRITE_ONBOARD_DAC
                    then Some callback_analog_write_dac
               else if c =? INITIALIZE then Some callback_initialize
               else if c =? RESET then Some callback_reset
               else cmd_map g0 !!! Z.to_nat c).
  { intros g0 c Htable Hc.
    unfold init_callbacks, register. cbn [cmd_map with_cmd_map].
    unfold TURN_ON_ILLUMINATION, TURN_OFF_ILLUMINATION, SET_ILLUMINATION,
      SET_ILLUMINATION_INTENSITY_FACTOR, SET_DAC80508_REFDIV_GAIN,
      ANALOG_WRITE_ONBOARD_DAC, INITIALIZE, RESET.
    repeat match goal with
           | |- context [if ?a =? ?b then _ else _] =>
               destruct (Z.eqb_spec a b); [subst c |]
           end;
      repeat (rewrite list_lookup_total_insert_ne by lia);
      try (rewrite list_lookup_total_insert_eq
            by (rewrite ?length_insert, Htable; lia));
      reflexivity. }
  split; [exact Hlen1 |].
  split; [intros c Hc; apply Htable; assumption |].
  assert (Hmap : cmd_map (init_callbacks g1) = cmd_map g1).
  { apply list_eq_same_length with (n := 256%nat);
      [exact Hlen1
      | unfold init_callbacks, register; cbn [cmd_map with_cmd_map];
        rewrite !length_insert; exact Hlen1 |].
    intros i x y Hi Hx Hy.
    assert (Hc : 0 <= Z.of_nat i < 256) by lia.
    pose proof (Htable g1 (Z.of_nat i) Hlen1 Hc) as Hagain.
    pose proof (Htable g (Z.of_nat i) Hlen Hc) as Hfirst.
    fold g1 in Hfirst. rewrite Nat2Z.id in Hagain, Hfirst.
    apply list_lookup_total_correct in Hx, Hy.
    rewrite <- Hx, <- Hy, Hagain.
    repeat match goal with
           | |- context [if ?a =? ?b then _ else _] =>
               destruct (Z.eqb_spec a b)
           end; try reflexivity;
      rewrite Hfirst;
      repeat match goal with
             | |- context [if ?a =? ?b then _ else _] =>
                 destruct (Z.eqb_spec a b)
             end; try reflexivity; contradiction. }
  clearbody g1. unfold init_callbacks in *.
  cbn [cmd_map with_cmd_map] in Hmap.
  rewrite Hmap. destruct g1; reflexivity.
Qed.

(** The table after power on: SET_ILLUMINATION has its callback, MOVE_X
    (command 0) has none. *)
Lemma init_callbacks_table_witness :
  length (cmd_map power_on) = 256%nat
  /\ cmd_map (init_callbacks power_on) !!! Z.to_nat SET_ILLUMINATION
     = Some callback_set_illumination
  /\ cmd_map (init_callbacks power_on) !!! Z.to_nat 0 = None.
Proof.
  split; [reflexivity |].
  destruct (init_callbacks_table power_on eq_refl) as (_ & Htable & _).
  split.
  - rewrite (Htable SET_ILLUMINATION) by (unfold SET_ILLUMINATION; lia).
    reflexivity.
  - rewrite (Htable 0) by lia. reflexivity.
Defined.

(** A message followed by its CRC-8 has CRC-8 zero. *)
Lemma crc8_of_checked body :
  crc8ccitt (body ++ [crc8ccitt body (Z.of_nat (length body))])
    (Z.of_nat (length body) + 1) = 0.
Proof.
  replace (Z.of_nat (length body) + 1)
    with (Z.of_nat (length (body ++ [crc8ccitt body (Z.of_nat (length body))])))
    by (rewrite length_app; cbn [length]; lia).
  rewrite !crc8ccitt_whole, fold_left_app. cbn [fold_left].
  unfold crc8_byte. rewrite Z.lxor_nilpotent. reflexivity.
Qed.

(** X19.  [send_position_update] does nothing until the timer has passed
    [interval_send_pos_update].  Once it has, exactly one 24-byte packet is
    written: byte 0 is [cmd_id], byte 1 is [CMD_CHECKSUM_ERROR] if the last
    command failed its CRC and [COMPLETED_WITHOUT_ERRORS] otherwise, bytes
    2..22 are zero and byte 23 makes the CRC-8 of the whole packet zero.
    The timer restarts from zero, so an immediate second call sends nothing;
    [cmd_id] and [checksum_error] are not cleared by sending. *)
Theorem position_update_packet g :
  is_u8 (cmd_id g) ->
  let g1 := send_position_update g in
  (us_since_last_pos_update g <= interval_send_pos_update -> g1 = g)
  /\ (interval_send_pos_update < us_since_last_pos_update g ->
      exists packet,
        SerialUSB_written g1 = SerialUSB_written g ++ [packet]
        /\ buffer_tx g1 = packet
        /\ Z.of_nat (length packet) = MSG_LENGTH
        /\ Forall is_u8 packet
        /\ packet !!! 0%nat = cmd_id g
        /\ packet !!! 1%nat
           = (if checksum_error g then CMD_CHECKSUM_ERROR
              else COMPLETED_WITHOUT_ERRORS)
        /\ take 21 (drop 2 packet) = replicate 21 0
        /\ crc8ccitt packet MSG_LENGTH = 0
        /\ us_since_last_pos_update g1 = 0
        /\ send_position_update g1 = g1
        /\ (cmd_id g1, checksum_error g1) = (cmd_id g, checksum_error g)
        /\ hardware g1 = hardware g).
Proof.
  intros Hid g1. split.
  - intros Hearly. subst g1. unfold send_position_update.
    replace (interval_send_pos_update <? us_since_last_pos_update g) with false
      by (symmetry; apply Z.ltb_ge; exact Hearly).
    reflexivity.
  - intros Hdue. subst g1. rewrite position_update_due by exact Hdue.
    cbv zeta.
    set (status := if checksum_error g then CMD_CHECKSUM_ERROR
                   else COMPLETED_WITHOUT_ERRORS).
    set (reply := [cmd_id g; status] ++ replicate 21 0).
    assert (Hstatus : is_u8 status)
      by (subst status; destruct (checksum_error g);
          unfold is_u8, CMD_CHECKSUM_ERROR, COMPLETED_WITHOUT_ERRORS; lia).
    assert (Hcrc : is_u8 (crc8ccitt reply 23)) by apply crc8ccitt_range.
    exists (reply ++ [crc8ccitt reply 23]).
    split; [reflexivity |]. split; [reflexivity |].
    split; [reflexivity |].
    split.
    { apply Forall_app; split;
        [| apply Forall_cons; split; [exact Hcrc | apply Forall_nil; exact I]].
      subst reply. apply Forall_app; split.
      - apply Forall_cons; split; [exact Hid |].
        apply Forall_cons; split; [exact Hstatus | apply Forall_nil; exact I].
      - apply Forall_replicate. unfold is_u8. lia. }
    split; [generalize (crc8ccitt reply 23); reflexivity |].
    split; [generalize (crc8ccitt reply 23); reflexivity |].
    split; [generalize (crc8ccitt reply 23); reflexivity |].
    split; [apply (crc8_of_checked reply) |].
    split; [reflexivity |].
    split; [| split; reflexivity].
    generalize (reply ++ [crc8ccitt reply 23]). intros packet.
    unfold send_position_update.
    cbn [us_since_last_pos_update transmit with_timer].
    reflexivity.
Qed.

(** The update that follows a command with a bad CRC, identifier 0x2A,
    10.001 ms after the previous update. *)
Lemma position_update_packet_witness :
  let g :=
    with_timer 10001
      (process_serial_message (init_callbacks power_on)
         [0x2A; 0; 0; 0; 0x10; 0; 0; 0]) in
  (is_u8 (cmd_id g) /\ interval_send_pos_update < us_since_last_pos_update g)
  /\ SerialUSB_written (send_position_update g)
     = [[0x2A; CMD_CHECKSUM_ERROR] ++ replicate 21 0 ++ [0x47]].
Proof.
  cbv zeta.
  set (g := with_timer 10001 _).
  assert (Hid : is_u8 (cmd_id g))
    by (vm_compute; split; [discriminate | reflexivity]).
  assert (Hdue : interval_send_pos_update < us_since_last_pos_update g)
    by reflexivity.
  split; [split; assumption |].
  destruct (position_update_packet g Hid) as [_ Hsent].
  destruct (Hsent Hdue) as (packet & Hwritten & Htx & _).
  rewrite Hwritten, <- Htx. vm_compute. reflexivity.
Defined.

End TtlOnly_commands.

(** ** The strobe handler as a whole *)

Section Strobe_extras.

Import Strobe.

Local Abbreviation body := (fun acc ch => strobe_channel ch acc).

Local Ltac unfold_steps :=
  repeat
    (progress
       (cbn [channels illumination_is_on clock actions elapses
             trigger_output_level control_strobe strobe_output_level strobe_on
             strobe_delay illumination_on_time timestamp_trigger_rising_edge
             with_channels set_control_strobe set_strobe_output_level
             turn_on_illumination turn_off_illumination delayMicroseconds];
        rewrite ?pass_channels, ?pass_actions)).

(** Writing [false] makes no entry [true]. *)
Lemma insert_false_true (l : list bool) j ch :
  <[j := false]> l !!! ch = true -> l !!! ch = true.
Proof.
  destruct (decide (j = ch)) as [-> | Hne].
  - destruct (decide (ch < length l)%nat) as [Hin | Hout].
    + rewrite list_lookup_total_insert_eq by exact Hin. discriminate.
    + rewrite list_insert_ge by lia. tauto.
  - rewrite list_lookup_total_insert_ne by exact Hne. tauto.
Qed.

(** One pass of the loop body arms nothing. *)
Lemma strobe_channel_disarms j ch s :
  control_strobe (channels (strobe_channel j s)) !!! ch = true ->
  control_strobe (channels s) !!! ch = true.
Proof.
  destruct (strobe_channel_cases j s)
    as [H | [H | [[_ H] | [H | [H | [H | H]]]]]];
    rewrite H; unfold_steps; try tauto; apply insert_false_true.
Qed.

(** A channel that is not armed is left alone by every pass. *)
Lemma strobe_channel_unarmed j ch s :
  control_strobe (channels s) !!! ch = false ->
  kept ch s (strobe_channel j s).
Proof.
  intros Hoff. destruct (decide (j = ch)) as [-> | Hne].
  - unfold strobe_channel. rewrite Hoff. apply kept_refl.
  - apply strobe_channel_kept. exact Hne.
Qed.

Lemma loop_disarms ch l : forall s,
  control_strobe (channels (fold_left body l s)) !!! ch = true ->
  control_strobe (channels s) !!! ch = true.
Proof.
  induction l as [| j l IH]; intros s; cbn [fold_left]; [tauto |].
  intros H. apply (strobe_channel_disarms j), IH, H.
Qed.

Lemma loop_unarmed ch l : forall s,
  control_strobe (channels s) !!! ch = false ->
  kept ch s (fold_left body l s).
Proof.
  induction l as [| j l IH]; intros s Hoff; cbn [fold_left].
  - apply kept_refl.
  - pose proof (strobe_channel_unarmed j ch s Hoff) as Hstep.
    eapply kept_trans; [exact Hstep |].
    apply IH. destruct Hstep as [Hctl _]. rewrite Hctl. exact Hoff.
Qed.

(** X20.  The strobe handler never arms a channel: a channel that is armed
    after a tick was armed before it.  A channel that is not armed keeps its
    [control_strobe] and [strobe_output_level] entries, whatever the other
    channels do in the same tick; delays, on-times, trigger timestamps,
    [trigger_output_level] and [strobe_on] are only read.  When no channel is
    armed the handler changes nothing and drives nothing. *)
Theorem handler_only_disarms s :
  let done := ISR_strobeTimer s in
  steady s done
  /\ (forall ch,
         control_strobe (channels done) !!! ch = true ->
         control_strobe (channels s) !!! ch = true)
  /\ (forall ch,
         control_strobe (channels s) !!! ch = false ->
         kept ch s done)
  /\ ((forall ch, (ch < 6)%nat -> control_strobe (channels s) !!! ch = false) ->
      done = s).
Proof.
  cbv zeta. unfold ISR_strobeTimer, strobe_channels_upto.
  split; [apply loop_steady |].
  split; [intros ch; apply loop_disarms |].
  split; [intros ch; apply loop_unarmed |].
  intros Hnone. apply unarmed_prefix.
  intros j Hj. apply in_seq in Hj. apply Hnone. lia.
Qed.

(** [s1] comes after [s] with busy-waits of at most [bound] microseconds. *)
Local Abbreviation blocked bound s s1 :=
  (exists more passed,
      reached s s1 more passed /\ 0 <= busy_wait_total more <= bound).

Lemma busy_wait_total_app a b :
  busy_wait_total (a ++ b) = busy_wait_total a + busy_wait_total b.
Proof.
  induction a as [| call a IH]; cbn [app busy_wait_total fold_right];
    [reflexivity |].
  fold (busy_wait_total (a ++ b)). fold (busy_wait_total a).
  rewrite IH. destruct call; lia.
Qed.

Lemma time_passed_app a b :
  time_passed (a ++ b) = time_passed a + time_passed b.
Proof.
  induction a as [| d a IH]; cbn [app time_passed fold_right];
    [reflexivity |].
  fold (time_passed (a ++ b)). fold (time_passed a). rewrite IH. lia.
Qed.

Lemma blocked_refl s : blocked 0 s s.
Proof.
  exists [], []. unfold reached. cbn [busy_wait_total time_passed fold_right app].
  rewrite app_nil_r. repeat split; lia.
Qed.

Lemma blocked_trans b1 b2 s s1 s2 :
  blocked b1 s s1 -> blocked b2 s1 s2 -> blocked (b1 + b2) s s2.
Proof.
  intros (m1 & p1 & (Ha1 & He1 & Hc1) & Hb1) (m2 & p2 & (Ha2 & He2 & Hc2) & Hb2).
  exists (m1 ++ m2), (p1 ++ p2). unfold reached.
  rewrite busy_wait_total_app, time_passed_app.
  split; [| lia].
  split; [rewrite Ha2, Ha1, app_assoc; reflexivity |].
  split; [rewrite He1, He2, app_assoc; reflexivity | lia].
Qed.

Lemma blocked_pass s : blocked 0 s (pass s).
Proof.
  unfold pass. destruct (elapses s) as [| d rest] eqn:Hd;
    [apply blocked_refl |].
  exists [], [d]. unfold reached.
  cbn [actions elapses clock busy_wait_total time_passed fold_right app].
  rewrite app_nil_r, Hd. repeat split; lia.
Qed.

(** The calls of the handler, one at a time. *)
Lemma blocked_calls s :
  blocked 0 s (turn_on_illumination s)
  /\ blocked 0 s (turn_off_illumination s)
  /\ (forall ch v, blocked 0 s (set_control_strobe ch v s))
  /\ (forall ch v, blocked 0 s (set_strobe_output_level ch v s))
  /\ (forall usec, blocked (to_u32 usec) s (delayMicroseconds usec s)).
Proof.
  assert (Hu32 : forall usec, 0 <= to_u32 usec)
    by (intros usec; unfold to_u32; apply Z.mod_pos_bound; lia).
  split; [| split; [| split; [| split]]].
  - exists [IlluminationOn], []. unfold reached. cbn. repeat split; lia.
  - exists [IlluminationOff], []. unfold reached. cbn. repeat split; lia.
  - intros ch v. exists [], []. unfold reached. cbn.
    rewrite app_nil_r. repeat split; lia.
  - intros ch v. exists [], []. unfold reached. cbn.
    rewrite app_nil_r. repeat split; lia.
  - intros usec. exists [BusyWait usec], []. unfold reached.
    cbn [actions elapses clock delayMicroseconds busy_wait_total time_passed
         fold_right app].
    specialize (Hu32 usec). repeat split; lia.
Qed.

Lemma blocked_weaken b1 b2 s s1 : blocked b1 s s1 -> b1 <= b2 -> blocked b2 s s1.
Proof.
  intros (more & passed & Hreached & Hb) Hle.
  exists more, passed. split; [exact Hreached | lia].
Qed.

(** One pass of the loop body busy-waits for at most 30 ms. *)
Lemma strobe_channel_blocking ch s :
  0 <= illumination_on_time (channels s) !!! ch ->
  blocked 30000 s (strobe_channel ch s).
Proof.
  intros Hpos.
  assert (Hon : forall x, blocked 0 x (turn_on_illumination x))
    by (intros x; apply blocked_calls).
  assert (Hoff : forall x, blocked 0 x (turn_off_illumination x))
    by (intros x; apply blocked_calls).
  assert (Hctl : forall x c v, blocked 0 x (set_control_strobe c v x))
    by (intros x; apply blocked_calls).
  assert (Hlvl : forall x c v, blocked 0 x (set_strobe_output_level c v x))
    by (intros x; apply blocked_calls).
  assert (Hwait : forall x usec,
             blocked (to_u32 usec) x (delayMicroseconds usec x))
    by (intros x; apply blocked_calls).
  destruct (strobe_channel_cases ch s)
    as [H | [H | [[Hshort H] | [H | [H | [H | H]]]]]]; rewrite H.
  - apply blocked_weaken with (b1 := 0); [apply blocked_refl | lia].
  - apply blocked_weaken with (b1 := 0); [apply blocked_pass | lia].
  - apply blocked_weaken
      with (b1 := 0 + (0 + (to_u32 (illumination_on_time (channels s) !!! ch)
                            + (0 + 0)))).
    + eapply blocked_trans; [apply blocked_pass |].
      eapply blocked_trans; [apply Hon |].
      eapply blocked_trans; [apply Hwait |].
      eapply blocked_trans; [apply Hoff | apply Hctl].
    + unfold to_u32. rewrite Z.mod_small by lia. lia.
  - apply blocked_weaken with (b1 := 0 + 0); [| lia].
    eapply blocked_trans; apply blocked_pass.
  - apply blocked_weaken with (b1 := 0 + (0 + (0 + 0))); [| lia].
    eapply blocked_trans; [apply blocked_pass |].
    eapply blocked_trans; [apply Hon |].
    eapply blocked_trans; [apply Hlvl | apply blocked_pass].
  - apply blocked_weaken with (b1 := 0 + (0 + (0 + (0 + (0 + (0 + 0))))));
      [| lia].
    eapply blocked_trans; [apply blocked_pass |].
    eapply blocked_trans; [apply Hon |].
    eapply blocked_trans; [apply Hlvl |].
    eapply blocked_trans; [apply blocked_pass |].
    eapply blocked_trans; [apply Hoff |].
    eapply blocked_trans; [apply Hlvl | apply Hctl].
  - apply blocked_weaken with (b1 := 0 + (0 + (0 + (0 + 0)))); [| lia].
    eapply blocked_trans; [apply blocked_pass |].
    eapply blocked_trans; [apply blocked_pass |].
    eapply blocked_trans; [apply Hoff |].
    eapply blocked_trans; [apply Hlvl | apply Hctl].
Qed.

Lemma loop_blocking l : forall s,
  (forall j, In j l -> 0 <= illumination_on_time (channels s) !!! j) ->
  blocked (30000 * Z.of_nat (length l)) s (fold_left body l s).
Proof.
  induction l as [| j l IH]; intros s Hpos; cbn [fold_left length].
  - apply blocked_refl.
  - pose proof (strobe_channel_blocking j s (Hpos j (or_introl eq_refl)))
      as Hstep.
    destruct (strobe_channel_steady j s) as (_ & _ & _ & Hon & _).
    assert (Hrest : forall k, In k l ->
              0 <= illumination_on_time (channels (strobe_channel j s)) !!! k)
      by (intros k Hk; rewrite Hon; apply Hpos; right; exact Hk).
    apply blocked_weaken
      with (b1 := 30000 + 30000 * Z.of_nat (length l)); [| lia].
    eapply blocked_trans; [exact Hstep | apply IH; exact Hrest].
Qed.

(** X21.  A tick of the strobe handler blocks for at most 6 x 30 ms: with
    on-times that are not negative, the busy-waits of one tick add up to at
    most 180000 microseconds.  The clock advances by these busy-waits and
    by the time that passes at the handler's reads of [micros()]; when no
    such time passes it stands at most 180000 microseconds later, and it
    never runs backwards. *)
Theorem handler_blocking_time s :
  (forall ch, (ch < 6)%nat -> 0 <= illumination_on_time (channels s) !!! ch) ->
  let done := ISR_strobeTimer s in
  exists more passed,
    actions done = actions s ++ more
    /\ elapses s = passed ++ elapses done
    /\ clock done = clock s + busy_wait_total more + time_passed passed
    /\ 0 <= busy_wait_total more <= 180000
    /\ (elapses s = [] -> clock s <= clock done <= clock s + 180000)
    /\ (Forall (fun d => 0 <= d) (elapses s) -> clock s <= clock done).
Proof.
  intros Hpos. cbv zeta. unfold ISR_strobeTimer, strobe_channels_upto.
  destruct (loop_blocking (seq 0 6) s)
    as (more & passed & (Hactions & Helapses & Hclock) & Hbound).
  { intros j Hj. apply Hpos. cbn [In seq] in Hj. lia. }
  cbn [length seq] in Hbound.
  exists more, passed.
  split; [exact Hactions |]. split; [exact Helapses |].
  split; [exact Hclock |]. split; [lia |].
  split.
  - intros Hnone. rewrite Hnone in Helapses.
    symmetry in Helapses. apply app_eq_nil in Helapses as [-> _].
    cbn [time_passed fold_right] in Hclock. lia.
  - intros Hforward. rewrite Helapses in Hforward.
    apply Forall_app in Hforward as [Hpassed _].
    assert (Hsum : 0 <= time_passed passed).
    { clear - Hpassed. induction Hpassed as [| d rest Hd _ IH];
        cbn [time_passed fold_right]; [lia |].
      fold (time_passed rest). lia. }
    lia.
Qed.

(** The tick of [two_pulses_armed]: channel 0 busy-waits 30 ms, channel 1
    starts a long pulse without waiting. *)
Lemma handler_blocking_time_witness :
  (forall ch, (ch < 6)%nat ->
     0 <= illumination_on_time (channels two_pulses_armed) !!! ch)
  /\ clock (ISR_strobeTimer two_pulses_armed) = clock two_pulses_armed + 30000
  /\ clock two_pulses_armed <= clock (ISR_strobeTimer two_pulses_armed)
     <= clock two_pulses_armed + 180000.
Proof.
  assert (Hpos : forall ch, (ch < 6)%nat ->
            0 <= illumination_on_time (channels two_pulses_armed) !!! ch).
  { intros ch Hch.
    do 6 (destruct ch as [| ch]; [vm_compute; discriminate |]). lia. }
  split; [exact Hpos |].
  split; [vm_compute; reflexivity |].
  destruct (handler_blocking_time two_pulses_armed Hpos)
    as (more & passed & _ & _ & _ & _ & Hquiet & _).
  apply Hquiet. reflexivity.
Defined.

End Strobe_extras.

(** ** The LED array *)

Section LedArray_extras.

Import LedArray.

Local Abbreviation colour r g b := {| red := r; green := g; blue := b |}.

Lemma setRGB_in_bounds matrix i r g b :
  0 <= i < Z.of_nat (length matrix) ->
  setRGB matrix i r g b = Some (<[Z.to_nat i := colour r g b]> matrix).
Proof.
  intros Hi. unfold setRGB.
  replace ((0 <=? i) && (i <? Z.of_nat (length matrix))) with true;
    [reflexivity |].
  symmetry. apply andb_true_iff. split; [apply Z.leb_le | apply Z.ltb_lt]; lia.
Qed.

(** A loop whose indices all lie inside the matrix colours exactly the LEDs
    it names. *)
Lemma set_each_in_bounds indices r g b : forall matrix,
  Forall (fun i => 0 <= i < Z.of_nat (length matrix)) indices ->
  exists matrix1,
    set_each indices matrix r g b = Some matrix1
    /\ length matrix1 = length matrix
    /\ forall k,
         matrix1 !! k
         = if lit indices k then Some (colour r g b) else matrix !! k.
Proof.
  induction indices as [| i rest IH]; intros matrix Hall.
  - exists matrix. repeat split.
  - apply Forall_cons in Hall as [Hi Hrest].
    cbn [set_each]. rewrite setRGB_in_bounds by exact Hi.
    destruct (IH (<[Z.to_nat i := colour r g b]> matrix))
      as (matrix1 & Hrun & Hlen & Hlook).
    { rewrite length_insert. exact Hrest. }
    exists matrix1. split; [exact Hrun |].
    split; [rewrite Hlen; apply length_insert |].
    intros k. rewrite Hlook. unfold lit. cbn [existsb].
    destruct (existsb (Z.eqb (Z.of_nat k)) rest); [rewrite orb_true_r; reflexivity |].
    rewrite orb_false_r.
    destruct (Z.eqb_spec (Z.of_nat k) i) as [Heq | Hne].
    + subst i. rewrite Nat2Z.id. apply list_lookup_insert_eq. lia.
    + apply list_lookup_insert_ne. lia.
Qed.

(** A loop that names an LED outside the matrix runs off the array. *)
Lemma set_each_out_of_bounds indices r g b : forall matrix,
  Exists (fun i => ~ 0 <= i < Z.of_nat (length matrix)) indices ->
  set_each indices matrix r g b = None.
Proof.
  induction indices as [| i rest IH]; intros matrix Hex.
  - apply Exists_nil in Hex. contradiction.
  - cbn [set_each]. unfold setRGB.
    destruct ((0 <=? i) && (i <? Z.of_nat (length matrix))) eqn:Hin;
      [| reflexivity].
    apply IH. rewrite length_insert.
    apply Exists_cons in Hex as [Hhead | Htail]; [| exact Htail].
    apply andb_true_iff in Hin as [H0 H1].
    apply Z.leb_le in H0. apply Z.ltb_lt in H1. lia.
Qed.

(** The LEDs a [for] loop from [from] to [to] names. *)
Lemma lit_range from to k :
  0 <= from ->
  lit (range from to) k = (from <=? Z.of_nat k) && (Z.of_nat k <? to).
Proof.
  intros Hfrom. apply eq_true_iff_eq. unfold lit, range.
  rewrite existsb_exists, andb_true_iff, Z.leb_le, Z.ltb_lt.
  split.
  - intros (i & Hin & Heq). apply Z.eqb_eq in Heq. subst i.
    apply in_map_iff in Hin as (j & Hj & Hin). apply in_seq in Hin. lia.
  - intros [Hlo Hhi]. exists (Z.of_nat k). split; [| apply Z.eqb_refl].
    apply in_map_iff. exists (Z.to_nat (Z.of_nat k - from)).
    split; [lia |]. apply in_seq. lia.
Qed.

Lemma range_in_bounds from to (matrix : list CRGB) :
  0 <= from -> to <= Z.of_nat (length matrix) ->
  Forall (fun i => 0 <= i < Z.of_nat (length matrix)) (range from to).
Proof.
  intros Hfrom Hto. apply Forall_forall. intros i Hin.
  unfold range in Hin. apply list_elem_of_In in Hin.
  apply in_map_iff in Hin as (j & Hj & Hin). apply in_seq in Hin. lia.
Qed.

(** X22.  On a matrix of at least [NUM_LEDS] LEDs, [set_left] followed by
    [set_right] colours LEDs 0 .. NUM_LEDS/2 - 1 with the first colour and
    LEDs NUM_LEDS/2 .. NUM_LEDS - 1 with the second, and leaves any LED
    beyond [NUM_LEDS] as it was; the two halves never overlap and miss no
    LED, so with one colour they do what [set_all] does. *)
Theorem left_and_right_halves NUM_LEDS matrix r1 g1 b1 r2 g2 b2 :
  0 <= NUM_LEDS <= Z.of_nat (length matrix) ->
  exists left both whole,
    set_left NUM_LEDS matrix r1 g1 b1 = Some left
    /\ set_right NUM_LEDS left r2 g2 b2 = Some both
    /\ set_all NUM_LEDS matrix r1 g1 b1 = Some whole
    /\ (forall k,
          both !! k
          = if Z.of_nat k <? Z.quot NUM_LEDS 2 then Some (colour r1 g1 b1)
            else if Z.of_nat k <? NUM_LEDS then Some (colour r2 g2 b2)
            else matrix !! k)
    /\ (forall k,
          whole !! k
          = if Z.of_nat k <? NUM_LEDS then Some (colour r1 g1 b1)
            else matrix !! k)
    /\ ((r2, g2, b2) = (r1, g1, b1) -> both = whole).
Proof.
  intros Hnum.
  assert (Hhalf : 0 <= Z.quot NUM_LEDS 2 <= NUM_LEDS).
  { rewrite Z.quot_div_nonneg by lia.
    split; [apply Z.div_pos; lia | apply Z.div_le_upper_bound; lia]. }
  destruct (set_each_in_bounds (range 0 (Z.quot NUM_LEDS 2)) r1 g1 b1 matrix)
    as (left & Hleft & Hlen_left & Hlook_left);
    [apply range_in_bounds; lia |].
  destruct (set_each_in_bounds (range (Z.quot NUM_LEDS 2) NUM_LEDS) r2 g2 b2 left)
    as (both & Hboth & _ & Hlook_both);
    [apply range_in_bounds; lia |].
  destruct (set_each_in_bounds (range 0 NUM_LEDS) r1 g1 b1 matrix)
    as (whole & Hwhole & _ & Hlook_whole);
    [apply range_in_bounds; lia |].
  assert (Hboth_at : forall k,
            both !! k
            = if Z.of_nat k <? Z.quot NUM_LEDS 2 then Some (colour r1 g1 b1)
              else if Z.of_nat k <? NUM_LEDS then Some (colour r2 g2 b2)
              else matrix !! k).
  { intros k. rewrite Hlook_both, Hlook_left, !lit_range by lia.
    destruct (Z.leb_spec (Z.quot NUM_LEDS 2) (Z.of_nat k));
      destruct (Z.ltb_spec (Z.of_nat k) NUM_LEDS);
      destruct (Z.leb_spec 0 (Z.of_nat k));
      destruct (Z.ltb_spec (Z.of_nat k) (Z.quot NUM_LEDS 2));
      cbn [andb]; try reflexivity; lia. }
  assert (Hwhole_at : forall k,
            whole !! k
            = if Z.of_nat k <? NUM_LEDS then Some (colour r1 g1 b1)
              else matrix !! k).
  { intros k. rewrite Hlook_whole, lit_range by lia.
    destruct (Z.leb_spec 0 (Z.of_nat k));
      destruct (Z.ltb_spec (Z.of_nat k) NUM_LEDS);
      cbn [andb]; try reflexivity; lia. }
  exists left, both, whole.
  split; [exact Hleft |]. split; [exact Hboth |]. split; [exact Hwhole |].
  split; [exact Hboth_at |]. split; [exact Hwhole_at |].
  intros Hsame. inversion Hsame; subst.
  apply list_eq. intros k. rewrite Hboth_at, Hwhole_at.
  destruct (Z.ltb_spec (Z.of_nat k) (Z.quot NUM_LEDS 2));
    destruct (Z.ltb_spec (Z.of_nat k) NUM_LEDS); try reflexivity; lia.
Qed.

(** Five LEDs of a strip of six: blue on LEDs 0 and 1, red on 2 to 4, the
    sixth untouched. *)
Lemma left_and_right_halves_witness :
  0 <= 5 <= Z.of_nat (length (replicate 6 (colour 9 9 9)))
  /\ exists left,
       set_left 5 (replicate 6 (colour 9 9 9)) 0 0 255 = Some left
       /\ set_right 5 left 255 0 0
          = Some [colour 0 0 255; colour 0 0 255; colour 255 0 0;
                  colour 255 0 0; colour 255 0 0; colour 9 9 9].
Proof.
  assert (Hnum : 0 <= 5 <= Z.of_nat (length (replicate 6 (colour 9 9 9))))
    by (cbn; lia).
  split; [exact Hnum |].
  destruct (left_and_right_halves 5 (replicate 6 (colour 9 9 9))
              0 0 255 255 0 0 Hnum)
    as (left & both & whole & Hleft & Hboth & _).
  exists left. split; [exact Hleft |].
  rewrite Hboth. vm_compute in Hleft. inversion Hleft; subst left.
  vm_compute in Hboth. symmetry. exact Hboth.
Defined.

(** The two index tables, as the loops of [set_top] and [set_bottom] read
    them, split the LEDs 0..127 in two. *)
Lemma top_and_bottom_tables :
  map (fun i => LED_matrix_top !!! i) (seq 0 64) = LED_matrix_top
  /\ map (fun i => LED_matrix_bottom !!! i) (seq 0 64) = LED_matrix_bottom
  /\ forall k, (k < 128)%nat ->
       lit LED_matrix_top k = negb (lit LED_matrix_bottom k).
Proof.
  split; [reflexivity |]. split; [reflexivity |].
  assert (Hall : forallb (fun k => eqb (lit LED_matrix_top k)
                                     (negb (lit LED_matrix_bottom k)))
                   (seq 0 128) = true) by (vm_compute; reflexivity).
  intros k Hk. apply eqb_prop.
  apply (proj1 (forallb_forall _ _) Hall). apply in_seq. lia.
Qed.

Lemma table_in_bounds (table : list Z) (matrix : list CRGB) :
  forallb (fun i => (0 <=? i) && (i <? 128)) table = true ->
  length matrix = 128%nat ->
  Forall (fun i => 0 <= i < Z.of_nat (length matrix)) table.
Proof.
  intros Htable Hlen. apply Forall_forall. intros i Hin.
  apply list_elem_of_In in Hin.
  apply (proj1 (forallb_forall _ _) Htable) in Hin.
  apply andb_true_iff in Hin as [H0 H1].
  apply Z.leb_le in H0. apply Z.ltb_lt in H1. lia.
Qed.

(** X23.  On the 128-LED matrix, [set_top] and [set_bottom] each colour
    the 64 LEDs of their table and no other, and the two tables split the
    matrix: every LED is coloured by exactly one of the two, so [set_top]
    followed by [set_bottom] leaves no LED as it was. *)
Theorem top_and_bottom_halves matrix r1 g1 b1 r2 g2 b2 :
  length matrix = 128%nat ->
  exists top both,
    set_top matrix r1 g1 b1 = Some top
    /\ set_bottom top r2 g2 b2 = Some both
    /\ length both = 128%nat
    /\ length (filter (fun k => lit LED_matrix_top k) (seq 0 128)) = 64%nat
    /\ forall k,
         (k < 128)%nat ->
         lit LED_matrix_top k = negb (lit LED_matrix_bottom k)
         /\ top !! k
            = (if lit LED_matrix_top k then Some (colour r1 g1 b1)
               else matrix !! k)
         /\ both !! k
            = Some (if lit LED_matrix_top k then colour r1 g1 b1
                    else colour r2 g2 b2).
Proof.
  intros Hlen.
  destruct top_and_bottom_tables as (Htop & Hbottom & Hsplit).
  unfold set_top, set_bottom. rewrite Htop, Hbottom.
  destruct (set_each_in_bounds LED_matrix_top r1 g1 b1 matrix)
    as (top & Hrun_top & Hlen_top & Hlook_top);
    [apply table_in_bounds; [vm_compute; reflexivity | exact Hlen] |].
  destruct (set_each_in_bounds LED_matrix_bottom r2 g2 b2 top)
    as (both & Hrun_both & Hlen_both & Hlook_both);
    [apply table_in_bounds; [vm_compute; reflexivity | congruence] |].
  exists top, both.
  split; [exact Hrun_top |]. split; [exact Hrun_both |].
  split; [congruence |].
  split; [vm_compute; reflexivity |].
  intros k Hk. split; [apply Hsplit; exact Hk |].
  split; [apply Hlook_top |].
  rewrite Hlook_both, Hlook_top, (Hsplit k Hk).
  destruct (lit LED_matrix_bottom k); reflexivity.
Qed.

(** A dark matrix: green on the top half, then red on the bottom half. *)
Lemma top_and_bottom_halves_witness :
  length (replicate 128 (colour 0 0 0)) = 128%nat
  /\ exists top both,
       set_top (replicate 128 (colour 0 0 0)) 0 255 0 = Some top
       /\ set_bottom top 255 0 0 = Some both
       /\ both !! 3%nat = Some (colour 0 255 0)
       /\ both !! 4%nat = Some (colour 255 0 0).
Proof.
  split; [reflexivity |].
  destruct (top_and_bottom_halves (replicate 128 (colour 0 0 0))
              0 255 0 255 0 0 eq_refl)
    as (top & both & Htop & Hboth & _ & _ & Hlook).
  exists top, both. split; [exact Htop |]. split; [exact Hboth |].
  split.
  - destruct (Hlook 3%nat) as (_ & _ & H); [lia | exact H].
  - destruct (Hlook 4%nat) as (_ & _ & H); [lia | exact H].
Defined.

(** X24.  The loops run off a matrix that is too short: [set_all] and
    [set_right] need [NUM_LEDS] LEDs, and the patterns with fixed tables
    need 128 ([set_top]), 124 ([set_bottom]), 125 ([set_right_dot]), 83
    ([set_low_na]) and 13 ([set_left_dot]) LEDs whatever [NUM_LEDS] is. *)
Theorem patterns_need_their_leds NUM_LEDS matrix r g b :
  (Z.of_nat (length matrix) < NUM_LEDS ->
   set_all NUM_LEDS matrix r g b = None
   /\ set_right NUM_LEDS matrix r g b = None)
  /\ ((length matrix < 128)%nat -> set_top matrix r g b = None)
  /\ ((length matrix < 124)%nat -> set_bottom matrix r g b = None)
  /\ ((length matrix < 125)%nat -> set_right_dot matrix r g b = None)
  /\ ((length matrix < 83)%nat -> set_low_na matrix r g b = None)
  /\ ((length matrix < 13)%nat -> set_left_dot matrix r g b = None).
Proof.
  assert (Htable : forall table i,
             In i table -> Z.of_nat (length matrix) <= i ->
             set_each table matrix r g b = None).
  { intros table i Hin Hi. apply set_each_out_of_bounds.
    apply Exists_exists. exists i.
    split; [apply list_elem_of_In; exact Hin | lia]. }
  destruct top_and_bottom_tables as (Htop & Hbottom & _).
  split; [| split; [| split; [| split; [| split]]]].
  - intros Hshort.
    assert (Hlast : forall from, 0 <= from <= NUM_LEDS - 1 ->
              In (NUM_LEDS - 1) (range from NUM_LEDS)).
    { intros from Hfrom. unfold range. apply in_map_iff.
      exists (Z.to_nat (NUM_LEDS - 1 - from)). split; [lia |].
      apply in_seq. lia. }
    assert (Hhalf : 0 <= Z.quot NUM_LEDS 2 <= NUM_LEDS - 1).
    { rewrite Z.quot_div_nonneg by lia.
      split; [apply Z.div_pos; lia |].
      apply Z.lt_le_pred. apply Z.div_lt_upper_bound; lia. }
    split; apply (Htable _ (NUM_LEDS - 1)); try lia; apply Hlast; lia.
  - intros Hshort. unfold set_top. rewrite Htop.
    apply (Htable _ 127); [unfold LED_matrix_top; cbn [In]; tauto | lia].
  - intros Hshort. unfold set_bottom. rewrite Hbottom.
    apply (Htable _ 123); [unfold LED_matrix_bottom; cbn [In]; tauto | lia].
  - intros Hshort. apply (Htable _ 124); [cbn [In]; tauto | lia].
  - intros Hshort. apply (Htable _ 82); [cbn [In]; tauto | lia].
  - intros Hshort. apply (Htable _ 12); [cbn [In]; tauto | lia].
Qed.

End LedArray_extras.

(** ** The joystick panel *)

Section Joystick_extras.

Import Joystick.

Variables (JOYSTICK_MSG_LENGTH JOYSTICK_SIGN_X JOYSTICK_SIGN_Y : Z)
  (DEBUG_MODE : bool).

Local Abbreviation handler :=
  (onJoystickPacketReceived JOYSTICK_MSG_LENGTH JOYSTICK_SIGN_X JOYSTICK_SIGN_Y
     DEBUG_MODE).
Local Abbreviation receive :=
  (receive_packets JOYSTICK_MSG_LENGTH JOYSTICK_SIGN_X JOYSTICK_SIGN_Y
     DEBUG_MODE).

(** X25.  A packet whose size is not [JOYSTICK_MSG_LENGTH] is ignored: the
    handler returns without touching the focus position, the stored wheel
    position, the deflections, the buttons or the read flag, and without
    consuming the first-packet flag; in debug mode it prints one line. *)
Theorem wrong_size_packet_ignored buffer s :
  Z.of_nat (length buffer) <> JOYSTICK_MSG_LENGTH ->
  exists s1,
    onJoystickPacketReceived JOYSTICK_MSG_LENGTH JOYSTICK_SIGN_X
      JOYSTICK_SIGN_Y DEBUG_MODE buffer s = Some s1
    /\ (focusPosition s1, focuswheel_pos s1,
        first_packet_from_joystick_panel s1,
        joystick_delta_x s1, joystick_delta_y s1, btns s1,
        flag_read_joystick s1)
       = (focusPosition s, focuswheel_pos s,
          first_packet_from_joystick_panel s,
          joystick_delta_x s, joystick_delta_y s, btns s,
          flag_read_joystick s)
    /\ Serial_printed s1
       = Serial_printed s
         ++ (if DEBUG_MODE then [wrong_number_of_bytes_received] else []).
Proof.
  intros Hsize. unfold onJoystickPacketReceived.
  replace (Z.of_nat (length buffer) =? JOYSTICK_MSG_LENGTH) with false
    by (symmetry; apply Z.eqb_neq; exact Hsize).
  cbn [negb]. eexists. split; [reflexivity |].
  destruct DEBUG_MODE; split; try reflexivity.
  symmetry. apply app_nil_r.
Qed.

(** What one call of the handler does to the focus variables. *)
Lemma packet_step buffer s s1 :
  handler buffer s = Some s1 ->
  (Z.of_nat (length buffer) <> JOYSTICK_MSG_LENGTH
   /\ focusPosition s1 = focusPosition s
   /\ focuswheel_pos s1 = focuswheel_pos s
   /\ first_packet_from_joystick_panel s1 = first_packet_from_joystick_panel s)
  \/ (Z.of_nat (length buffer) = JOYSTICK_MSG_LENGTH
      /\ first_packet_from_joystick_panel s1 = false
      /\ focuswheel_pos s1 = wheel_position buffer
      /\ focusPosition s1
         = if first_packet_from_joystick_panel s then focusPosition s
           else focusPosition s + (wheel_position buffer - focuswheel_pos s)).
Proof.
  unfold onJoystickPacketReceived.
  destruct (Z.eqb_spec (Z.of_nat (length buffer)) JOYSTICK_MSG_LENGTH)
    as [Hsize | Hsize]; cbn [negb].
  - destruct (length buffer <? 9)%nat; [discriminate |].
    cbv zeta. intros Hrun. right. split; [exact Hsize |].
    destruct (first_packet_from_joystick_panel s).
    + destruct (in_int _ && in_int _); [| discriminate].
      inversion Hrun; subst s1. repeat split.
    + destruct (in_int _ && in_int _); [| discriminate].
      destruct (in_int _ && in_int _); [| discriminate].
      inversion Hrun; subst s1. repeat split.
  - intros Hrun. left. split; [exact Hsize |].
    inversion Hrun; subst s1. destruct DEBUG_MODE; repeat split.
Qed.

(** After the first packet the focus position moves with the wheel. *)
Lemma focus_offset_kept packets : forall s s1,
  first_packet_from_joystick_panel s = false ->
  receive packets s = Some s1 ->
  first_packet_from_joystick_panel s1 = false
  /\ focusPosition s1 - focuswheel_pos s1 = focusPosition s - focuswheel_pos s.
Proof.
  induction packets as [| buffer packets IH]; intros s s1 Hfirst Hrun;
    cbn [receive_packets] in Hrun.
  - inversion Hrun; subst s1. split; [exact Hfirst | reflexivity].
  - destruct (handler buffer s) as [s0 |] eqn:Hstep; [| discriminate].
    apply packet_step in Hstep
        as [(_ & Hfocus & Hwheel & Hflag) | (_ & Hflag & Hwheel & Hfocus)].
    + destruct (IH s0 s1) as [Hflag1 Hkept];
        [rewrite Hflag; exact Hfirst | exact Hrun |].
      split; [exact Hflag1 | lia].
    + destruct (IH s0 s1 Hflag Hrun) as [Hflag1 Hkept].
      rewrite Hfirst in Hfocus. split; [exact Hflag1 | lia].
Qed.


End Joystick_extras.

(** ** The panel's packets *)

Section Joystick_packets.

Import Joystick.

(** Or-ing onto a multiple of [2 ^ k] a value below [2 ^ k] adds it. *)
Lemma lor_disjoint a b k :
  0 <= k -> 0 <= b < 2 ^ k -> a mod 2 ^ k = 0 -> Z.lor a b = a + b.
Proof.
  intros Hk Hb Ha.
  assert (Hdisj : Z.land a b = 0).
  { apply Z.bits_inj'. intros n Hn.
    rewrite Z.land_spec, Z.bits_0.
    destruct (Z.ltb_spec n k) as [Hlt | Hge].
    - rewrite <- (Z.mod_pow2_bits_low a k n) by lia.
      rewrite Ha, Z.bits_0. reflexivity.
    - assert (Z.testbit b n = false) as ->; [| apply andb_false_r].
      destruct (Z.eq_dec b 0) as [-> | Hnz]; [apply Z.bits_0 |].
      apply Z.bits_above_log2; [lia |].
      assert (Z.log2 b < k); [| lia].
      apply Z.log2_lt_pow2; lia. }
  rewrite <- Z.lxor_lor by exact Hdisj.
  symmetry. apply Z.add_nocarry_lxor. exact Hdisj.
Qed.

(** Four big-endian bytes and back. *)
Lemma wheel_position_of_packet wheel dx dy buttons rest :
  - 2 ^ 31 <= wheel < 2 ^ 31 ->
  wheel_position (panel_packet wheel dx dy buttons ++ rest) = wheel.
Proof.
  intros Hwheel. unfold wheel_position, panel_packet. cbn [app].
  cbn [lookup_total list_lookup_total].
  set (W := to_u32 wheel).
  assert (HW : 0 <= W < 2 ^ 32)
    by (subst W; unfold to_u32; apply Z.mod_pos_bound; lia).
  rewrite !land_0xFF, !Z.shiftr_div_pow2, !Z.shiftl_mul_pow2 by lia.
  change (2 ^ 24) with 16777216. change (2 ^ 16) with 65536.
  change (2 ^ 8) with 256.
  unfold to_u32. change (2 ^ 32) with 4294967296 in *.
  rewrite !(Z.mod_small (_ * _) 4294967296)
    by (split; [apply Z.mul_nonneg_nonneg; [apply Z.mod_pos_bound |]; lia
               | pose proof (Z.mod_pos_bound (W / 16777216) 256);
                 pose proof (Z.mod_pos_bound (W / 65536) 256);
                 pose proof (Z.mod_pos_bound (W / 256) 256); lia]).
  set (B3 := (W / 16777216) mod 256). set (B2 := (W / 65536) mod 256).
  set (B1 := (W / 256) mod 256). set (B0 := W mod 256).
  assert (H3 : 0 <= B3 < 256) by (apply Z.mod_pos_bound; lia).
  assert (H2 : 0 <= B2 < 256) by (apply Z.mod_pos_bound; lia).
  assert (H1 : 0 <= B1 < 256) by (apply Z.mod_pos_bound; lia).
  assert (H0 : 0 <= B0 < 256) by (apply Z.mod_pos_bound; lia).
  rewrite (lor_disjoint (B3 * 16777216) (B2 * 65536) 24);
    [| lia | change (2 ^ 24) with 16777216; lia
     | change (2 ^ 24) with 16777216; apply Z.mod_mul; lia].
  rewrite (lor_disjoint (B3 * 16777216 + B2 * 65536) (B1 * 256) 16);
    [| lia | change (2 ^ 16) with 65536; lia
     | change (2 ^ 16) with 65536;
       replace (B3 * 16777216 + B2 * 65536) with ((B3 * 256 + B2) * 65536)
         by lia;
       apply Z.mod_mul; lia].
  rewrite (lor_disjoint (B3 * 16777216 + B2 * 65536 + B1 * 256) B0 8);
    [| lia | change (2 ^ 8) with 256; lia
     | change (2 ^ 8) with 256;
       replace (B3 * 16777216 + B2 * 65536 + B1 * 256)
         with ((B3 * 65536 + B2 * 256 + B1) * 256) by lia;
       apply Z.mod_mul; lia].
  replace (B3 * 16777216 + B2 * 65536 + B1 * 256 + B0) with W
    by (subst B3 B2 B1 B0; clear - HW; Z.div_mod_to_equations; lia).
  subst W. unfold to_i32, to_u32.
  change (2 ^ 32) with 4294967296. change (2 ^ 31) with 2147483648 in *.
  rewrite Z.add_mod_idemp_l by lia.
  rewrite Z.mod_small by lia. lia.
Qed.

(** Two big-endian bytes and back. *)
Lemma deflection_of_packet v :
  - 2 ^ 15 <= v < 2 ^ 15 ->
  deflection (Z.land (Z.shiftr (to_u16 v) 8) 0xFF) (Z.land (to_u16 v) 0xFF) = v.
Proof.
  intros Hv. unfold deflection.
  rewrite !land_0xFF, shiftr_8.
  set (V := to_u16 v).
  assert (HV : 0 <= V < 65536) by apply to_u16_range.
  rewrite !to_u16_id
    by (pose proof (Z.mod_pos_bound (V / 256) 256);
        pose proof (Z.mod_pos_bound V 256); lia).
  replace ((V / 256) mod 256 * 256 + V mod 256) with V
    by (clear - HV; Z.div_mod_to_equations; lia).
  subst V. unfold to_i16, to_u16.
  change (2 ^ 16) with 65536. change (2 ^ 15) with 32768 in *.
  rewrite Z.add_mod_idemp_l by lia.
  rewrite Z.mod_small by lia. lia.
Qed.

(** X27.  A packet of the size the build expects, whose first nine bytes
    are what the panel encodes (the handler reads no byte behind them), is
    decoded to what was encoded: the wheel position is read back as a signed
    32-bit number and each deflection as a signed 16-bit number times its
    sign constant, stored in 16 bits again; the buttons are copied, the read
    flag is raised and nothing is printed.  With a sign constant of 1 or -1
    the deflection comes out as it went in, respectively negated, except
    that -32768 stays -32768 under -1.  The focus position moves by the
    wheel travel since the packet before, except on the first packet.  This
    holds for every value of [JOYSTICK_MSG_LENGTH] from nine on and for all
    sign constants whose products fit an [int]. *)
Theorem panel_packet_decoded JOYSTICK_MSG_LENGTH JOYSTICK_SIGN_X
  JOYSTICK_SIGN_Y DEBUG_MODE wheel dx dy buttons rest s :
  JOYSTICK_MSG_LENGTH = 9 + Z.of_nat (length rest) ->
  - 2 ^ 31 <= wheel < 2 ^ 31 ->
  - 2 ^ 15 <= dx < 2 ^ 15 ->
  - 2 ^ 15 <= dy < 2 ^ 15 ->
  - 2 ^ 31 <= JOYSTICK_SIGN_X * dx < 2 ^ 31 ->
  - 2 ^ 31 <= JOYSTICK_SIGN_Y * dy < 2 ^ 31 ->
  (first_packet_from_joystick_panel s = false ->
   - 2 ^ 31 <= wheel - focuswheel_pos s < 2 ^ 31
   /\ - 2 ^ 31 <= focusPosition s + (wheel - focuswheel_pos s) < 2 ^ 31) ->
  exists s1,
    onJoystickPacketReceived JOYSTICK_MSG_LENGTH JOYSTICK_SIGN_X
      JOYSTICK_SIGN_Y DEBUG_MODE
      (panel_packet wheel dx dy buttons ++ rest) s = Some s1
    /\ focuswheel_pos s1 = wheel
    /\ focusPosition s1
       = (if first_packet_from_joystick_panel s then focusPosition s
          else focusPosition s + (wheel - focuswheel_pos s))
    /\ first_packet_from_joystick_panel s1 = false
    /\ joystick_delta_x s1 = to_i16 (JOYSTICK_SIGN_X * dx)
    /\ joystick_delta_y s1 = to_i16 (JOYSTICK_SIGN_Y * dy)
    /\ (JOYSTICK_SIGN_X = 1 \/ JOYSTICK_SIGN_X = -1 ->
        joystick_delta_x s1
        = (if (JOYSTICK_SIGN_X =? -1) && (dx =? - 2 ^ 15) then - 2 ^ 15
           else JOYSTICK_SIGN_X * dx))
    /\ (JOYSTICK_SIGN_Y = 1 \/ JOYSTICK_SIGN_Y = -1 ->
        joystick_delta_y s1
        = (if (JOYSTICK_SIGN_Y =? -1) && (dy =? - 2 ^ 15) then - 2 ^ 15
           else JOYSTICK_SIGN_Y * dy))
    /\ btns s1 = buttons
    /\ flag_read_joystick s1 = true
    /\ Serial_printed s1 = Serial_printed s.
Proof.
  intros Hsize Hwheel Hdx Hdy Hpx Hpy Hfocus.
  assert (Hsigned : forall sign v,
             sign = 1 \/ sign = -1 -> - 2 ^ 15 <= v < 2 ^ 15 ->
             to_i16 (sign * v)
             = if (sign =? -1) && (v =? - 2 ^ 15) then - 2 ^ 15
               else sign * v).
  { intros sign v Hsign Hv. change (2 ^ 15) with 32768 in *.
    unfold to_i16. change (2 ^ 15) with 32768. change (2 ^ 16) with 65536.
    destruct Hsign as [-> | ->].
    - cbn [Z.eqb andb]. rewrite Z.mod_small by lia. lia.
    - rewrite Z.eqb_refl. cbn [andb].
      destruct (Z.eqb_spec v (Z.opp 32768)) as [-> | Hne]; [reflexivity |].
      rewrite Z.mod_small by lia. lia. }
  assert (Hint : forall v, - 2 ^ 31 <= v < 2 ^ 31 -> in_int v = true).
  { intros v Hv. unfold in_int. apply andb_true_iff.
    split; [apply Z.leb_le | apply Z.ltb_lt]; lia. }
  assert (Hlength : length (panel_packet wheel dx dy buttons ++ rest)
                    = (9 + length rest)%nat)
    by (rewrite length_app; reflexivity).
  unfold onJoystickPacketReceived.
  replace (Z.of_nat (length (panel_packet wheel dx dy buttons ++ rest))
           =? JOYSTICK_MSG_LENGTH) with true
    by (symmetry; apply Z.eqb_eq; rewrite Hlength; lia).
  replace (length (panel_packet wheel dx dy buttons ++ rest) <? 9)%nat
    with false by (symmetry; apply Nat.ltb_ge; rewrite Hlength; lia).
  cbn [negb]. cbv zeta.
  rewrite wheel_position_of_packet by exact Hwheel.
  change ((panel_packet wheel dx dy buttons ++ rest) !!! 4%nat)
    with (Z.land (Z.shiftr (to_u16 dx) 8) 0xFF).
  change ((panel_packet wheel dx dy buttons ++ rest) !!! 5%nat)
    with (Z.land (to_u16 dx) 0xFF).
  change ((panel_packet wheel dx dy buttons ++ rest) !!! 6%nat)
    with (Z.land (Z.shiftr (to_u16 dy) 8) 0xFF).
  change ((panel_packet wheel dx dy buttons ++ rest) !!! 7%nat)
    with (Z.land (to_u16 dy) 0xFF).
  change ((panel_packet wheel dx dy buttons ++ rest) !!! 8%nat) with buttons.
  rewrite !deflection_of_packet by assumption.
  rewrite (Hint _ Hpx), (Hint _ Hpy). cbn [andb].
  destruct (first_packet_from_joystick_panel s) eqn:Hfirst.
  - eexists. split; [reflexivity |].
    repeat (split; [reflexivity |]).
    split; [intros Hsx; apply Hsigned; assumption |].
    split; [intros Hsy; apply Hsigned; assumption |].
    repeat split.
  - destruct (Hfocus eq_refl) as [Hturn Hsum].
    rewrite (Hint _ Hturn), (Hint _ Hsum). cbn [andb].
    eexists. split; [reflexivity |].
    repeat (split; [reflexivity |]).
    split; [intros Hsx; apply Hsigned; assumption |].
    split; [intros Hsy; apply Hsigned; assumption |].
    repeat split.
Qed.

(** A build with ten-byte packets and the x axis reversed.  The first
    packet after power on: wheel at -5, full deflection to the left, one
    byte the handler does not read. *)
Lemma panel_packet_decoded_witness :
  (10 = 9 + Z.of_nat (length [0x5A])
   /\ - 2 ^ 31 <= -5 < 2 ^ 31 /\ - 2 ^ 15 <= -32768 < 2 ^ 15
   /\ - 2 ^ 15 <= 100 < 2 ^ 15
   /\ - 2 ^ 31 <= -1 * -32768 < 2 ^ 31 /\ - 2 ^ 31 <= 1 * 100 < 2 ^ 31)
  /\ panel_packet (-5) (-32768) 100 1 ++ [0x5A]
     = [255; 255; 255; 251; 128; 0; 0; 100; 1; 0x5A]
  /\ exists s1,
       onJoystickPacketReceived 10 (-1) 1 false
         (panel_packet (-5) (-32768) 100 1 ++ [0x5A]) power_on = Some s1
       /\ focuswheel_pos s1 = -5
       /\ joystick_delta_x s1 = -32768
       /\ joystick_delta_y s1 = 100.
Proof.
  split; [cbn [length]; lia |]. split; [vm_compute; reflexivity |].
  destruct (panel_packet_decoded 10 (-1) 1 false (-5) (-32768) 100 1 [0x5A]
              power_on)
    as (s1 & Hrun & Hwheel & _ & _ & _ & _ & Hx & Hy & _);
    [reflexivity | lia | lia | lia | lia | lia
    | intros Hfirst; discriminate Hfirst |].
  exists s1. split; [exact Hrun |]. split; [exact Hwheel |].
  split; [apply Hx; right; reflexivity | apply Hy; left; reflexivity].
Defined.

(** An eight-byte packet sent to a handler that expects nine bytes. *)
Lemma wrong_size_packet_ignored_witness :
  Z.of_nat (length [1; 2; 3; 4; 5; 6; 7; 8]) <> 9
  /\ onJoystickPacketReceived 9 1 1 true [1; 2; 3; 4; 5; 6; 7; 8] power_on
     = Some (Serial_println wrong_number_of_bytes_received power_on).
Proof.
  assert (Hsize : Z.of_nat (length [1; 2; 3; 4; 5; 6; 7; 8]) <> 9)
    by (cbn; lia).
  split; [exact Hsize |].
  destruct (wrong_size_packet_ignored 9 1 1 true [1; 2; 3; 4; 5; 6; 7; 8]
              power_on Hsize) as (s1 & Hrun & _).
  rewrite Hrun. vm_compute in Hrun. symmetry. exact Hrun.
Defined.


End Joystick_packets.
